(** * Bank-review harvester: date normaliser, text filter, scroll
      controller, field extraction, fingerprint deduplication and the run
      over one bank

    A shallow embedding of [data_cleaning_pipeline.py] (the nested function
    [parse_relative_date] of [normalize_review_dates] and the nested
    function [is_valid_text] of [clean_review_text]) and of
    [google_maps_scraper.py] ([search_bank], [scroll_search_results],
    [extract_branch_links], [visit_branch_and_get_reviews],
    [scroll_reviews_panel], [extract_reviews_from_page],
    [scrape_bank_branches]).

    Conventions.
    - Python [str] values are Rocq strings: a character is its code point,
      and the code points are those below 256 (Latin-1). Whitespace, digits,
      word characters and lower case are what Python makes of these code
      points.
    - A Python call that may raise returns a [result]; [try/except] blocks of
      the source are written out as matches on it.
    - The browser is an oracle: what [get], [find_element], [find_elements],
      [get_attribute], [location], [click] and [execute_script] answer is
      data of the page model, and a [None] answer stands for the call
      raising.
    - [float(...)] of a digit string is the double nearest to the number the
      digits spell, or infinity; a double with a whole value is carried as
      that value.
    - [datetime], [timedelta] and [relativedelta] are computed.
      [pandas.Timestamp] is a [datetime] that may refuse a call its base
      class would carry out: which calls it refuses depends on the version
      of pandas and is taken from the runtime, as is what [strftime] writes
      for a year below 1000. The fields below the second, which offsets of
      whole minutes never reach, are left out. *)

From stdpp Require Import base strings pretty list gmap sets.
From Stdlib Require Import ZArith Lia Ascii.

Open Scope Z_scope.

(** ** Python values that raise *)

Inductive exn : Type :=
  | ValueError
  | OverflowError
  | OutOfBoundsDatetime
  | OutOfBoundsTimedelta.

Inductive result (A : Type) : Type :=
  | Ok (a : A)
  | Raise (e : exn).
Arguments Ok {A} a.
Arguments Raise {A} e.

(** Sequencing: the first exception ends the computation. *)
#[global] Instance result_ret : MRet result := fun _ a => Ok a.
#[global] Instance result_bind : MBind result := fun _ _ k r =>
  match r with
  | Ok a => k a
  | Raise e => Raise e
  end.

(** ** Strings as Python uses them *)

Module PyStr.

Definition code (c : ascii) : N := N_of_ascii c.

(** [str.isspace]: the code points 9 to 13, 28 to 32, 133 and 160.
    [str.strip] and the class [\s] of [re] use the same set. *)
Definition is_space (c : ascii) : bool :=
  let n := code c in
  (((9 <=? n) && (n <=? 13)) || ((28 <=? n) && (n <=? 32))
   || (n =? 133) || (n =? 160))%N.

(** The class [\d] of [re]: below 256 the decimal digits are 0 to 9. *)
Definition is_digit (c : ascii) : bool :=
  let n := code c in ((48 <=? n) && (n <=? 57))%N.

(** The class [[a-z]]. *)
Definition is_az (c : ascii) : bool :=
  let n := code c in ((97 <=? n) && (n <=? 122))%N.

Definition is_AZ (c : ascii) : bool :=
  let n := code c in ((65 <=? n) && (n <=? 90))%N.

(** [str.lower] on one character: the letters A to Z and the capital
    letters of Latin-1 (192 to 222 without the multiplication sign, 215)
    move up by 32. *)
Definition lower_char (c : ascii) : ascii :=
  let n := code c in
  if (is_AZ c || ((192 <=? n) && (n <=? 222) && negb (n =? 215)))%N
  then ascii_of_N (n + 32) else c.

(** [s.lower()] *)
Fixpoint lower (s : string) : string :=
  match s with
  | EmptyString => EmptyString
  | String c r => String (lower_char c) (lower r)
  end.

(** [s.lstrip()] *)
Fixpoint lstrip (s : string) : string :=
  match s with
  | EmptyString => EmptyString
  | String c r => if is_space c then lstrip r else s
  end.

(** [s.rstrip()]: a character is dropped when it is whitespace and nothing
    is left behind it. *)
Fixpoint rstrip (s : string) : string :=
  match s with
  | EmptyString => EmptyString
  | String c r =>
      match rstrip r with
      | EmptyString => if is_space c then EmptyString else String c EmptyString
      | r' => String c r'
      end
  end.

(** [s.strip()] *)
Definition strip (s : string) : string := rstrip (lstrip s).

(** The longest prefix of [s] in the class [p], and what follows it: a
    greedy [p*] of a regular expression. *)
Fixpoint span (p : ascii -> bool) (s : string) : string * string :=
  match s with
  | EmptyString => (EmptyString, EmptyString)
  | String c r =>
      if p c then let '(a, b) := span p r in (String c a, b)
      else (EmptyString, s)
  end.

(** [s.startswith(p)], returning what follows the prefix. *)
Fixpoint strip_prefix (p s : string) : option string :=
  match p, s with
  | EmptyString, _ => Some s
  | String a p', String b s' =>
      if decide (a = b) then strip_prefix p' s' else None
  | String _ _, EmptyString => None
  end.

(** [p in s] *)
Fixpoint contains (p s : string) : bool :=
  match strip_prefix p s with
  | Some _ => true
  | None =>
      match s with
      | EmptyString => false
      | String _ r => contains p r
      end
  end.

(** [s[:n]] *)
Fixpoint take (n : nat) (s : string) : string :=
  match n, s with
  | O, _ => EmptyString
  | S n', String c r => String c (take n' r)
  | S _, EmptyString => EmptyString
  end.

Definition digit_value (c : ascii) : Z := Z.of_N (code c) - 48.

Fixpoint int_digits_go (acc : Z) (s : string) : Z :=
  match s with
  | EmptyString => acc
  | String c r => int_digits_go (10 * acc + digit_value c) r
  end.

(** CPython's limit on the number of digits [int] accepts. *)
Definition max_str_digits : nat := 4300.

(** [int(s)] for a string of decimal digits, as the pattern [\d+] hands
    over; beyond [max_str_digits] digits [int] raises [ValueError]. *)
Definition int_of_digits (s : string) : result Z :=
  if decide (String.length s <= max_str_digits)%nat
  then Ok (int_digits_go 0 s)
  else Raise ValueError.

(** [str(n).rjust(w, '0')] for a non-negative [n]: the padding of
    [strftime]. *)
Fixpoint zeros (k : nat) : string :=
  match k with
  | O => EmptyString
  | S k' => String "0" (zeros k')
  end.

Definition zfill (w : nat) (n : Z) : string :=
  let s := pretty n in
  zeros (w - String.length s) +:+ s.

End PyStr.

(** ** Dates and durations: [datetime], [timedelta], [relativedelta] *)

Module DateTime.

Record datetime : Type := mk_datetime {
  year : Z; month : Z; day : Z;
  hour : Z; minute : Z; second : Z
}.

Definition MINYEAR : Z := 1.
Definition MAXYEAR : Z := 9999.
Definition MAXORDINAL : Z := 3652059.

Definition is_leap (y : Z) : bool :=
  (y mod 4 =? 0) && (negb (y mod 100 =? 0) || (y mod 400 =? 0)).

(** The table [_DAYS_IN_MONTH]. *)
Definition DAYS_IN_MONTH (m : Z) : Z :=
  match m with
  | 1 => 31 | 2 => 28 | 3 => 31 | 4 => 30 | 5 => 31 | 6 => 30
  | 7 => 31 | 8 => 31 | 9 => 30 | 10 => 31 | 11 => 30 | 12 => 31
  | _ => 0
  end.

(** The table [_DAYS_BEFORE_MONTH]. *)
Definition DAYS_BEFORE_MONTH (m : Z) : Z :=
  match m with
  | 1 => 0 | 2 => 31 | 3 => 59 | 4 => 90 | 5 => 120 | 6 => 151
  | 7 => 181 | 8 => 212 | 9 => 243 | 10 => 273 | 11 => 304 | 12 => 334
  | _ => 0
  end.

(** [calendar.monthrange(y, m)[1]], also [_days_in_month]. *)
Definition days_in_month (y m : Z) : Z :=
  if (m =? 2) && is_leap y then 29 else DAYS_IN_MONTH m.

Definition days_before_year (y : Z) : Z :=
  let p := y - 1 in p * 365 + p / 4 - p / 100 + p / 400.

Definition days_before_month (y m : Z) : Z :=
  DAYS_BEFORE_MONTH m + (if (2 <? m) && is_leap y then 1 else 0).

(** [date.toordinal]: 0001-01-01 is day 1. *)
Definition ymd2ord (y m d : Z) : Z :=
  days_before_year y + days_before_month y m + d.

Definition toordinal (t : datetime) : Z := ymd2ord (year t) (month t) (day t).

Definition DI400Y : Z := 146097.
Definition DI100Y : Z := 36524.
Definition DI4Y : Z := 1461.

(** [_ord2ymd] of [datetime]. *)
Definition ord2ymd (ordinal : Z) : Z * Z * Z :=
  let n := ordinal - 1 in
  let n400 := n / DI400Y in
  let n := n mod DI400Y in
  let y := n400 * 400 + 1 in
  let n100 := n / DI100Y in
  let n := n mod DI100Y in
  let n4 := n / DI4Y in
  let n := n mod DI4Y in
  let n1 := n / 365 in
  let n := n mod 365 in
  let y := y + n100 * 100 + n4 * 4 + n1 in
  if (n1 =? 4) || (n100 =? 4) then (y - 1, 12, 31)
  else
    let leapyear := (n1 =? 3) && (negb (n4 =? 24) || (n100 =? 3)) in
    let m := Z.shiftr (n + 50) 5 in
    let preceding := DAYS_BEFORE_MONTH m + (if (2 <? m) && leapyear then 1 else 0) in
    if n <? preceding then
      let m' := m - 1 in
      let preceding' :=
        preceding - (DAYS_IN_MONTH m' + (if (m' =? 2) && leapyear then 1 else 0)) in
      (y, m', n - preceding' + 1)
    else (y, m, n - preceding + 1).

(** A timestamp of [datetime]: years 1 to 9999, a day of the month, a
    time of the day. *)
Definition valid (t : datetime) : Prop :=
  MINYEAR <= year t <= MAXYEAR /\ 1 <= month t <= 12 /\
  1 <= day t <= days_in_month (year t) (month t) /\
  0 <= hour t < 24 /\ 0 <= minute t < 60 /\ 0 <= second t < 60.

(** [t.replace(year=y, month=m, day=d)] as [datetime] carries it out;
    [relativedelta] calls it with a month in 1..12 and a day clamped to the
    month; the year is checked. *)
Definition replace_ymd (t : datetime) (y m d : Z) : result datetime :=
  if (MINYEAR <=? y) && (y <=? MAXYEAR)
  then Ok (mk_datetime y m d (hour t) (minute t) (second t))
  else Raise ValueError.

(** A [timedelta], normalised: whole days and 0 <= seconds < 86400. *)
Record timedelta : Type := mk_timedelta { td_days : Z; td_seconds : Z }.

Definition MAX_DELTA_DAYS : Z := 999999999.

(** [timedelta(days=, hours=, minutes=)]: the fields are summed, normalised
    and the day count is checked. *)
Definition new_timedelta (days hours minutes : Z) : result timedelta :=
  let s := days * 86400 + hours * 3600 + minutes * 60 in
  let d := s / 86400 in
  if (- MAX_DELTA_DAYS <=? d) && (d <=? MAX_DELTA_DAYS)
  then Ok (mk_timedelta d (s mod 86400))
  else Raise OverflowError.

(** [-delta] *)
Definition neg_timedelta (delta : timedelta) : result timedelta :=
  let s := - (td_days delta * 86400 + td_seconds delta) in
  let d := s / 86400 in
  if (- MAX_DELTA_DAYS <=? d) && (d <=? MAX_DELTA_DAYS)
  then Ok (mk_timedelta d (s mod 86400))
  else Raise OverflowError.

(** [t + delta] as [datetime] carries it out ([datetime.__add__]):
    through the ordinal of the date and the seconds of the day, then back,
    when the day is in range. *)
Definition add_timedelta (t : datetime) (delta : timedelta) : result datetime :=
  let s := toordinal t * 86400 + hour t * 3600 + minute t * 60 + second t
           + td_days delta * 86400 + td_seconds delta in
  let d := s / 86400 in
  let sec := s mod 86400 in
  if (0 <? d) && (d <=? MAXORDINAL) then
    let '(y, m, dd) := ord2ymd d in
    Ok (mk_datetime y m dd (sec / 3600) ((sec mod 3600) / 60) (sec mod 60))
  else Raise OverflowError.

(** [t - delta] is [t + (-delta)]. *)
Definition sub_timedelta (t : datetime) (delta : timedelta) : result datetime :=
  nd ← neg_timedelta delta; add_timedelta t nd.

(** [dateutil.relativedelta]: the relative fields that its three uses here
    set; the other relative fields stay 0 and the absolute ones unset. *)
Record relativedelta : Type := mk_relativedelta {
  rd_years : Z; rd_months : Z; rd_days : Z
}.

(** [_sign] *)
Definition sign (x : Z) : Z := if x <? 0 then -1 else 1.

(** [relativedelta(years=, months=, weeks=)] with its [_fix]: more than 11
    months carry into the years. *)
Definition new_relativedelta (years months weeks : Z) : relativedelta :=
  let days := weeks * 7 in
  if 11 <? Z.abs months then
    let s := sign months in
    let q := (months * s) / 12 in
    let r := (months * s) mod 12 in
    mk_relativedelta (years + q * s) (r * s) days
  else mk_relativedelta years months days.

(** [-rd]: every field negated; [_fix] has nothing to carry, the months
    being below 12 already. *)
Definition neg_relativedelta (rd : relativedelta) : relativedelta :=
  mk_relativedelta (- rd_years rd) (- rd_months rd) (- rd_days rd).

(** [t + rd] ([relativedelta.__radd__]). The method works on whatever
    [t] is through its [replace] and its [+]. *)
Definition add_relativedelta_via
    (replace : datetime -> Z -> Z -> Z -> result datetime)
    (add : datetime -> timedelta -> result datetime)
    (t : datetime) (rd : relativedelta) : result datetime :=
  let y := year t + rd_years rd in
  let m := month t in
  let '(y, m) :=
    if rd_months rd =? 0 then (y, m)
    else
      let m := m + rd_months rd in
      if 12 <? m then (y + 1, m - 12)
      else if m <? 1 then (y - 1, m + 12)
      else (y, m) in
  let d := Z.min (days_in_month y m) (day t) in
  t' ← replace t y m d;
  delta ← new_timedelta (rd_days rd) 0 0;
  add t' delta.

(** [t + rd] and [t - rd] ([relativedelta.__rsub__]) for a plain
    [datetime]. *)
Definition add_relativedelta (t : datetime) (rd : relativedelta) : result datetime :=
  add_relativedelta_via replace_ymd add_timedelta t rd.

Definition sub_relativedelta (t : datetime) (rd : relativedelta) : result datetime :=
  add_relativedelta t (neg_relativedelta rd).

(** *** [pandas.Timestamp] *)

(** The years in which every version of pandas holds a timestamp of
    nanosecond resolution from the first to the last second. *)
Definition in_window (t : datetime) : Prop := 1678 <= year t <= 2261.

(** The offsets that fit a [Timedelta] of nanosecond resolution: up to
    106751 days either way. *)
Definition in_reach (delta : timedelta) : Prop :=
  - 106751 <= td_days delta < 106751.

(** What the model takes from pandas and from the platform without
    computing it:
    - [replace_raises t y m d]: the exception with which
      [t.replace(year=y, month=m, day=d)] is refused, if it is;
    - [add_raises t delta]: the same for [t + delta];
    - [short_year y]: what [strftime] writes for [%Y] when the year is
      below 1000 (glibc does not pad it).
    A timestamp can be replaced by itself; and within the window, with
    offsets within reach, nothing is refused. *)
Class PandasRuntime : Type := {
  replace_raises : datetime -> Z -> Z -> Z -> option exn;
  add_raises : datetime -> timedelta -> option exn;
  short_year : Z -> string;
  replace_same : forall t,
    replace_raises t (year t) (month t) (day t) = None;
  replace_in_window : forall t y m d,
    valid t -> in_window t ->
    1678 <= y <= 2261 -> 1 <= m <= 12 -> 1 <= d <= days_in_month y m ->
    replace_raises t y m d = None;
  add_in_window : forall t delta t',
    valid t -> in_window t -> in_reach delta ->
    add_timedelta t delta = Ok t' -> in_window t' ->
    add_raises t delta = None
}.

Section Timestamp.
Context {pd : PandasRuntime}.

(** [t.replace(year=y, month=m, day=d)] on a [Timestamp]. *)
Definition Timestamp_replace (t : datetime) (y m d : Z) : result datetime :=
  match replace_raises t y m d with
  | Some e => Raise e
  | None => replace_ymd t y m d
  end.

(** [t + delta] on a [Timestamp]. *)
Definition Timestamp_add (t : datetime) (delta : timedelta) : result datetime :=
  match add_raises t delta with
  | Some e => Raise e
  | None => add_timedelta t delta
  end.

(** [t - delta] on a [Timestamp] is [t + (-delta)]. *)
Definition Timestamp_sub (t : datetime) (delta : timedelta) : result datetime :=
  nd ← neg_timedelta delta; Timestamp_add t nd.

(** [t - rd] for a [Timestamp]. *)
Definition Timestamp_sub_relativedelta (t : datetime) (rd : relativedelta)
    : result datetime :=
  add_relativedelta_via Timestamp_replace Timestamp_add t (neg_relativedelta rd).

(** [t.strftime("%Y-%m-%d")]: month and day are padded to two digits. A
    year from 1000 on is written with all its digits, to which the padding
    to four adds nothing; a year below 1000 is written as the platform
    writes it. *)
Definition strftime_ymd (t : datetime) : string :=
  (if 1000 <=? year t then PyStr.zfill 4 (year t) else short_year (year t))
    +:+ "-" +:+ PyStr.zfill 2 (month t) +:+ "-" +:+ PyStr.zfill 2 (day t).

End Timestamp.

End DateTime.

(** ** [data_cleaning_pipeline.py]: the relative-date normaliser *)

Module Cleaning.
Import PyStr DateTime.

(** What [logger.warning] is called with. *)
Inductive warning : Type :=
  | Unrecognised_relative_date (relative : string)
  | Unhandled_time_unit (relative : string).

(** The tail [\s+([a-z]+)] of the pattern, returning group 2. Both
    repetitions are greedy, and giving characters back cannot help: what
    follows the whitespace must be a letter, and the pattern ends after
    the letters. *)
Definition match_unit (rest : string) : option string :=
  let '(ws, r) := span is_space rest in
  match ws with
  | EmptyString => None
  | String _ _ =>
      let '(u, _) := span is_az r in
      match u with
      | EmptyString => None
      | String _ _ => Some u
      end
  end.

(** One literal alternative of group 1, followed by the tail. *)
Definition match_word (q text : string) : option (string * string) :=
  match strip_prefix q text with
  | Some rest =>
      match match_unit rest with
      | Some u => Some (q, u)
      | None => None
      end
  | None => None
  end.

(** The alternative [\d+] of group 1, followed by the tail; a shorter run
    of digits would be followed by a digit, not by whitespace. *)
Definition match_digits (text : string) : option (string * string) :=
  let '(ds, rest) := span is_digit text in
  match ds with
  | EmptyString => None
  | String _ _ =>
      match match_unit rest with
      | Some u => Some (ds, u)
      | None => None
      end
  end.

(** [re.match(r"(a|an|\d+)\s+([a-z]+)", text)] and [m.groups()]: the
    alternatives are tried in the order they are written. *)
Definition re_match_relative (text : string) : option (string * string) :=
  match match_word "a" text with
  | Some g => Some g
  | None =>
      match match_word "an" text with
      | Some g => Some g
      | None => match_digits text
      end
  end.

(** [1 if n_raw in {"a", "an"} else int(n_raw)] *)
Definition quantity (n_raw : string) : result Z :=
  if decide (n_raw = "a" ∨ n_raw = "an") then Ok 1 else int_of_digits n_raw.

(** The offset objects of the source. *)
Inductive delta : Type :=
  | Relative (rd : relativedelta)
  | Fixed (td : timedelta).

(** The [if "year" in unit: ... elif ...] chain; [None] is its [else]. *)
Definition pick_delta (unit : string) (n : Z) : option (result delta) :=
  if contains "year" unit then Some (Ok (Relative (new_relativedelta n 0 0)))
  else if contains "month" unit then Some (Ok (Relative (new_relativedelta 0 n 0)))
  else if contains "week" unit then Some (Ok (Relative (new_relativedelta 0 0 n)))
  else if contains "day" unit then Some (td ← new_timedelta n 0 0; Ok (Fixed td))
  else if contains "hour" unit then Some (td ← new_timedelta 0 n 0; Ok (Fixed td))
  else if contains "minute" unit then Some (td ← new_timedelta 0 0 n; Ok (Fixed td))
  else None.

Section Normaliser.
Context {pd : PandasRuntime}.

(** [base - delta], where [base] is a [Timestamp]. *)
Definition sub_delta (base : datetime) (d : delta) : result datetime :=
  match d with
  | Relative rd => Timestamp_sub_relativedelta base rd
  | Fixed td => Timestamp_sub base td
  end.

(** [parse_relative_date(relative, scraped_at)]. [relative] is [None] when
    [pd.isna] holds of it; [base] is [pd.to_datetime(scraped_at)]. The
    second component is what was logged. *)
Definition parse_relative_date (relative : option string) (base : datetime)
    : result string * list warning :=
  match relative with
  | None => (Ok (strftime_ymd base), [])
  | Some "" => (Ok (strftime_ymd base), [])
  | Some relative =>
      let text := strip (lower relative) in
      if decide (text = "today" ∨ text = "now") then (Ok (strftime_ymd base), [])
      else if decide (text = "yesterday") then
        (td ← new_timedelta 1 0 0; t ← Timestamp_sub base td; Ok (strftime_ymd t), [])
      else
        match re_match_relative text with
        | None => (Ok (strftime_ymd base), [Unrecognised_relative_date relative])
        | Some (n_raw, unit) =>
            match quantity n_raw with
            | Raise e => (Raise e, [])
            | Ok n =>
                match pick_delta unit n with
                | None => (Ok (strftime_ymd base), [Unhandled_time_unit relative])
                | Some d =>
                    (d ← d; t ← sub_delta base d; Ok (strftime_ymd t), [])
                end
            end
        end
  end.

End Normaliser.

(** *** [clean_review_text]: the nested [is_valid_text] *)

Definition newline : ascii := ascii_of_N 10.

(** [$]: the end of the string, or just before a newline that ends it. *)
Definition at_end (s : string) : bool :=
  match s with
  | EmptyString => true
  | String c EmptyString => bool_decide (c = newline)
  | String _ (String _ _) => false
  end.

(** [p*] followed by the rest of a pattern [k]: some number of leading
    characters in the class [p] can be taken so that [k] matches what
    follows. *)
Fixpoint star_then (p : ascii -> bool) (k : string -> bool) (s : string) : bool :=
  k s
  || match s with
     | EmptyString => false
     | String c r => p c && star_then p k r
     end.

(** [p+] followed by [k]. *)
Definition plus_then (p : ascii -> bool) (k : string -> bool) (s : string) : bool :=
  match s with
  | EmptyString => false
  | String c r => p c && star_then p k r
  end.

(** [str.isalnum] above 127: the ordinal indicators, the superscript
    digits, the micro sign, the fractions and the letters of Latin-1. *)
Definition is_alnum_high (c : ascii) : bool :=
  let n := code c in
  ((n =? 170) || (n =? 178) || (n =? 179) || (n =? 181) || (n =? 185) || (n =? 186)
   || ((188 <=? n) && (n <=? 190)) || ((192 <=? n) && (n <=? 214))
   || ((216 <=? n) && (n <=? 246)) || ((248 <=? n) && (n <=? 255)))%N.

(** The class [\w]: what [str.isalnum] accepts, and the underscore. *)
Definition is_word (c : ascii) : bool :=
  is_az c || is_AZ c || is_digit c || is_alnum_high c
  || bool_decide (c = "_"%char).

(** The class [[\s\n]]. *)
Definition space_or_newline (c : ascii) : bool :=
  is_space c || bool_decide (c = newline).

(** The class [[\W_]]. *)
Definition non_word_or_underscore (c : ascii) : bool :=
  negb (is_word c) || bool_decide (c = "_"%char).

(** The class [[\u0000-\u001F\u007F-\u009F]]. *)
Definition is_control (c : ascii) : bool :=
  let n := code c in ((n <=? 31) || ((127 <=? n) && (n <=? 159)))%N.

(** The class [[a-zA-Z]]. *)
Definition is_letter (c : ascii) : bool := is_az c || is_AZ c.

(** [weird_patterns], each as [re.match] decides it. *)
Definition weird_patterns : list (string -> bool) :=
  [star_then space_or_newline at_end;
   plus_then non_word_or_underscore at_end;
   star_then is_space (plus_then is_control (star_then is_space at_end))].

(** [len(re.findall(cls, s))] for a class of single characters. *)
Fixpoint count_class (p : ascii -> bool) (s : string) : nat :=
  match s with
  | EmptyString => O
  | String c r => ((if p c then 1 else 0) + count_class p r)%nat
  end.

(** [is_valid_text(text)]; [None] is a missing value. *)
Definition is_valid_text (text : option string) : bool :=
  match text with
  | None => false
  | Some EmptyString => false
  | Some t =>
      if existsb (fun pattern => pattern t) weird_patterns then false
      else negb (count_class is_letter t <? 3)%nat
  end.

End Cleaning.

(** ** [google_maps_scraper.py] *)

Module Scraper.
Import PyStr.

(** *** The interpreter and the browser *)

(** What the model takes from the Python runtime without computing it:
    - [repr_large_float n]: [str(x)] for the double [x] of whole value
      [n >= 10^16], where the shortest round-trip notation with an
      exponent is used;
    - [float_of_text]: [float(s)] for a text that is not a run of digits,
      and [int_of_text]: [int(s)] ([None]: [ValueError]), with [pyfloat]
      the type of doubles;
    - [scraped_at_default]: the default of [Review.scraped_at], evaluated
      once when the class is defined. *)
Class PyRuntime : Type := {
  repr_large_float : N -> string;
  pyfloat : Type;
  float_of_text : string -> option pyfloat;
  int_of_text : string -> option Z;
  scraped_at_default : string
}.

(** The answer of a browser call: a value, or an exception with its
    message. *)
Inductive answer (A : Type) : Type :=
  | Found (a : A)
  | Throws (msg : string).
Arguments Found {A} a.
Arguments Throws {A} msg.

(** The logger is set up at level INFO: [logger.debug] emits nothing and
    is left out. *)
Inductive level : Type := INFO | WARNING | ERROR.
Definition log_record : Type := level * string.

(** What a Python function hands back. *)
Inductive py_value : Type :=
  | PyNone
  | PyInt (n : Z).

(** *** Scrolling *)

(** The search page as [scroll_search_results] sees it: the candidate
    containers with the [scrollHeight] of each, the hover, and per round
    the number of [a.hfpxzc] results and the scroll command. *)
Record search_browser : Type := {
  sb_containers : answer (list (answer Z));
  sb_hover : answer unit;
  sb_count : nat -> answer nat;
  sb_scroll : nat -> answer unit
}.

(** The first container whose height exceeds [min_height]. *)
Fixpoint first_scrollable (min_height : Z) (divs : list (answer Z))
    : answer (option nat) :=
  match divs with
  | [] => Found None
  | Throws msg :: _ => Throws msg
  | Found height :: rest =>
      if min_height <? height then Found (Some O)
      else
        match first_scrollable min_height rest with
        | Found (Some k) => Found (Some (S k))
        | other => other
        end
  end.

(** The counters of one scroll drive, the scroll commands issued so far
    and the log. *)
Record scroll_state : Type := mk_scroll_state {
  last_count : nat;
  no_change_count : nat;
  rounds : nat;
  log : list log_record
}.

Inductive loop_exit : Type :=
  | Exhausted
  | Broke
  | Failed (msg : string).

Definition max_scrolls : nat := 20.

(** The body of [for i in range(max_scrolls)], from round [i] on, with
    [fuel] rounds left. *)
Fixpoint search_loop (b : search_browser) (fuel i : nat) (st : scroll_state)
    : loop_exit * scroll_state :=
  match fuel with
  | O => (Exhausted, st)
  | S fuel' =>
      match sb_count b i with
      | Throws msg => (Failed msg, st)
      | Found current_count =>
          let log1 := log st ++
            [(INFO, "Scroll " +:+ pretty (i + 1)%nat +:+ ": Found "
                      +:+ pretty current_count +:+ " results")] in
          match sb_scroll b i with
          | Throws msg =>
              (Failed msg,
               mk_scroll_state (last_count st) (no_change_count st) (rounds st) log1)
          | Found _ =>
              let r := S (rounds st) in
              if decide (current_count = last_count st) then
                let nc := (no_change_count st + 1)%nat in
                if decide (3 <= nc)%nat then
                  (Broke,
                   mk_scroll_state (last_count st) nc r
                     (log1 ++ [(INFO, "No new results after 3 scrolls, stopping")]))
                else
                  search_loop b fuel' (S i) (mk_scroll_state current_count nc r log1)
              else
                search_loop b fuel' (S i) (mk_scroll_state current_count 0 r log1)
          end
      end
  end.

Record scroll_outcome : Type := mk_scroll_outcome {
  returned : py_value;
  scrolls : nat;
  logged : list log_record
}.

(** [scroll_search_results(self)]. Every path ends in a bare [return] or
    falls off the end of the function. *)
Definition scroll_search_results (b : search_browser) : scroll_outcome :=
  let on_error msg lg n :=
    mk_scroll_outcome PyNone n
      (lg ++ [(ERROR, "Error while scrolling search results: " +:+ msg)]) in
  match sb_containers b with
  | Throws msg => on_error msg [] O
  | Found [] =>
      mk_scroll_outcome PyNone 0 [(WARNING, "No scrollable container found")]
  | Found divs =>
      match first_scrollable 0 divs with
      | Throws msg => on_error msg [] O
      | Found None =>
          mk_scroll_outcome PyNone 0 [(WARNING, "No valid scrollable container found")]
      | Found (Some _) =>
          let lg := [(INFO, "Found scrollable container, starting to scroll")] in
          match sb_hover b with
          | Throws msg => on_error msg lg O
          | Found _ =>
              match search_loop b max_scrolls 0 (mk_scroll_state 0 0 0 lg) with
              | (Failed msg, st) => on_error msg (log st) (rounds st)
              | (_, st) => mk_scroll_outcome PyNone (rounds st) (log st)
              end
          end
      end
  end.

(** The detail page as [scroll_reviews_panel] sees it: per selector the
    elements found with the [scrollHeight] of each, the hover, and per
    round the scroll command and the height measured after it. *)
Record panel_browser : Type := {
  pb_find : string -> answer (list (answer Z));
  pb_hover : answer unit;
  pb_scroll : nat -> answer unit;
  pb_height : nat -> answer Z
}.

Definition panel_selectors : list string :=
  ["[role='main'] [tabindex='-1']"; "[data-review-id]";
   ".m6QErb.DxyBCb.kA9KIf.dS8AEf"].

(** The two nested loops that look for the reviews container: the first
    element, in selector order, that is higher than 500. *)
Fixpoint find_panel (b : panel_browser) (selectors : list string)
    : answer (option (string * nat)) :=
  match selectors with
  | [] => Found None
  | selector :: rest =>
      match pb_find b selector with
      | Throws msg => Throws msg
      | Found elements =>
          match first_scrollable 500 elements with
          | Throws msg => Throws msg
          | Found (Some k) => Found (Some (selector, k))
          | Found None => find_panel b rest
          end
      end
  end.

Record panel_state : Type := mk_panel_state {
  last_height : Z;
  panel_rounds : nat;
  panel_log : list log_record
}.

Definition max_panel_scrolls : nat := 10.

(** The body of [for i in range(10)]. *)
Fixpoint panel_loop (b : panel_browser) (fuel i : nat) (st : panel_state)
    : loop_exit * panel_state :=
  match fuel with
  | O => (Exhausted, st)
  | S fuel' =>
      match pb_scroll b i with
      | Throws msg => (Failed msg, st)
      | Found _ =>
          let r := S (panel_rounds st) in
          match pb_height b i with
          | Throws msg => (Failed msg, mk_panel_state (last_height st) r (panel_log st))
          | Found new_height =>
              if decide (new_height = last_height st) then
                (Broke,
                 mk_panel_state (last_height st) r
                   (panel_log st ++ [(INFO, "Reached end of reviews")]))
              else
                panel_loop b fuel' (S i)
                  (mk_panel_state new_height r
                     (panel_log st ++
                        [(INFO, "Review scroll " +:+ pretty (i + 1)%nat +:+ " completed")]))
          end
      end
  end.

(** [scroll_reviews_panel(self)] *)
Definition scroll_reviews_panel (b : panel_browser) : scroll_outcome :=
  let on_error msg lg n :=
    mk_scroll_outcome PyNone n (lg ++ [(ERROR, "Error scrolling reviews: " +:+ msg)]) in
  match find_panel b panel_selectors with
  | Throws msg => on_error msg [] O
  | Found None =>
      mk_scroll_outcome PyNone 0
        [(WARNING, "Could not find reviews scrollable container")]
  | Found (Some _) =>
      match pb_hover b with
      | Throws msg => on_error msg [] O
      | Found _ =>
          match panel_loop b max_panel_scrolls 0 (mk_panel_state 0 0 []) with
          | (Failed msg, st) => on_error msg (panel_log st) (panel_rounds st)
          | (_, st) => mk_scroll_outcome PyNone (panel_rounds st) (panel_log st)
          end
      end
  end.

(** *** Doubles *)

(** [float] of a whole number [n]: the double nearest to it, ties going to
    the even significand, carried as its value; [None] is infinity. Below
    2^53 every whole number is a double; from there on 53 bits are kept,
    and what reaches 2^1024 overflows. *)
Definition double_of_N (n : N) : option N :=
  (if n <? 2 ^ 53 then Some n
   else
     let e := N.log2 n - 52 in
     let q := N.shiftr n e in
     let r := n - N.shiftl q e in
     let half := N.shiftl 1 (e - 1) in
     let q' :=
       if r <? half then q
       else if half <? r then q + 1
       else if N.even q then q else q + 1 in
     let v := N.shiftl q' e in
     if N.log2 v <? 1024 then Some v else None)%N.

(** *** Records *)

Section Extraction.
Context {rt : PyRuntime}.

(** A [float] as [float(text)] gives it: a double of whole value, read
    from a run of digits, infinity, or another double. *)
Inductive float_value : Type :=
  | FWhole (n : N)
  | FInf
  | FOther (x : pyfloat).

(** [float(t)]: a run of digits is read here, any other text by the
    runtime; [None] is [ValueError]. *)
Definition float_of_string (t : string) : option float_value :=
  match span is_digit t with
  | (String _ _, EmptyString) =>
      match double_of_N (Z.to_N (int_digits_go 0 t)) with
      | Some n => Some (FWhole n)
      | None => Some FInf
      end
  | _ => FOther <$> float_of_text t
  end.

Record BankBranch : Type := mk_BankBranch {
  bank_name : string;
  branch_name : string;
  branch_url : option string;
  address : string;
  rating : option float_value;
  review_count : option Z
}.

(** A review rating is the int [0] it starts as, the int [len(filled_stars)],
    or [float] of the digits of the label: a double of whole value, or
    infinity. *)
Inductive rating_value : Type :=
  | RInt (n : Z)
  | RFloat (n : N)
  | RInf.

Record Review : Type := mk_Review {
  r_bank_name : string;
  r_branch_name : string;
  r_branch_address : string;
  r_branch_url : option string;
  reviewer_name : string;
  r_rating : rating_value;
  review_text : string;
  review_date : string;
  helpful_count : Z;
  response_from_owner : option string;
  scraped_at : string
}.

(** [rating > 0] *)
Definition rating_positive (r : rating_value) : bool :=
  match r with
  | RInt n => 0 <? n
  | RFloat n => (0 <? n)%N
  | RInf => true
  end.

(** The number a rating stands for; infinity is given 2^1024, the first
    power of two beyond the doubles. *)
Definition rating_number (r : rating_value) : Z :=
  match r with
  | RInt n => n
  | RFloat n => Z.of_N n
  | RInf => 2 ^ 1024
  end.

(** [str(rating)], as the f-strings format it. *)
Definition str_rating (r : rating_value) : string :=
  match r with
  | RInt n => pretty n
  | RFloat n =>
      if (n <? 10 ^ 16)%N then pretty n +:+ ".0" else repr_large_float n
  | RInf => "inf"
  end.

(** *** Listing extraction: [extract_branch_links] *)

(** U+00B7, the middle dot of the result cards. *)
Definition middle_dot : ascii := ascii_of_N 183.

(** [text.split(sep)] for a one-character separator. *)
Fixpoint split (sep : ascii) (s : string) : list string :=
  match s with
  | EmptyString => [EmptyString]
  | String c r =>
      if decide (c = sep) then EmptyString :: split sep r
      else
        match split sep r with
        | [] => [String c EmptyString]
        | w :: ws => String c w :: ws
        end
  end.

Definition is_paren (c : ascii) : bool :=
  bool_decide (c = "("%char) || bool_decide (c = ")"%char).

Fixpoint lstrip_chars (p : ascii -> bool) (s : string) : string :=
  match s with
  | EmptyString => EmptyString
  | String c r => if p c then lstrip_chars p r else s
  end.

Fixpoint rstrip_chars (p : ascii -> bool) (s : string) : string :=
  match s with
  | EmptyString => EmptyString
  | String c r =>
      match rstrip_chars p r with
      | EmptyString => if p c then EmptyString else String c EmptyString
      | r' => String c r'
      end
  end.

(** [text.strip("()")] *)
Definition strip_parens (s : string) : string :=
  rstrip_chars is_paren (lstrip_chars is_paren s).

(** The container of one result link. *)
Record listing_parent : Type := {
  lp_name : answer string;
  lp_address_divs : answer (list (answer string));
  lp_rating_text : answer string;
  lp_review_text : answer string
}.

(** One [a.hfpxzc] element: its container, its [href], its position. *)
Record listing_element : Type := {
  le_parent : answer listing_parent;
  le_href : answer (option string);
  le_location : answer (Z * Z)
}.

Definition address_markers : list string :=
  ["bd"; "avenue"; "rue"; "street"; String middle_dot EmptyString].

(** The loop over the [div.W4Efsd] texts, inside its [try]. *)
Fixpoint scan_address (divs : list (answer string)) : answer string :=
  match divs with
  | [] => Found EmptyString
  | Throws msg :: _ => Throws msg
  | Found text :: rest =>
      if existsb (fun marker => contains marker (lower text)) address_markers then
        match split middle_dot text with
        | _ :: part :: _ => Found (strip part)
        | _ => Found text
        end
      else scan_address rest
  end.

Definition extract_address (parent : listing_parent) : string :=
  match lp_address_divs parent with
  | Throws _ => "Address not found"
  | Found divs =>
      match scan_address divs with
      | Throws _ => "Address not found"
      | Found a => a
      end
  end.

(** The [try] that reads rating and review count: what was assigned before
    an exception stays assigned. *)
Definition extract_rating_and_count (parent : listing_parent)
    : option float_value * option Z :=
  match lp_rating_text parent with
  | Throws _ => (None, None)
  | Found t =>
      match float_of_string t with
      | None => (None, None)
      | Some r =>
          match lp_review_text parent with
          | Throws _ => (Some r, None)
          | Found rt' => (Some r, int_of_text (strip_parens rt'))
          end
      end
  end.

Definition str_option_Z (o : option Z) : string :=
  match o with
  | None => "None"
  | Some n => pretty n
  end.

(** The body of [for element in result_elements], one element. *)
Definition extract_branch (bank : string) (element : listing_element)
    : answer BankBranch :=
  match le_parent element with
  | Throws msg => Throws msg
  | Found parent =>
      let name := match lp_name parent with Found t => t | Throws _ => bank end in
      match le_href element with
      | Throws msg => Throws msg
      | Found url =>
          let addr := extract_address parent in
          let '(rating, count) := extract_rating_and_count parent in
          Found (mk_BankBranch bank name url addr rating count)
      end
  end.

Fixpoint extract_branches (bank : string) (elements : list listing_element)
    : list BankBranch * list log_record :=
  match elements with
  | [] => ([], [])
  | element :: rest =>
      let '(bs, lg) := extract_branches bank rest in
      match extract_branch bank element with
      | Throws msg => (bs, (WARNING, "Error extracting branch info: " +:+ msg) :: lg)
      | Found b =>
          (b :: bs,
           (INFO, "Found branch: " +:+ branch_name b +:+ " - " +:+ address b
                    +:+ " (" +:+ str_option_Z (review_count b) +:+ " reviews)") :: lg)
      end
  end.

(** "Remove duplicates based on URL": the first branch of each URL. *)
Fixpoint unique_by_url (seen_urls : gset (option string)) (branches : list BankBranch)
    : list BankBranch :=
  match branches with
  | [] => []
  | branch :: rest =>
      if decide (branch_url branch ∈ seen_urls) then unique_by_url seen_urls rest
      else branch :: unique_by_url ({[branch_url branch]} ∪ seen_urls) rest
  end.

(** [extract_branch_links(self, bank_name)]; [page] is what
    [find_elements(By.CSS_SELECTOR, "a.hfpxzc")] answers. *)
Definition extract_branch_links (page : answer (list listing_element)) (bank : string)
    : list BankBranch * list log_record :=
  match page with
  | Throws msg => ([], [(ERROR, "Error extracting branch links: " +:+ msg)])
  | Found result_elements =>
      let lg0 := [(INFO, "Found " +:+ pretty (length result_elements)
                           +:+ " potential branches")] in
      let '(branches, lg) := extract_branches bank result_elements in
      let unique_branches := unique_by_url ∅ branches in
      (unique_branches,
       lg0 ++ lg ++ [(INFO, "Extracted " +:+ pretty (length unique_branches)
                              +:+ " unique branches for " +:+ bank)])
  end.

(** *** Review extraction: [extract_reviews_from_page] *)

(** One candidate review block: its position, the text of the first
    descendant a selector finds, the [aria-label] of its star image (an
    absent attribute is [None]) and the number of filled-star elements. *)
Record review_element : Type := {
  re_location : answer (Z * Z);
  re_find_text : string -> answer string;
  re_star_label : answer (option string);
  re_filled_stars : answer nat
}.

Definition review_selectors : list string :=
  ["[data-review-id]"; "[jscontroller='fIQYlf']"; "div[aria-label*='stars']";
   ".jftiEf"].

Definition name_selectors : list string :=
  [".d4r55"; "button.WEBjve"; "div.WEBjve"; "[data-review-id] button[aria-label]";
   ".kvMYJc"; "a[href*='/contrib/']"].

Definition text_selectors : list string :=
  [".wiI7pd"; ".MyEned"; "span.wiI7pd"; "[data-review-id] > div > div > div > span";
   ".Jtu6Td > span"].

Definition date_selectors : list string :=
  [".rsqaWe"; "span.rsqaWe"; ".DU9Pgb > span"; "[class*='fontBodyMedium'] span"].

(** The selector loop shared by name, text and date. The field variable
    starts at [current]; each selector that finds an element overwrites it
    with the stripped text, and the loop breaks when [valid] accepts it. *)
Fixpoint try_selectors (valid : string -> bool) (find : string -> answer string)
    (selectors : list string) (current : string) : string :=
  match selectors with
  | [] => current
  | selector :: rest =>
      match find selector with
      | Throws _ => try_selectors valid find rest current
      | Found t =>
          let v := strip t in
          if valid v then v else try_selectors valid find rest v
      end
  end.

(** [reviewer_name and reviewer_name != "More"] *)
Definition valid_name (v : string) : bool :=
  negb (bool_decide (v = "")) && negb (bool_decide (v = "More")).

(** [review_text and review_text != "More" and len(review_text) > 5] *)
Definition valid_text (v : string) : bool :=
  negb (bool_decide (v = "")) && negb (bool_decide (v = "More"))
  && bool_decide (5 < String.length v)%nat.

Definition time_words : list string := ["ago"; "year"; "month"; "day"; "week"].

(** [review_date and any(w in review_date.lower() for w in [...])] *)
Definition valid_date (v : string) : bool :=
  negb (bool_decide (v = ""))
  && existsb (fun time_word => contains time_word (lower v)) time_words.

(** The pattern [(\d+)\s*star] at the start of [s], returning group 1.
    The repetitions are greedy; giving characters back cannot help, since
    a shorter run of digits is followed by a digit and "star" begins with
    no whitespace. *)
Definition match_star (s : string) : option string :=
  let '(ds, r) := span is_digit s in
  match ds with
  | EmptyString => None
  | String _ _ =>
      let '(_, r') := span is_space r in
      match strip_prefix "star" r' with
      | Some _ => Some ds
      | None => None
      end
  end.

(** [re.search(r'(\d+)\s*star', s)]: the leftmost position that matches. *)
Fixpoint search_star (s : string) : option string :=
  match match_star s with
  | Some ds => Some ds
  | None =>
      match s with
      | EmptyString => None
      | String _ r => search_star r
      end
  end.

(** [float(digits)] *)
Definition float_of_digits (ds : string) : rating_value :=
  match double_of_N (Z.to_N (int_digits_go 0 ds)) with
  | Some n => RFloat n
  | None => RInf
  end.

(** The rating block: the label first; the star count only in the
    [except] branch of the label's [try] (a missing attribute makes
    [re.search] raise [TypeError]). *)
Definition extract_rating (element : review_element) : rating_value :=
  match re_star_label element with
  | Found (Some rating_text) =>
      match search_star rating_text with
      | Some ds => float_of_digits ds
      | None => RInt 0
      end
  | Found None | Throws _ =>
      match re_filled_stars element with
      | Found (S k) => RInt (Z.of_nat (S k))
      | Found O => RInt 0
      | Throws _ => RInt 0
      end
  end.

(** The four fields read from one block. *)
Record fields : Type := mk_fields {
  f_name : string;
  f_rating : rating_value;
  f_text : string;
  f_date : string
}.

Definition extract_fields (element : review_element) : fields :=
  mk_fields
    (try_selectors valid_name (re_find_text element) name_selectors "Anonymous")
    (extract_rating element)
    (try_selectors valid_text (re_find_text element) text_selectors "")
    (try_selectors valid_date (re_find_text element) date_selectors "").

(** [f"{reviewer_name}|{rating}|{review_text[:50] if review_text else ''}|{review_date}"] *)
Definition review_key (f : fields) : string :=
  f_name f +:+ "|" +:+ str_rating (f_rating f) +:+ "|"
    +:+ (match f_text f with
         | EmptyString => EmptyString
         | t => take 50 t
         end)
    +:+ "|" +:+ f_date f.

(** [rating > 0 or (review_text and len(review_text) > 5)] *)
Definition meaningful (f : fields) : bool :=
  rating_positive (f_rating f)
  || (negb (bool_decide (f_text f = "")) && bool_decide (5 < String.length (f_text f))%nat).

(** The accumulators of [extract_reviews_from_page]. *)
Record harvest : Type := mk_harvest {
  reviews : list Review;
  seen_reviews : gset string;
  harvest_log : list log_record
}.

Definition make_review (branch : BankBranch) (f : fields) : Review :=
  mk_Review (bank_name branch) (branch_name branch) (address branch)
    (branch_url branch) (f_name f) (f_rating f) (f_text f) (f_date f)
    0 None scraped_at_default.

(** The [if review_key not in seen_reviews and (...)] statement. *)
Definition keep_review (branch : BankBranch) (h : harvest) (f : fields) : harvest :=
  let key := review_key f in
  if bool_decide (key ∉ seen_reviews h) && meaningful f then
    let rs := reviews h ++ [make_review branch f] in
    mk_harvest rs ({[key]} ∪ seen_reviews h)
      (harvest_log h ++
         [(INFO, "Successfully extracted review " +:+ pretty (length rs) +:+ ": "
                   +:+ f_name f +:+ " - " +:+ str_rating (f_rating f) +:+ " stars")])
  else h.

(** [f"{location['x']},{location['y']}"] *)
Definition loc_key (location : Z * Z) : string :=
  pretty (fst location) +:+ "," +:+ pretty (snd location).

(** "Remove duplicate elements by checking their location"; an element
    whose position cannot be read is skipped. *)
Fixpoint unique_by_location (seen_locations : gset string)
    (elements : list review_element) : list review_element :=
  match elements with
  | [] => []
  | element :: rest =>
      match re_location element with
      | Throws _ => unique_by_location seen_locations rest
      | Found location =>
          let k := loc_key location in
          if decide (k ∈ seen_locations) then unique_by_location seen_locations rest
          else element :: unique_by_location ({[k]} ∪ seen_locations) rest
      end
  end.

(** The loop over [review_selectors] that fills [all_review_elements];
    [acc] and [lg] are the elements and the log so far. *)
Fixpoint collect_review_elements (find : string -> answer (list review_element))
    (selectors : list string) (acc : list review_element) (lg : list log_record)
    : answer (list review_element) * list log_record :=
  match selectors with
  | [] => (Found acc, lg)
  | selector :: rest =>
      match find selector with
      | Throws msg => (Throws msg, lg)
      | Found [] => collect_review_elements find rest acc lg
      | Found elements =>
          collect_review_elements find rest (acc ++ elements)
            (lg ++ [(INFO, "Found " +:+ pretty (length elements)
                             +:+ " potential reviews with selector: " +:+ selector)])
      end
  end.

(** The loop [for idx, element in enumerate(unique_elements)]. *)
Definition process_elements (branch : BankBranch) (h : harvest)
    (elements : list review_element) : harvest :=
  foldl (fun h element => keep_review branch h (extract_fields element)) h elements.

(** [extract_reviews_from_page(self, branch)]; [find] is what
    [find_elements(By.CSS_SELECTOR, selector)] answers on the page. *)
Definition extract_reviews_from_page (find : string -> answer (list review_element))
    (branch : BankBranch) : list Review * list log_record :=
  match collect_review_elements find review_selectors [] [] with
  | (Throws msg, lg) => ([], lg ++ [(ERROR, "Error extracting reviews: " +:+ msg)])
  | (Found [], lg) =>
      ([], lg ++ [(WARNING, "No review elements found with any selector")])
  | (Found all_review_elements, lg) =>
      let unique_elements := unique_by_location ∅ all_review_elements in
      let lg1 := lg ++ [(INFO, "Found " +:+ pretty (length unique_elements)
                                 +:+ " unique review elements after deduplication")] in
      let h := process_elements branch (mk_harvest [] ∅ lg1) unique_elements in
      (reviews h,
       harvest_log h ++
         [(INFO, "Successfully extracted " +:+ pretty (length (reviews h))
                   +:+ " unique reviews with data")])
  end.

(** *** A branch visit: [visit_branch_and_get_reviews] *)

(** The detail page of a branch: the navigation, what each XPath of the
    reviews tab finds, the click, the panel and the review blocks. *)
Record place_page : Type := {
  pp_get : answer unit;
  pp_find_tab : string -> answer unit;
  pp_click : answer unit;
  pp_panel : panel_browser;
  pp_find_reviews : string -> answer (list review_element)
}.

Definition tab_selectors : list string :=
  ["//button[contains(@aria-label, 'Reviews')]";
   "//button[contains(., 'Reviews')]";
   "//div[@role='tab'][contains(., 'Reviews')]";
   "//button[@data-tab-index='1']"].

(** The loop that looks for the reviews button: whether some selector
    finds it. *)
Fixpoint find_tab (find : string -> answer unit) (selectors : list string) : bool :=
  match selectors with
  | [] => false
  | selector :: rest =>
      match find selector with
      | Found _ => true
      | Throws _ => find_tab find rest
      end
  end.

(** [visit_branch_and_get_reviews(self, branch)] on the page that
    [branch.branch_url] leads to. *)
Definition visit_branch_and_get_reviews (page : place_page) (branch : BankBranch)
    : list Review * list log_record :=
  let lg0 := [(INFO, "Visiting branch: " +:+ branch_name branch)] in
  match pp_get page with
  | Throws msg =>
      ([], lg0 ++ [(ERROR, "Error visiting branch " +:+ branch_name branch
                             +:+ ": " +:+ msg)])
  | Found _ =>
      if find_tab (pp_find_tab page) tab_selectors then
        match pp_click page with
        | Throws msg => ([], lg0 ++ [(ERROR, "Error clicking reviews tab: " +:+ msg)])
        | Found _ =>
            let lg1 := lg0 ++ [(INFO, "Clicked on reviews tab")] in
            let scrolled := scroll_reviews_panel (pp_panel page) in
            let '(reviews, lg2) := extract_reviews_from_page (pp_find_reviews page) branch in
            (reviews, lg1 ++ logged scrolled ++ lg2)
        end
      else ([], lg0 ++ [(WARNING, "Could not find reviews tab")])
  end.

(** *** The run over one bank: [search_bank], [scrape_bank_branches] *)

(** A search page: the navigation, the wait for the results container
    ([Found false] is its [TimeoutException]), the scrolling and the
    result links found afterwards. *)
Record search_page : Type := {
  sp_get : answer unit;
  sp_wait : answer bool;
  sp_scroll : search_browser;
  sp_links : answer (list listing_element)
}.

(** The pages behind the addresses the scraper navigates to. *)
Record web : Type := {
  web_search : string -> search_page;
  web_place : option string -> place_page
}.

(** [f"{bank_name} {city} Morocco" if city else f"{bank_name} Morocco"] *)
Definition search_query (bank city : string) : string :=
  match city with
  | EmptyString => bank +:+ " Morocco"
  | String _ _ => bank +:+ " " +:+ city +:+ " Morocco"
  end.

Definition search_url (query : string) : string :=
  "https://www.google.com/maps/search/" +:+ query.

(** [search_bank(self, bank_name, city)]: the page the browser shows
    afterwards. Only the timeout of the wait is caught. The log lines of
    this method and of [scrape_bank_branches] are left out: some hold
    characters outside the 7-bit range, and one the [repr] of a list. *)
Definition search_bank (w : web) (bank city : string) : answer search_page :=
  let page := web_search w (search_url (search_query bank city)) in
  match sp_get page with
  | Throws msg => Throws msg
  | Found _ =>
      match sp_wait page with
      | Throws msg => Throws msg
      | Found _ => Found page
      end
  end.

(** What the scraper object accumulates. *)
Record scraper_state : Type := mk_scraper_state {
  branches_collected : list BankBranch;
  reviews_collected : list Review
}.

(** How a run ends: normally, or with an exception that leaves the
    method. *)
Inductive run_end : Type :=
  | Completed
  | Raised (what : string).

(** The loop over the cities: search, scroll, extract, extend. *)
Fixpoint search_cities (w : web) (bank : string) (cities : list string)
    (all_branches : list BankBranch) : answer (list BankBranch) :=
  match cities with
  | [] => Found all_branches
  | city :: rest =>
      match search_bank w bank city with
      | Throws msg => Throws msg
      | Found page =>
          let _ := scroll_search_results (sp_scroll page) in
          let branches := (extract_branch_links (sp_links page) bank).1 in
          search_cities w bank rest (all_branches ++ branches)
      end
  end.

(** The loop over the unique branches. The log line that slices
    [branch.branch_url[:80]] stands before the [try]: a branch without a
    URL ends the loop with a [TypeError]. *)
Fixpoint visit_all (w : web) (branches : list BankBranch) (collected : list Review)
    : list Review * run_end :=
  match branches with
  | [] => (collected, Completed)
  | branch :: rest =>
      match branch_url branch with
      | None => (collected, Raised "'NoneType' object is not subscriptable")
      | Some _ =>
          let reviews :=
            (visit_branch_and_get_reviews (web_place w (branch_url branch)) branch).1 in
          visit_all w rest (collected ++ reviews)
      end
  end.

(** [scrape_bank_branches(self, bank_name, cities)]: the state of the
    scraper afterwards and how the call ended. *)
Definition scrape_bank_branches (w : web) (st : scraper_state) (bank : string)
    (cities : option (list string)) : scraper_state * run_end :=
  let searched :=
    match cities with
    | Some (city :: rest) => search_cities w bank (city :: rest) []
    | Some [] | None =>
        match search_bank w bank "" with
        | Throws msg => Throws msg
        | Found page =>
            let _ := scroll_search_results (sp_scroll page) in
            Found (extract_branch_links (sp_links page) bank).1
        end
    end in
  match searched with
  | Throws msg => (st, Raised msg)
  | Found all_branches =>
      let unique_branches := unique_by_url ∅ all_branches in
      let '(reviews, ended) := visit_all w unique_branches (reviews_collected st) in
      (mk_scraper_state (branches_collected st ++ unique_branches) reviews, ended)
  end.

End Extraction.

End Scraper.

Close Scope Z_scope.

Import PyStr DateTime Cleaning Scraper.

(** * Vocabulary of the statements *)

Section DateVocabulary.
Local Open Scope Z_scope.

(** The last step of [_ord2ymd]: month and day of day [n] of a year, days
    numbered from 0. *)
Definition month_day (leapyear : bool) (n : Z) : Z * Z :=
  let m := Z.shiftr (n + 50) 5 in
  let preceding := DAYS_BEFORE_MONTH m + (if (2 <? m) && leapyear then 1 else 0) in
  if n <? preceding then
    let m' := m - 1 in
    let preceding' :=
      preceding - (DAYS_IN_MONTH m' + (if (m' =? 2) && leapyear then 1 else 0)) in
    (m', n - preceding' + 1)
  else (m, n - preceding + 1).

(** A year is written [400a + 100b + 4c + e + 1] with [b <= 3], [c <= 24]
    and [e <= 3]; it is a leap year when [leap_of b c e]. *)
Definition leap_of (b c e : Z) : bool :=
  (e =? 3) && (negb (c =? 24) || (b =? 3)).

(** The year with the digits [a], [b], [c], [e] in that mixed radix. *)
Definition year_of (a b c e : Z) : Z := 400 * a + 100 * b + 4 * c + e + 1.

(** The days before day [r] of the year [year_of a b c e]. *)
Definition day_number (a b c e r : Z) : Z :=
  DI400Y * a + DI100Y * b + DI4Y * c + 365 * e + r.

(** [month_day] recovers day [d] of month [m]. *)
Definition month_day_ok (leap : bool) (m d : Z) : bool :=
  let n := DAYS_BEFORE_MONTH m + (if (2 <? m) && leap then 1 else 0) + d - 1 in
  bool_decide (month_day leap n = (m, d)).

(** [month_day] sends day [r] of the year to a day of a month that is day
    [r] of the year. *)
Definition day_in_month_ok (leap : bool) (r : Z) : bool :=
  let '(m, d) := month_day leap r in
  (1 <=? m) && (m <=? 12) && (1 <=? d)
  && (d <=? DAYS_IN_MONTH m + (if (m =? 2) && leap then 1 else 0))
  && (DAYS_BEFORE_MONTH m + (if (2 <? m) && leap then 1 else 0) + d - 1 =? r).

(** Every character of [s] is in the class [p]. *)
Fixpoint all_chars (p : ascii -> bool) (s : string) : bool :=
  match s with
  | EmptyString => true
  | String c r => p c && all_chars p r
  end.

(** [s] is empty or begins outside the class [p]. *)
Definition starts_outside (p : ascii -> bool) (s : string) : bool :=
  match s with
  | EmptyString => true
  | String c _ => negb (p c)
  end.

(** The units the normaliser knows, in the order it looks for them. *)
Inductive time_unit : Type := Year | Month | Week | Day | Hour | Minute.

(** The word each unit is recognised by. *)
Definition unit_word (u : time_unit) : string :=
  match u with
  | Year => "year" | Month => "month" | Week => "week"
  | Day => "day" | Hour => "hour" | Minute => "minute"
  end.

(** The offset object the source builds for a unit. *)
Definition delta_of (u : time_unit) (n : Z) : result delta :=
  match u with
  | Year => Ok (Relative (new_relativedelta n 0 0))
  | Month => Ok (Relative (new_relativedelta 0 n 0))
  | Week => Ok (Relative (new_relativedelta 0 0 n))
  | Day => td ← new_timedelta n 0 0; Ok (Fixed td)
  | Hour => td ← new_timedelta 0 n 0; Ok (Fixed td)
  | Minute => td ← new_timedelta 0 0 n; Ok (Fixed td)
  end.

(** The unit the [if ... in unit] chain selects. *)
Definition classify (unit : string) : option time_unit :=
  if contains "year" unit then Some Year
  else if contains "month" unit then Some Month
  else if contains "week" unit then Some Week
  else if contains "day" unit then Some Day
  else if contains "hour" unit then Some Hour
  else if contains "minute" unit then Some Minute
  else None.

(** [base - delta] as the base class [datetime] carries it out. *)
Definition datetime_sub_delta (base : datetime) (d : delta) : result datetime :=
  match d with
  | Relative rd => sub_relativedelta base rd
  | Fixed td => sub_timedelta base td
  end.

(** A run of digits, as [\d+] captures it. *)
Definition digits (q : string) : Prop := q <> "" /\ all_chars is_digit q = true.

(** What group 1 of the pattern can hold: "a", "an" or a run of digits. *)
Definition quantifier (q : string) : Prop := q = "a" \/ q = "an" \/ digits q.

(** The number a quantifier stands for. *)
Definition value_of (q : string) : Z :=
  if decide (q = "a" ∨ q = "an") then 1 else int_digits_go 0 q.

(** Seconds from the start of day 0 of the ordinal count to [t]. *)
Definition instant (t : datetime) : Z :=
  toordinal t * 86400 + hour t * 3600 + minute t * 60 + second t.

(** A date of the proleptic Gregorian calendar within the library's range. *)
Definition is_calendar_date (y m d : Z) : Prop :=
  MINYEAR <= y <= MAXYEAR /\ 1 <= m <= 12 /\ 1 <= d <= days_in_month y m.

(** [(y, m, d)] is the date [n] units before [t]: for years and months the
    calendar field moves and the day is clamped to the end of the month;
    for weeks and days the ordinal moves; for hours and minutes it is the
    day that contains the instant. *)
Definition is_date_before (u : time_unit) (n : Z) (t : datetime) (y m d : Z) : Prop :=
  match u with
  | Year => y = year t - n /\ m = month t /\ d = Z.min (day t) (days_in_month y m)
  | Month =>
      12 * y + m = 12 * year t + month t - n /\ d = Z.min (day t) (days_in_month y m)
  | Week => ymd2ord y m d = toordinal t - 7 * n
  | Day => ymd2ord y m d = toordinal t - n
  | Hour =>
      ymd2ord y m d * 86400 <= instant t - 3600 * n < (ymd2ord y m d + 1) * 86400
  | Minute =>
      ymd2ord y m d * 86400 <= instant t - 60 * n < (ymd2ord y m d + 1) * 86400
  end.

(** The date [n] units before [t] is not earlier than 0001-01-01. *)
Definition in_range (u : time_unit) (n : Z) (t : datetime) : Prop :=
  match u with
  | Year => MINYEAR <= year t - n
  | Month => 12 * MINYEAR + 1 <= 12 * year t + month t - n
  | Week => 1 <= toordinal t - 7 * n
  | Day => 1 <= toordinal t - n
  | Hour => 86400 <= instant t - 3600 * n
  | Minute => 86400 <= instant t - 60 * n
  end.

(** The quantities whose offset is within the reach of a [Timedelta]: years
    and months are moved by [replace]; weeks, days, hours and minutes are
    taken off as a duration, of 106751 days at most. *)
Definition within_reach (u : time_unit) (n : Z) : Prop :=
  match u with
  | Year | Month => True
  | Week => 7 * n <= 106751
  | Day => n <= 106751
  | Hour => n <= 106751 * 24
  | Minute => n <= 106751 * 1440
  end.

(** [YYYY-MM-DD] *)
Definition iso_date (y m d : Z) : string :=
  zfill 4 y +:+ "-" +:+ zfill 2 m +:+ "-" +:+ zfill 2 d.

(** A runtime that refuses no call, on a platform that writes a year below
    1000 without padding. *)
Definition eval_pandas : PandasRuntime := {|
  replace_raises := fun _ _ _ _ => None;
  add_raises := fun _ _ => None;
  short_year := fun y => pretty y;
  replace_same := fun _ => eq_refl;
  replace_in_window := fun _ _ _ _ _ _ _ _ _ => eq_refl;
  add_in_window := fun _ _ _ _ _ _ _ _ => eq_refl
|}.

(** Where a returned date comes from: the reference timestamp, or the
    timestamp some quantity of some unit before it. *)
Definition date_from {pd : PandasRuntime} (base : datetime) (s : string) : Prop :=
  exists t',
    is_calendar_date (year t') (month t') (day t') /\ s = strftime_ymd t' /\
    ((year t', month t', day t') = (year base, month base, day base) \/
     exists u n, 0 <= n /\ is_date_before u n base (year t') (month t') (day t')).

(** The timestamp the offset for [unit] and [n] leads to from [base];
    [None] when the unit is none of the six. *)
Definition shifted {pd : PandasRuntime} (unit : string) (n : Z) (base : datetime)
    : option (result datetime) :=
  (fun d => d' ← d; sub_delta base d') <$> pick_delta unit n.

End DateVocabulary.

(** *** Scroll regions *)

(** The count measured before round [i]: the initial 0, then the count of
    the round before. *)
Definition previous {A : Type} (init : A) (c : nat -> A) (i : nat) : A :=
  match i with
  | O => init
  | S j => c j
  end.

(** Round [i] measured what the round before it measured. *)
Definition unchanged (c : nat -> nat) (i : nat) : Prop := c i = previous 0%nat c i.

(** Three consecutive unchanged rounds end at round [i]. *)
Definition stable3 (c : nat -> nat) (i : nat) : Prop :=
  (2 <= i)%nat /\ unchanged c i /\ unchanged c (i - 1) /\ unchanged c (i - 2).

(** [b] shows a scrollable container, never raises, and measures [c i]
    results in round [i]. *)
Definition shows_counts (b : search_browser) (c : nat -> nat) : Prop :=
  (exists divs k, sb_containers b = Found divs /\ first_scrollable 0 divs = Found (Some k)) /\
  (exists u, sb_hover b = Found u) /\
  (forall i, sb_count b i = Found (c i)) /\
  (forall i, exists u, sb_scroll b i = Found u).

(** The length of the run of unchanged rounds that ends just before round
    [i]. *)
Fixpoint run (c : nat -> nat) (i : nat) : nat :=
  match i with
  | O => O
  | S j => if decide (c j = previous 0%nat c j) then S (run c j) else O
  end.

(** [b] shows a reviews container, never raises, and reports the height
    [h i] after the scroll of round [i]. *)
Definition shows_heights (b : panel_browser) (h : nat -> Z) : Prop :=
  (exists sel k, find_panel b panel_selectors = Found (Some (sel, k))) /\
  (exists u, pb_hover b = Found u) /\
  (forall i, pb_height b i = Found (h i)) /\
  (forall i, exists u, pb_scroll b i = Found u).

(** A search page with one container whose result count stays at [n]. *)
Definition steady_search (n : nat) : search_browser :=
  {| sb_containers := Found [Found 900%Z];
     sb_hover := Found tt;
     sb_count := fun _ => Found n;
     sb_scroll := fun _ => Found tt |}.

(** A detail page whose panel keeps the height [z]. *)
Definition steady_panel (z : Z) : panel_browser :=
  {| pb_find := fun _ => Found [Found 900%Z];
     pb_hover := Found tt;
     pb_scroll := fun _ => Found tt;
     pb_height := fun _ => Found z |}.

(** What a record must be like to sit in the result. *)
Definition carries_signal {rt : PyRuntime} (r : Review) : Prop :=
  (0 < rating_number (r_rating r))%Z \/ 5 < String.length (review_text r).

(** *** Pages to evaluate on *)

(** The text a table of selector/text pairs gives for a selector. *)
Fixpoint text_at (table : list (string * string)) (selector : string) : answer string :=
  match table with
  | [] => Throws "no such element"
  | (s, t) :: rest => if decide (s = selector) then Found t else text_at rest selector
  end.

(** A review block at [location] whose descendants are listed in [table]. *)
Definition review_block (location : Z * Z) (table : list (string * string))
    (label : answer (option string)) (stars : answer nat) : review_element :=
  {| re_location := Found location;
     re_find_text := text_at table;
     re_star_label := label;
     re_filled_stars := stars |}.

(** A detail page whose blocks all carry [data-review-id]. *)
Definition review_page (blocks : list review_element) (selector : string)
    : answer (list review_element) :=
  if decide (selector = "[data-review-id]") then Found blocks else Found [].

(** A runtime for closed evaluations; they never reach its [float] and
    [int], and a rating text that is not a run of digits is refused. *)
Definition eval_runtime : PyRuntime :=
  {| repr_large_float := fun n => pretty n;
     pyfloat := Z;
     float_of_text := fun _ => None;
     int_of_text := fun _ => None;
     scraped_at_default := "2025-06-04T10:48:50" |}.

(** A block whose only name element reads "More" and that has nothing
    else. *)
Definition more_block : review_element :=
  review_block (0, 0)%Z [(".d4r55", "More")] (Throws "no such element") (Found 4).

(** A block whose text element holds a short text. *)
Definition short_text_block : review_element :=
  review_block (0, 0)%Z [(".wiI7pd", "Hi")] (Throws "no such element") (Found 0).

(** A block whose star image has a label that spells the number out, and
    four filled stars. *)
Definition unlabelled_block : review_element :=
  review_block (0, 0)%Z [] (Found (Some "Four stars")) (Found 4).

(** A block whose star label reads "10 stars". *)
Definition ten_star_block : review_element :=
  review_block (0, 0)%Z [(".d4r55", "Amal")] (Found (Some "10 stars")) (Found 0).

(** A branch to visit. *)
Definition some_branch {rt : PyRuntime} : BankBranch :=
  mk_BankBranch "CIH Bank" "CIH Bank Agdal" (Some "https://maps.example/agdal")
    "Avenue de France, Rabat" None None.

(** Two blocks at different positions: in the first the text begins with
    "5.0|", in the second the name ends with "|5.0". *)
Definition pipe_text_block : review_element :=
  review_block (0, 0)%Z [(".d4r55", "A"); (".wiI7pd", "5.0|great service")]
    (Found (Some "5 stars")) (Found 0).

(** The second of the two. *)
Definition pipe_name_block : review_element :=
  review_block (0, 40)%Z [(".d4r55", "A|5.0"); (".wiI7pd", "great service")]
    (Found (Some "5 stars")) (Found 0).

(** The label shows the run of digits [ds] directly before the word "star",
    blanks apart, behind [pre]. *)
Definition shows (label pre ds ws tail : string) : Prop :=
  label = pre +:+ ds +:+ ws +:+ "star" +:+ tail /\ ds <> "" /\
  all_chars is_digit ds = true /\ all_chars is_space ws = true.

(** The first place where the label shows such a run: none begins further
    left. *)
Definition shows_first (label pre ds ws tail : string) : Prop :=
  shows label pre ds ws tail /\
  forall pre' ds' ws' tail',
    shows label pre' ds' ws' tail' -> String.length pre <= String.length pre'.

(** A result card with a rating text and nothing else to read. *)
Definition rated_card (rating_text : string) : listing_element :=
  {| le_parent :=
       Found {| lp_name := Found "CIH Bank Agdal";
                lp_address_divs := Found [];
                lp_rating_text := Found rating_text;
                lp_review_text := Throws "no such element" |};
     le_href := Found (Some "https://maps.example/agdal");
     le_location := Found (8, 100)%Z |}.

(** *** Position keys *)

(** Any character but the separator of a position key. *)
Definition not_comma (c : ascii) : bool := negb (bool_decide (c = ","%char)).

(** *** Deduplication *)

(** The position of a review block, when it can be read. *)
Definition position (e : review_element) : option (Z * Z) :=
  match re_location e with
  | Found l => Some l
  | Throws _ => None
  end.

(** A block is the first at its position: the position can be read, and
    none of the blocks processed before it sits there. *)
Definition first_at_position (processed : list review_element) (e : review_element)
    : bool :=
  match position e with
  | Some l => bool_decide (l ∉ omap position processed)
  | None => false
  end.

(** The blocks left when every block that coincides in position with an
    already-processed one is dropped, as the claim has it; [processed] are
    the blocks gone through so far, kept or not. *)
Fixpoint drop_coinciding (processed blocks : list review_element)
    : list review_element :=
  match blocks with
  | [] => []
  | e :: rest =>
      (if first_at_position processed e then [e] else [])
        ++ drop_coinciding (processed ++ [e]) rest
  end.

(** The same listing element somewhere else on the page. *)
Definition moved (f : listing_element -> answer (Z * Z)) (e : listing_element)
    : listing_element :=
  {| le_parent := le_parent e; le_href := le_href e; le_location := f e |}.

(** A result card with a name and a link and nothing else. *)
Definition listing_card (location : Z * Z) (name href : string) : listing_element :=
  {| le_parent :=
       Found {| lp_name := Found name;
                lp_address_divs := Found [];
                lp_rating_text := Throws "no such element";
                lp_review_text := Throws "no such element" |};
     le_href := Found (Some href);
     le_location := Found location |}.

(** Five cards; the fourth and fifth sit where the first and second sit,
    with links of their own. *)
Definition five_cards : list listing_element :=
  [listing_card (8, 100)%Z "CIH Agdal" "https://maps.example/1";
   listing_card (8, 220)%Z "CIH Hassan" "https://maps.example/2";
   listing_card (8, 340)%Z "CIH Ocean" "https://maps.example/3";
   listing_card (8, 100)%Z "CIH Souissi" "https://maps.example/4";
   listing_card (8, 220)%Z "CIH Riad" "https://maps.example/5"].

(** The branches the per-element loop appends, in order. *)
Definition extracted {rt : PyRuntime} (bank : string) (elements : list listing_element)
    : list BankBranch :=
  omap (fun e => match extract_branch bank e with
                 | Found b => Some b
                 | Throws _ => None
                 end) elements.

(** ** What a page of reviews yields *)

(** The four fields a review was built from. *)
Definition review_fields {rt : PyRuntime} (r : Review) : fields :=
  mk_fields (reviewer_name r) (r_rating r) (review_text r) (review_date r).

(** The key under which a review was recorded. *)
Definition fingerprint {rt : PyRuntime} (r : Review) : string :=
  review_key (review_fields r).

(** [r] is a review of [branch] as the scraper builds them: the branch
    columns are copied, and the remaining columns keep their defaults. *)
Definition built_for {rt : PyRuntime} (branch : BankBranch) (r : Review) : Prop :=
  r_bank_name r = bank_name branch /\ r_branch_name r = branch_name branch /\
  r_branch_address r = address branch /\ r_branch_url r = branch_url branch /\
  helpful_count r = 0%Z /\ response_from_owner r = None /\
  scraped_at r = scraped_at_default.

(** The blocks the four selectors find, in the order the loop gathers
    them. *)
Definition found_blocks (find : string -> answer (list review_element))
    (selectors : list string) : list review_element :=
  concat ((fun selector => match find selector with
                           | Found elements => elements
                           | Throws _ => []
                           end) <$> selectors).

(** The stripped texts the selectors of a field find, in selector order. *)
Definition found_values (find : string -> answer string) (selectors : list string)
    : list string :=
  omap (fun selector => match find selector with
                        | Found t => Some (strip t)
                        | Throws _ => None
                        end) selectors.

(** ** A run over one bank *)

(** The state of a scraper that has collected nothing yet. *)
Definition nothing_collected {rt : PyRuntime} : scraper_state := mk_scraper_state [] [].

(** What a run adds to the branches and to the reviews of a scraper that
    holds nothing. *)
Definition new_branches {rt : PyRuntime} (w : web) (bank : string)
    (cities : option (list string)) : list BankBranch :=
  branches_collected (scrape_bank_branches w nothing_collected bank cities).1.

Definition new_reviews {rt : PyRuntime} (w : web) (bank : string)
    (cities : option (list string)) : list Review :=
  reviews_collected (scrape_bank_branches w nothing_collected bank cities).1.

(** The reviews of one branch visit. *)
Definition visit_reviews {rt : PyRuntime} (w : web) (branch : BankBranch) : list Review :=
  (visit_branch_and_get_reviews (web_place w (branch_url branch)) branch).1.

Definition has_url {rt : PyRuntime} (branch : BankBranch) : bool :=
  match branch_url branch with
  | Some _ => true
  | None => false
  end.

(** The branches up to the first one without a URL. *)
Fixpoint with_url {rt : PyRuntime} (branches : list BankBranch) : list BankBranch :=
  match branches with
  | [] => []
  | branch :: rest => if has_url branch then branch :: with_url rest else []
  end.

(** The search phase of a run: the branches of all searches together, or
    the exception that left a search. *)
Definition gathered {rt : PyRuntime} (w : web) (bank : string)
    (cities : option (list string)) : answer (list BankBranch) :=
  match cities with
  | Some (city :: rest) => search_cities w bank (city :: rest) []
  | Some [] | None =>
      match search_bank w bank "" with
      | Throws msg => Throws msg
      | Found page => Found (extract_branch_links (sp_links page) bank).1
      end
  end.

(** The reference timestamp of the worked examples, 2025-06-15T00:00:00. *)
Definition T0 : datetime := mk_datetime 2025 6 15 0 0 0.

(** A search page on which no container is found. *)
Definition bare_search : search_browser :=
  {| sb_containers := Found [];
     sb_hover := Found tt;
     sb_count := fun _ => Found 0;
     sb_scroll := fun _ => Found tt |}.

(** Fields without a rating and with a two-letter text. *)
Definition empty_fields : fields := mk_fields "Amal" (RInt 0) "ok" "".

(** Two sets of fields whose texts part ways after 53 characters. *)
Definition long_fields_1 : fields :=
  mk_fields "Amal" (RFloat 5)
    "The staff were friendly and the queue moved quickly, but the ATM was out of service."
    "2 months ago".

(** The second of the two. *)
Definition long_fields_2 : fields :=
  mk_fields "Amal" (RFloat 5)
    "The staff were friendly and the queue moved quickly, and parking was easy to find."
    "2 months ago".

(** Five cards; the fourth and fifth are the first and second again. *)
Definition five_cards_resurfaced : list listing_element :=
  [listing_card (8, 100)%Z "CIH Agdal" "https://maps.example/1";
   listing_card (8, 220)%Z "CIH Hassan" "https://maps.example/2";
   listing_card (8, 340)%Z "CIH Ocean" "https://maps.example/3";
   listing_card (8, 100)%Z "CIH Agdal" "https://maps.example/1";
   listing_card (8, 220)%Z "CIH Hassan" "https://maps.example/2"].

(** A block whose star label reads "4 stars". *)
Definition four_star_block : review_element :=
  review_block (0, 0)%Z [(".d4r55", "Amal")] (Found (Some "4 stars")) (Found 0).

(** Three blocks; the second sits where the first sits. *)
Definition three_blocks : list review_element :=
  [four_star_block; ten_star_block; pipe_name_block].

(** *** Worked examples of the run *)

(** A detail page on which the second selector raises and the first
    finds a block. *)
Definition broken_page (selector : string) : answer (list review_element) :=
  if decide (selector = "[jscontroller='fIQYlf']") then Throws "stale element reference"
  else review_page [ten_star_block] selector.

(** A result card whose link has no [href]. *)
Definition card_without_href (location : Z * Z) (name : string) : listing_element :=
  {| le_parent :=
       Found {| lp_name := Found name;
                lp_address_divs := Found [];
                lp_rating_text := Throws "no such element";
                lp_review_text := Throws "no such element" |};
     le_href := Found None;
     le_location := Found location |}.

(** A detail page with a reviews tab and one review block. *)
Definition one_review_place : place_page :=
  {| pp_get := Found tt;
     pp_find_tab := fun _ => Found tt;
     pp_click := Found tt;
     pp_panel := steady_panel 900;
     pp_find_reviews := review_page [ten_star_block] |}.

(** A web on which every search shows [cards] and every branch page is
    [one_review_place]. *)
Definition web_of (cards : list listing_element) : web :=
  {| web_search := fun _ =>
       {| sp_get := Found tt;
          sp_wait := Found true;
          sp_scroll := steady_search (length cards);
          sp_links := Found cards |};
     web_place := fun _ => one_review_place |}.

(** Three cards, the second without a link, and two cards with links. *)
Definition cards_with_gap : list listing_element :=
  [listing_card (8, 100)%Z "CIH Agdal" "https://maps.example/1";
   card_without_href (8, 220)%Z "CIH Hassan";
   listing_card (8, 340)%Z "CIH Ocean" "https://maps.example/3"].

Definition two_cards : list listing_element :=
  [listing_card (8, 100)%Z "CIH Agdal" "https://maps.example/1";
   listing_card (8, 220)%Z "CIH Hassan" "https://maps.example/2"].

Definition branch_without_url {rt : PyRuntime} : BankBranch :=
  mk_BankBranch "CIH Bank" "CIH Hassan" None "" None None.

Definition agdal_branch {rt : PyRuntime} : BankBranch :=
  mk_BankBranch "CIH Bank" "CIH Agdal" (Some "https://maps.example/1") "" None None.

(** A result card whose container cannot be read. *)
Definition unreadable_card : listing_element :=
  {| le_parent := Throws "stale element reference";
     le_href := Found (Some "https://maps.example/9");
     le_location := Found (8, 460)%Z |}.

(** A review block with a name and a five-star label whose position
    cannot be read. *)
Definition unlocated_block : review_element :=
  {| re_location := Throws "stale element reference";
     re_find_text := text_at [(".d4r55", "Karim")];
     re_star_label := Found (Some "5 stars");
     re_filled_stars := Found 0 |}.

(** A web like [web_of cards] on which the search in Sale cannot be
    loaded. *)
Definition web_without_sale (cards : list listing_element) : web :=
  {| web_search := fun url =>
       {| sp_get :=
            if decide (url = search_url (search_query "CIH Bank" "Sale"))
            then Throws "net::ERR_CONNECTION_RESET" else Found tt;
          sp_wait := Found true;
          sp_scroll := steady_search (length cards);
          sp_links := Found cards |};
     web_place := fun _ => one_review_place |}.

(** * Proof steps *)

(** Linear arithmetic with division and remainder by constants. *)
Ltac div_lia := Z.div_mod_to_equations; lia.

(** Case analysis on a month number known to lie in 1..12. *)
Ltac month_cases m :=
  let H := fresh in
  assert (H : (m = 1 \/ m = 2 \/ m = 3 \/ m = 4 \/ m = 5 \/ m = 6 \/ m = 7 \/
               m = 8 \/ m = 9 \/ m = 10 \/ m = 11 \/ m = 12)%Z) by lia;
  destruct H as [H|[H|[H|[H|[H|[H|[H|[H|[H|[H|[H|H]]]]]]]]]]]; subst m.

(** Step over a bind whose first computation returned. *)
Ltac bind_ok := unfold mbind, result_bind; cbv beta iota.

(** Membership in a set of URLs written as a union of singletons. *)
Ltac url_set :=
  rewrite ?elem_of_union, ?elem_of_singleton, ?elem_of_empty; intuition congruence.

(** * Facts *)

Section CalendarFacts.
Local Open Scope Z_scope.

Lemma dby_decompose a b c e :
  0 <= b <= 3 -> 0 <= c <= 24 -> 0 <= e <= 3 ->
  days_before_year (year_of a b c e) = day_number a b c e 0.
Proof.
  intros Hb Hc He. unfold days_before_year, year_of, day_number, DI400Y, DI100Y, DI4Y.
  replace (400 * a + 100 * b + 4 * c + e + 1 - 1) with (400 * a + 100 * b + 4 * c + e) by lia.
  div_lia.
Qed.

Lemma is_leap_decompose a b c e :
  0 <= b <= 3 -> 0 <= c <= 24 -> 0 <= e <= 3 ->
  is_leap (year_of a b c e) = leap_of b c e.
Proof.
  intros Hb Hc He. unfold is_leap, year_of, leap_of.
  assert (H4 : (400 * a + 100 * b + 4 * c + e + 1) mod 4 = (e + 1) mod 4) by div_lia.
  assert (H100 : (400 * a + 100 * b + 4 * c + e + 1) mod 100
                 = 4 * c + e + 1 - (if (4 * c + e + 1 =? 100) then 100 else 0)).
  { destruct (Z.eqb_spec (4 * c + e + 1) 100); div_lia. }
  assert (H400 : (400 * a + 100 * b + 4 * c + e + 1) mod 400
                 = 100 * b + 4 * c + e + 1
                   - (if (100 * b + 4 * c + e + 1 =? 400) then 400 else 0)).
  { destruct (Z.eqb_spec (100 * b + 4 * c + e + 1) 400); div_lia. }
  rewrite H4, H100, H400.
  destruct (Z.eqb_spec e 3), (Z.eqb_spec c 24), (Z.eqb_spec b 3); subst; simpl;
    repeat match goal with |- context [Z.eqb ?x ?y] => destruct (Z.eqb_spec x y) end;
    simpl; try reflexivity; try div_lia.
Qed.

Lemma ord2ymd_normal a b c e r :
  0 <= a -> 0 <= b <= 3 -> 0 <= c <= 24 -> 0 <= e <= 3 -> 0 <= r <= 364 ->
  ord2ymd (day_number a b c e r + 1)
  = let '(m, d) := month_day (leap_of b c e) r in (year_of a b c e, m, d).
Proof.
  intros Ha Hb Hc He Hr.
  unfold ord2ymd, day_number, DI400Y, DI100Y, DI4Y.
  set (n := 146097 * a + 36524 * b + 1461 * c + 365 * e + r + 1 - 1).
  assert (E400 : n / 146097 = a) by (subst n; div_lia).
  assert (R400 : n mod 146097 = 36524 * b + 1461 * c + 365 * e + r) by (subst n; div_lia).
  cbv zeta. rewrite E400, R400.
  assert (E100 : (36524 * b + 1461 * c + 365 * e + r) / 36524 = b) by div_lia.
  assert (R100 : (36524 * b + 1461 * c + 365 * e + r) mod 36524 = 1461 * c + 365 * e + r)
    by div_lia.
  rewrite E100, R100.
  assert (E4 : (1461 * c + 365 * e + r) / 1461 = c) by div_lia.
  assert (R4 : (1461 * c + 365 * e + r) mod 1461 = 365 * e + r) by div_lia.
  rewrite E4, R4.
  assert (E1 : (365 * e + r) / 365 = e) by div_lia.
  assert (R1 : (365 * e + r) mod 365 = r) by div_lia.
  rewrite E1, R1.
  destruct (Z.eqb_spec e 4); [lia|]. destruct (Z.eqb_spec b 4); [lia|].
  simpl orb. cbv iota.
  unfold month_day, leap_of, year_of. cbv zeta.
  destruct (r <? _); f_equal; f_equal; lia.
Qed.

Lemma ord2ymd_last a b c e :
  0 <= a -> 0 <= b <= 3 -> 0 <= c <= 24 -> 0 <= e <= 3 ->
  leap_of b c e = true ->
  ord2ymd (day_number a b c e 365 + 1) = (year_of a b c e, 12, 31).
Proof.
  intros Ha Hb Hc He Hl.
  assert (e = 3 /\ (c <> 24 \/ b = 3)) as [-> Hcb].
  { unfold leap_of in Hl. destruct (Z.eqb_spec e 3), (Z.eqb_spec c 24), (Z.eqb_spec b 3);
      simpl in Hl; try discriminate; lia. }
  unfold ord2ymd, day_number, year_of, DI400Y, DI100Y, DI4Y.
  set (n := 146097 * a + 36524 * b + 1461 * c + 365 * 3 + 365 + 1 - 1).
  assert (E400 : n / 146097 = a) by (subst n; div_lia).
  assert (R400 : n mod 146097 = 36524 * b + 1461 * c + 1460) by (subst n; div_lia).
  cbv zeta. rewrite E400, R400.
  destruct (decide (c = 24)) as [->|Hc24].
  - assert (b = 3) as -> by (destruct Hcb; [congruence | assumption]).
    replace ((36524 * 3 + 1461 * 24 + 1460) / 36524) with 4 by reflexivity.
    replace ((36524 * 3 + 1461 * 24 + 1460) mod 36524) with 0 by reflexivity.
    simpl. f_equal. f_equal. div_lia.
  - assert (E100 : (36524 * b + 1461 * c + 1460) / 36524 = b) by div_lia.
    assert (R100 : (36524 * b + 1461 * c + 1460) mod 36524 = 1461 * c + 1460) by div_lia.
    rewrite E100, R100.
    assert (E4 : (1461 * c + 1460) / 1461 = c) by div_lia.
    assert (R4 : (1461 * c + 1460) mod 1461 = 1460) by div_lia.
    rewrite E4, R4.
    replace (1460 / 365) with 4 by reflexivity.
    simpl. f_equal. f_equal. lia.
Qed.

(** Both checks over every day of a common and of a leap year. *)
Lemma month_day_table :
  forallb (fun leap =>
    forallb (fun m =>
      forallb (fun d =>
        negb (d <=? DAYS_IN_MONTH m + (if (m =? 2) && leap then 1 else 0))
        || month_day_ok leap m d) (seqZ 1 31)) (seqZ 1 12)) [true; false] = true.
Proof. vm_compute. reflexivity. Qed.

Lemma month_day_spec leap m d :
  1 <= m <= 12 ->
  1 <= d <= DAYS_IN_MONTH m + (if (m =? 2) && leap then 1 else 0) ->
  month_day leap (DAYS_BEFORE_MONTH m + (if (2 <? m) && leap then 1 else 0) + d - 1) = (m, d).
Proof.
  intros Hm Hd.
  pose proof month_day_table as T.
  rewrite forallb_forall in T.
  assert (Hl : In leap [true; false]) by (destruct leap; simpl; auto).
  specialize (T leap Hl). rewrite forallb_forall in T.
  assert (Hmi : In m (seqZ 1 12)).
  { apply list_elem_of_In, elem_of_seqZ. lia. }
  specialize (T m Hmi). rewrite forallb_forall in T.
  assert (Hd31 : d <= 31).
  { assert (DAYS_IN_MONTH m <= 31) by (month_cases m; simpl; lia).
    destruct ((m =? 2) && leap) eqn:E; [|lia].
    apply andb_prop in E as [E _]. apply Z.eqb_eq in E. subst m. simpl in Hd. lia. }
  assert (Hdi : In d (seqZ 1 31)).
  { apply list_elem_of_In, elem_of_seqZ. lia. }
  specialize (T d Hdi).
  apply orb_prop in T as [T|T].
  - apply negb_true_iff, Z.leb_gt in T. lia.
  - unfold month_day_ok in T. apply bool_decide_eq_true in T. exact T.
Qed.

Lemma day_of_year_range leap m d :
  1 <= m <= 12 ->
  1 <= d <= DAYS_IN_MONTH m + (if (m =? 2) && leap then 1 else 0) ->
  0 <= DAYS_BEFORE_MONTH m + (if (2 <? m) && leap then 1 else 0) + d - 1
    <= 364 + (if leap then 1 else 0).
Proof. intros Hm Hd. month_cases m; destruct leap; simpl in *; lia. Qed.

Lemma year_decompose y :
  exists a b c e,
    0 <= b <= 3 /\ 0 <= c <= 24 /\ 0 <= e <= 3 /\ y = year_of a b c e /\
    (1 <= y -> 0 <= a).
Proof.
  exists ((y - 1) / 400), ((y - 1) mod 400 / 100), ((y - 1) mod 100 / 4), ((y - 1) mod 4).
  unfold year_of. repeat split; div_lia.
Qed.

(** A valid date is recovered from its ordinal. *)
Lemma ord2ymd_ymd2ord y m d :
  1 <= y -> 1 <= m <= 12 -> 1 <= d <= days_in_month y m ->
  ord2ymd (ymd2ord y m d) = (y, m, d).
Proof.
  intros Hy Hm Hd.
  destruct (year_decompose y) as (a & b & c & e & Hb & Hc & He & -> & Ha).
  specialize (Ha Hy).
  unfold ymd2ord, days_before_month, days_in_month in *.
  rewrite is_leap_decompose in * by assumption.
  rewrite dby_decompose by assumption.
  set (leap := leap_of b c e) in *.
  assert (Hd' : 1 <= d <= DAYS_IN_MONTH m + (if (m =? 2) && leap then 1 else 0)).
  { destruct ((m =? 2) && leap) eqn:E; [|lia].
    apply andb_prop in E as [E _]. apply Z.eqb_eq in E. subst m. simpl. lia. }
  pose proof (day_of_year_range leap m d Hm Hd') as Hr.
  set (r := DAYS_BEFORE_MONTH m + (if (2 <? m) && leap then 1 else 0) + d - 1) in *.
  replace (day_number a b c e 0 + (DAYS_BEFORE_MONTH m + (if (2 <? m) && leap then 1 else 0)) + d)
    with (day_number a b c e r + 1) by (unfold day_number, r; lia).
  destruct (decide (r = 365)) as [E365|N365].
  - assert (leap = true) as Hl by (destruct leap; [reflexivity | lia]).
    assert (m = 12 /\ d = 31) as [-> ->].
    { subst r. rewrite Hl in *. month_cases m; simpl in *; lia. }
    rewrite E365. apply ord2ymd_last; assumption.
  - rewrite ord2ymd_normal by (try assumption; destruct leap; lia).
    fold leap. subst r. rewrite month_day_spec by assumption. reflexivity.
Qed.

Lemma ymd2ord_lower y m d :
  1 <= y -> 1 <= m <= 12 -> 1 <= d -> 1 <= ymd2ord y m d.
Proof.
  intros Hy Hm Hd. unfold ymd2ord, days_before_year, days_before_month.
  assert (0 <= DAYS_BEFORE_MONTH m) by (month_cases m; simpl; lia).
  destruct ((2 <? m) && is_leap y); div_lia.
Qed.

Lemma ymd2ord_upper y m d :
  y <= MAXYEAR -> 1 <= m <= 12 -> d <= days_in_month y m -> ymd2ord y m d <= MAXORDINAL.
Proof.
  intros Hy Hm Hd. unfold ymd2ord, days_before_month, days_in_month, MAXYEAR, MAXORDINAL in *.
  destruct (decide (y = 9999)) as [->|Hne].
  - replace (is_leap 9999) with false in * by reflexivity.
    replace (days_before_year 9999) with 3651694 by reflexivity.
    month_cases m; simpl in *; lia.
  - assert (DAYS_BEFORE_MONTH m + (if (2 <? m) && is_leap y then 1 else 0) + d <= 366).
    { month_cases m; destruct (is_leap y); simpl in *; lia. }
    unfold days_before_year. div_lia.
Qed.

Lemma ordinal_decompose n :
  0 <= n ->
  exists a b c e r,
    0 <= a /\ 0 <= b <= 3 /\ 0 <= c <= 24 /\ 0 <= e <= 3 /\
    0 <= r <= 364 + (if leap_of b c e then 1 else 0) /\
    n = day_number a b c e r.
Proof.
  intros Hn. unfold day_number, DI400Y, DI100Y, DI4Y.
  set (R := n mod 146097).
  destruct (decide (R = 146096)) as [E|N].
  { exists (n / 146097), 3, 24, 3, 365. simpl. subst R. repeat split; div_lia. }
  set (R1 := R mod 36524).
  set (R2 := R1 mod 1461).
  destruct (decide (R2 = 1460)) as [E2|N2].
  { exists (n / 146097), (R / 36524), (R1 / 1461), 3, 365.
    assert (R1 / 1461 <> 24) by (subst R2 R1 R; div_lia).
    unfold leap_of. destruct (Z.eqb_spec (R1 / 1461) 24); [contradiction|]. simpl.
    subst R2 R1 R. repeat split; div_lia. }
  exists (n / 146097), (R / 36524), (R1 / 1461), (R2 / 365), (R2 mod 365).
  assert (0 <= R2 mod 365 <= 364) by div_lia.
  destruct (leap_of _ _ _); subst R2 R1 R; repeat split; div_lia.
Qed.

Lemma day_in_month_table :
  forallb (fun leap : bool =>
    forallb (fun r =>
      negb (r <=? 364 + (if leap then 1 else 0)) || day_in_month_ok leap r)
      (seqZ 0 366)) [true; false] = true.
Proof. vm_compute. reflexivity. Qed.

Lemma month_day_valid (leap : bool) (r : Z) :
  0 <= r <= 364 + (if leap then 1 else 0) ->
  let '(m, d) := month_day leap r in
  1 <= m <= 12 /\
  1 <= d <= DAYS_IN_MONTH m + (if (m =? 2) && leap then 1 else 0) /\
  DAYS_BEFORE_MONTH m + (if (2 <? m) && leap then 1 else 0) + d - 1 = r.
Proof.
  intros Hr.
  pose proof day_in_month_table as T.
  rewrite forallb_forall in T.
  assert (Hl : In leap [true; false]) by (destruct leap; simpl; auto).
  specialize (T leap Hl). rewrite forallb_forall in T.
  assert (Hri : In r (seqZ 0 366)).
  { apply list_elem_of_In, elem_of_seqZ. destruct leap; lia. }
  specialize (T r Hri).
  apply orb_prop in T as [T|T].
  { apply negb_true_iff, Z.leb_gt in T. lia. }
  unfold day_in_month_ok in T. destruct (month_day leap r) as [m d].
  repeat (apply andb_prop in T as [T ?]).
  repeat match goal with
         | H : (_ <=? _) = true |- _ => apply Z.leb_le in H
         | H : (_ =? _) = true |- _ => apply Z.eqb_eq in H
         end.
  lia.
Qed.

(** Every ordinal from 1 on is the ordinal of the valid date it converts
    to. *)
Lemma ymd2ord_ord2ymd o :
  1 <= o ->
  let '(y, m, d) := ord2ymd o in
  1 <= y /\ 1 <= m <= 12 /\ 1 <= d <= days_in_month y m /\ ymd2ord y m d = o.
Proof.
  intros Ho.
  destruct (ordinal_decompose (o - 1)) as (a & b & c & e & r & Ha & Hb & Hc & He & Hr & E);
    [lia|].
  replace o with (day_number a b c e r + 1) by lia.
  assert (Hy : 1 <= year_of a b c e) by (unfold year_of; lia).
  destruct (decide (r = 365)) as [->|N365].
  - assert (Hl : leap_of b c e = true) by (destruct (leap_of b c e); [reflexivity | lia]).
    rewrite ord2ymd_last by assumption.
    unfold ymd2ord, days_in_month, days_before_month.
    rewrite is_leap_decompose, dby_decompose, Hl by assumption.
    simpl. unfold day_number. lia.
  - rewrite ord2ymd_normal by (try assumption; destruct (leap_of b c e); lia).
    pose proof (month_day_valid (leap_of b c e) r Hr) as Hmd.
    destruct (month_day (leap_of b c e) r) as [m d].
    destruct Hmd as (Hm & Hd & Er).
    unfold ymd2ord, days_in_month, days_before_month.
    rewrite is_leap_decompose, dby_decompose by assumption.
    repeat split; try lia.
    + destruct ((m =? 2) && leap_of b c e) eqn:E2; [|lia].
      apply andb_prop in E2 as [E2 _]. apply Z.eqb_eq in E2. subst m. simpl in Hd. lia.
    + unfold day_number in *. lia.
Qed.

End CalendarFacts.

Section StringFacts.
Local Open Scope Z_scope.

Lemma span_app p a b :
  all_chars p a = true -> starts_outside p b = true -> span p (a +:+ b) = (a, b).
Proof.
  intros Ha Hb. induction a as [|c a IH]; simpl in *.
  - destruct b as [|c b]; [reflexivity|]. simpl in Hb.
    apply negb_true_iff in Hb. simpl. rewrite Hb. reflexivity.
  - apply andb_prop in Ha as [Hc Ha]. rewrite Hc, (IH Ha). reflexivity.
Qed.

Lemma strip_prefix_app p s : strip_prefix p (p +:+ s) = Some s.
Proof.
  induction p as [|c p IH]; simpl.
  - destruct s; reflexivity.
  - rewrite decide_True by reflexivity. exact IH.
Qed.

Lemma all_chars_app p a b :
  all_chars p (a +:+ b) = all_chars p a && all_chars p b.
Proof. induction a as [|c a IH]; simpl; [reflexivity|]. rewrite IH, andb_assoc. reflexivity. Qed.

Lemma int_digits_go_app acc a b :
  int_digits_go acc (a +:+ b) = int_digits_go (int_digits_go acc a) b.
Proof. revert acc. induction a as [|c a IH]; intros acc; simpl; [reflexivity|]. apply IH. Qed.

Lemma string_length_app (a b : string) :
  String.length (a +:+ b) = (String.length a + String.length b)%nat.
Proof. induction a as [|c a IH]; simpl; [reflexivity|]. rewrite IH. reflexivity. Qed.

Lemma append_cons c (a b : string) : String c a +:+ b = String c (a +:+ b).
Proof. reflexivity. Qed.

Lemma append_assoc (a b c : string) : (a +:+ b) +:+ c = a +:+ (b +:+ c).
Proof. induction a as [|x a IH]; [reflexivity|]. rewrite !append_cons, IH. reflexivity. Qed.

Lemma pretty_N_go_app x s : pretty_N_go x s = pretty_N_go x "" +:+ s.
Proof.
  revert s. induction (N.lt_wf_0 x) as [x _ IH]. intros s.
  destruct (decide (x = 0)%N) as [->|Hx].
  - rewrite !pretty_N_go_0. reflexivity.
  - rewrite !(pretty_N_go_step x) by lia.
    assert (Hlt : (x `div` 10 < x)%N) by (apply N.div_lt; lia).
    rewrite (IH _ Hlt (String _ s)), (IH _ Hlt (String _ "")).
    rewrite append_assoc. reflexivity.
Qed.

Lemma pretty_N_char_digit x :
  (x < 10)%N -> is_digit (pretty_N_char x) = true /\ digit_value (pretty_N_char x) = Z.of_N x.
Proof.
  intros Hx.
  assert (x = 0 \/ x = 1 \/ x = 2 \/ x = 3 \/ x = 4 \/ x = 5 \/ x = 6 \/ x = 7 \/ x = 8 \/ x = 9)%N
    as H by lia.
  repeat (destruct H as [->|H]; [split; reflexivity|]). subst. split; reflexivity.
Qed.

(** The digits stdpp prints are decimal digits, they spell the number, and
    there are no more of them than the number's size allows. *)
Lemma pretty_N_go_digits x :
  all_chars is_digit (pretty_N_go x "") = true /\
  int_digits_go 0 (pretty_N_go x "") = Z.of_N x /\
  (forall k : nat, (x < 10 ^ N.of_nat k)%N -> (String.length (pretty_N_go x "") <= k)%nat) /\
  (x <> 0%N -> pretty_N_go x "" <> "").
Proof.
  induction (N.lt_wf_0 x) as [x _ IH].
  destruct (decide (x = 0)%N) as [->|Hx].
  { rewrite pretty_N_go_0. repeat split; simpl; try lia; try congruence. }
  rewrite (pretty_N_go_step x) by lia. rewrite pretty_N_go_app.
  destruct (IH (x `div` 10)%N) as (Hd & Hv & Hl & _); [apply N.div_lt; lia|].
  destruct (pretty_N_char_digit (x `mod` 10)%N) as [Hc Hcv]; [apply N.mod_lt; lia|].
  repeat split.
  - rewrite all_chars_app, Hd. simpl. rewrite Hc. reflexivity.
  - rewrite int_digits_go_app, Hv. simpl. rewrite Hcv.
    rewrite (N.div_mod x 10) at 3 by lia. lia.
  - intros k Hk. rewrite string_length_app. simpl.
    destruct k as [|k]; [simpl in Hk; lia|].
    specialize (Hl k). rewrite Nat2N.inj_succ, N.pow_succ_r' in Hk.
    assert (x `div` 10 < 10 ^ N.of_nat k)%N by (apply N.Div0.div_lt_upper_bound; lia).
    specialize (Hl H). lia.
  - intros _. destruct (pretty_N_go (x `div` 10) ""); discriminate.
Qed.

Lemma pretty_Z_nonneg n : 0 <= n -> pretty n = pretty (Z.to_N n).
Proof. intros Hn. destruct n as [|p|p]; try lia; reflexivity. Qed.

Lemma pretty_N_unfold (x : N) :
  pretty x = if decide (x = 0)%N then "0" else pretty_N_go x "".
Proof. reflexivity. Qed.

(** The decimal numeral of a non-negative integer: non-empty, all digits,
    read back by [int] as the number. *)
Lemma numeral_spec n :
  0 <= n ->
  pretty n <> "" /\ all_chars is_digit (pretty n) = true /\
  int_digits_go 0 (pretty n) = n /\
  (forall k : nat, (0 < k)%nat -> n < 10 ^ Z.of_nat k -> (String.length (pretty n) <= k)%nat).
Proof.
  intros Hn. rewrite (pretty_Z_nonneg n Hn), pretty_N_unfold.
  destruct (decide (Z.to_N n = 0)%N) as [E|E].
  - assert (n = 0) as -> by lia. repeat split; try reflexivity; try discriminate.
    intros k Hk _. simpl. lia.
  - destruct (pretty_N_go_digits (Z.to_N n)) as (Hd & Hv & Hl & Hne).
    repeat split; auto.
    + rewrite Hv. lia.
    + intros k _ Hk. apply Hl.
      apply N2Z.inj_lt. rewrite N2Z.inj_pow, Z2N.id, nat_N_Z by lia. exact Hk.
Qed.

End StringFacts.

Section PatternFacts.
Local Open Scope Z_scope.

Lemma pick_delta_classify unit n :
  pick_delta unit n = (fun u => delta_of u n) <$> classify unit.
Proof.
  unfold pick_delta, classify.
  repeat (destruct (contains _ unit); [reflexivity|]). reflexivity.
Qed.

Lemma classify_unit_word u plural :
  plural = "" \/ plural = "s" -> classify (unit_word u +:+ plural) = Some u.
Proof. intros [-> | ->]; destruct u; reflexivity. Qed.

Lemma unit_word_letters u plural :
  plural = "" \/ plural = "s" ->
  all_chars is_az (unit_word u +:+ plural) = true /\ unit_word u +:+ plural <> "".
Proof. intros [-> | ->]; destruct u; split; (reflexivity || discriminate). Qed.

Lemma az_not_space c : is_az c = true -> is_space c = false.
Proof. destruct c as [[] [] [] [] [] [] [] []]; vm_compute; congruence. Qed.

Lemma space_not_digit c : is_space c = true -> is_digit c = false.
Proof. destruct c as [[] [] [] [] [] [] [] []]; vm_compute; congruence. Qed.

Lemma starts_outside_app p a b :
  a <> "" -> starts_outside p (a +:+ b) = starts_outside p a.
Proof. destruct a; [congruence | reflexivity]. Qed.

Lemma starts_outside_all p q a :
  a <> "" -> all_chars q a = true -> (forall c, q c = true -> p c = false) ->
  starts_outside p a = true.
Proof.
  destruct a as [|c a]; [congruence|]. simpl. intros _ H Hpq.
  apply andb_prop in H as [H _]. rewrite (Hpq c H). reflexivity.
Qed.

(** The tail of the pattern on whitespace, a word of letters and a rest that
    does not go on with a letter. *)
Lemma match_unit_spec ws w rest :
  ws <> "" -> all_chars is_space ws = true ->
  w <> "" -> all_chars is_az w = true ->
  starts_outside is_az rest = true ->
  match_unit (ws +:+ w +:+ rest) = Some w.
Proof.
  intros Hws Hsp Hw Haz Hrest. unfold match_unit.
  rewrite span_app; [|assumption|].
  2:{ rewrite starts_outside_app by assumption.
      apply (starts_outside_all _ is_az); auto using az_not_space. }
  destruct ws; [congruence|].
  rewrite span_app by assumption.
  destruct w; [congruence | reflexivity].
Qed.

Lemma match_unit_no_space s :
  starts_outside is_space s = true -> match_unit s = None.
Proof.
  intros H. unfold match_unit. destruct s as [|c s]; [reflexivity|].
  simpl in *. apply negb_true_iff in H. rewrite H. reflexivity.
Qed.

Lemma zeros_digits k :
  all_chars is_digit (zeros k) = true /\ int_digits_go 0 (zeros k) = 0.
Proof. induction k as [|k [IH1 IH2]]; simpl; auto. Qed.

Lemma first_digit s :
  digits s -> exists c r, s = String c r /\ is_digit c = true.
Proof.
  intros [Hne H]. destruct s as [|c r]; [congruence|]. simpl in H.
  apply andb_prop in H as [H _]. eauto.
Qed.

Lemma digits_not_word q : digits q -> ~ (q = "a" \/ q = "an").
Proof.
  intros Hd. destruct (first_digit q Hd) as (c & r & -> & Hc).
  intros [H|H]; injection H as -> _; discriminate.
Qed.

Lemma int_digits_go_nonneg s acc :
  0 <= acc -> all_chars is_digit s = true -> 0 <= int_digits_go acc s.
Proof.
  revert acc. induction s as [|c s IH]; intros acc Hacc Hd; simpl in *; [assumption|].
  apply andb_prop in Hd as [Hc Hd]. apply IH; [|assumption].
  unfold is_digit, digit_value in *. apply andb_prop in Hc as [H1 H2].
  apply N.leb_le in H1. lia.
Qed.

(** A quantifier never stands for a negative number. *)
Lemma value_of_nonneg q : quantifier q -> 0 <= value_of q.
Proof.
  intros Hq. unfold value_of. case_decide; [lia|].
  destruct Hq as [-> | [-> | [_ Hd]]]; [tauto | tauto |].
  apply int_digits_go_nonneg; [lia | assumption].
Qed.

(** [int] reads a quantifier of up to 4300 characters and refuses a longer
    one. *)
Lemma quantity_short q :
  (String.length q <= max_str_digits)%nat -> quantity q = Ok (value_of q).
Proof.
  intros Hl. unfold quantity, value_of, int_of_digits.
  case_decide; [reflexivity|]. rewrite decide_True by assumption. reflexivity.
Qed.

Lemma quantity_long q :
  (max_str_digits < String.length q)%nat -> quantity q = Raise ValueError.
Proof.
  intros Hl. unfold quantity, int_of_digits.
  rewrite decide_False.
  2:{ unfold max_str_digits in Hl. intros [-> | ->]; simpl in Hl; lia. }
  rewrite decide_False by lia. reflexivity.
Qed.

Lemma re_match_relative_spec q ws w rest :
  quantifier q ->
  ws <> "" -> all_chars is_space ws = true ->
  w <> "" -> all_chars is_az w = true ->
  starts_outside is_az rest = true ->
  re_match_relative (q +:+ ws +:+ w +:+ rest) = Some (q, w).
Proof.
  intros Hq Hws Hsp Hw Haz Hrest.
  pose proof (match_unit_spec ws w rest Hws Hsp Hw Haz Hrest) as Hu.
  unfold re_match_relative, match_word.
  destruct Hq as [-> | [-> | Hd]].
  - rewrite (strip_prefix_app "a"), Hu. reflexivity.
  - change ("an" +:+ ws +:+ w +:+ rest) with ("a" +:+ "n" +:+ ws +:+ w +:+ rest).
    rewrite (strip_prefix_app "a"), match_unit_no_space by reflexivity.
    change ("a" +:+ "n" +:+ ws +:+ w +:+ rest) with ("an" +:+ ws +:+ w +:+ rest).
    rewrite (strip_prefix_app "an"), Hu. reflexivity.
  - destruct (first_digit _ Hd) as (c & r & E & Hc). destruct Hd as [Hne Hd].
    assert (Hnota : c <> "a"%char) by (intros ->; discriminate).
    assert (Ha : forall p X, strip_prefix (String "a" p) (q +:+ X) = None).
    { intros p X. rewrite E, append_cons. simpl. rewrite decide_False by congruence.
      reflexivity. }
    rewrite !Ha.
    unfold match_digits. rewrite span_app; [|assumption|].
    2:{ rewrite starts_outside_app by assumption.
        apply (starts_outside_all _ is_space); auto using space_not_digit. }
    rewrite Hu. destruct q; [congruence | reflexivity].
Qed.

Lemma span_all p s : all_chars p (fst (span p s)) = true.
Proof.
  induction s as [|c s IH]; simpl; [reflexivity|].
  destruct (p c) eqn:E; [|reflexivity].
  destruct (span p s) as [a b]. simpl in *. rewrite E, IH. reflexivity.
Qed.

Lemma strip_prefix_head c text r :
  strip_prefix (String c "") text = Some r -> text = String c r.
Proof.
  destruct text as [|c' text]; simpl; [discriminate|].
  destruct (decide (c = c')) as [->|]; [|discriminate].
  destruct text; intros [= <-]; reflexivity.
Qed.

(** Group 1 of a match is a quantifier. *)
Lemma re_match_quantifier text q unit :
  re_match_relative text = Some (q, unit) -> quantifier q.
Proof.
  unfold re_match_relative, match_word, match_digits, quantifier.
  intros Hm.
  destruct (strip_prefix "a" text) as [r1|] eqn:E1.
  { destruct (match_unit r1); [injection Hm as <- _; auto|].
    destruct (strip_prefix "an" text) as [r2|] eqn:E2.
    - destruct (match_unit r2); [injection Hm as <- _; auto|].
      apply strip_prefix_head in E1. subst text. simpl in Hm. discriminate.
    - apply strip_prefix_head in E1. subst text. simpl in Hm. discriminate. }
  destruct (strip_prefix "an" text) as [r2|] eqn:E2.
  { destruct text as [|c text]; [discriminate|]. simpl in E1, E2.
    destruct (decide ("a"%char = c)); discriminate. }
  pose proof (span_all is_digit text) as Hall.
  destruct (span is_digit text) as [ds rest]. simpl in Hall.
  destruct ds as [|c ds]; [discriminate|].
  destruct (match_unit rest); [|discriminate].
  injection Hm as <- _. right. right. split; [discriminate | assumption].
Qed.

End PatternFacts.

Section DurationFacts.
Local Open Scope Z_scope.

Lemma valid_ordinal t :
  valid t -> 1 <= toordinal t <= MAXORDINAL /\
             0 <= hour t * 3600 + minute t * 60 + second t < 86400.
Proof.
  intros (Hy & Hm & Hd & Hh & Hmi & Hs). unfold toordinal, MINYEAR in *. split; [split|lia].
  - apply ymd2ord_lower; lia.
  - apply ymd2ord_upper; lia.
Qed.

Lemma add_timedelta_date t dd ss y m d :
  valid t -> is_calendar_date y m d ->
  ymd2ord y m d * 86400 <= instant t + dd * 86400 + ss < (ymd2ord y m d + 1) * 86400 ->
  exists t', add_timedelta t (mk_timedelta dd ss) = Ok t' /\
             year t' = y /\ month t' = m /\ day t' = d.
Proof.
  intros Ht (Hy & Hm & Hd) Hi. unfold add_timedelta, instant, MINYEAR in *.
  cbn [td_days td_seconds]. cbv zeta.
  set (s := toordinal t * 86400 + hour t * 3600 + minute t * 60 + second t
            + dd * 86400 + ss) in *.
  assert (E : s / 86400 = ymd2ord y m d) by div_lia.
  rewrite E.
  pose proof (ymd2ord_lower y m d) as Hlo. pose proof (ymd2ord_upper y m d) as Hhi.
  assert (Hr : (0 <? ymd2ord y m d) && (ymd2ord y m d <=? MAXORDINAL) = true).
  { apply andb_true_intro. split; [apply Z.ltb_lt | apply Z.leb_le]; lia. }
  rewrite Hr, ord2ymd_ymd2ord by lia.
  eexists. split; [reflexivity|]. cbn [year month day]. auto.
Qed.

(** Subtracting a fixed duration of [S] seconds in all. *)
Lemma sub_fixed_date days hours minutes t y m d :
  let S := days * 86400 + hours * 3600 + minutes * 60 in
  0 <= S -> valid t -> is_calendar_date y m d ->
  ymd2ord y m d * 86400 <= instant t - S < (ymd2ord y m d + 1) * 86400 ->
  exists t', (td ← new_timedelta days hours minutes; sub_timedelta t td) = Ok t' /\
             year t' = y /\ month t' = m /\ day t' = d.
Proof.
  intros S HS Ht Hc Hi.
  destruct (valid_ordinal t Ht) as [Ho Hsec].
  pose proof Hc as (Hy & Hm & Hd). unfold MINYEAR in Hy.
  pose proof (ymd2ord_lower y m d) as Hlo.
  assert (HSmax : S <= (MAXORDINAL + 1) * 86400) by (unfold instant in Hi; lia).
  unfold MAXORDINAL in *.
  unfold new_timedelta. fold S.
  assert (Hr1 : (- MAX_DELTA_DAYS <=? S / 86400) && (S / 86400 <=? MAX_DELTA_DAYS) = true).
  { unfold MAX_DELTA_DAYS. apply andb_true_intro.
    split; apply Z.leb_le; div_lia. }
  rewrite Hr1. bind_ok. unfold sub_timedelta, neg_timedelta.
  cbn [td_days td_seconds].
  replace (S / 86400 * 86400 + S mod 86400) with S by div_lia.
  assert (Hr2 : (- MAX_DELTA_DAYS <=? - S / 86400) && (- S / 86400 <=? MAX_DELTA_DAYS) = true).
  { unfold MAX_DELTA_DAYS. apply andb_true_intro.
    split; apply Z.leb_le; div_lia. }
  rewrite Hr2. bind_ok.
  apply add_timedelta_date; try assumption.
  replace (instant t + - S / 86400 * 86400 + - S mod 86400) with (instant t - S) by div_lia.
  exact Hi.
Qed.

End DurationFacts.

Section OffsetFacts.
Local Open Scope Z_scope.

Lemma replace_ymd_ok t y m d :
  MINYEAR <= y <= MAXYEAR ->
  replace_ymd t y m d = Ok (mk_datetime y m d (hour t) (minute t) (second t)).
Proof.
  intros Hy. unfold replace_ymd.
  replace ((MINYEAR <=? y) && (y <=? MAXYEAR)) with true; [reflexivity|].
  symmetry. apply andb_true_intro. split; apply Z.leb_le; lia.
Qed.

(** The tail of [relativedelta.__radd__] once year and month are settled. *)
Lemma settle_date t y m d k y' m' d' :
  valid t -> is_calendar_date y m d -> is_calendar_date y' m' d' ->
  - MAXORDINAL <= k <= 0 ->
  ymd2ord y' m' d' = ymd2ord y m d + k ->
  exists t',
    (t1 ← replace_ymd t y m d; delta ← new_timedelta k 0 0; add_timedelta t1 delta) = Ok t' /\
    year t' = y' /\ month t' = m' /\ day t' = d'.
Proof.
  intros Ht Hc Hc' Hk E.
  pose proof Hc as (Hy & Hm & Hd).
  rewrite replace_ymd_ok by assumption. bind_ok.
  unfold new_timedelta.
  replace (k * 86400 + 0 * 3600 + 0 * 60) with (k * 86400) by lia.
  rewrite Z.div_mul, Z.mod_mul by lia.
  assert (Hr : (- MAX_DELTA_DAYS <=? k) && (k <=? MAX_DELTA_DAYS) = true).
  { unfold MAX_DELTA_DAYS, MAXORDINAL in *. apply andb_true_intro.
    split; apply Z.leb_le; lia. }
  rewrite Hr. bind_ok.
  apply add_timedelta_date; try assumption.
  - destruct Ht as (_ & _ & _ & Hh & Hmi & Hs).
    unfold valid. cbn [year month day hour minute second]. tauto.
  - destruct Ht as (_ & _ & _ & Hh & Hmi & Hs).
    unfold instant, toordinal. cbn [year month day hour minute second]. lia.
Qed.

Lemma clamp_day t y m :
  valid t -> MINYEAR <= y <= MAXYEAR -> 1 <= m <= 12 ->
  is_calendar_date y m (Z.min (days_in_month y m) (day t)).
Proof.
  intros (_ & _ & Hd & _) Hy Hm. repeat split; try lia.
  assert (28 <= days_in_month y m).
  { unfold days_in_month. destruct ((m =? 2) && is_leap y); [lia|]. month_cases m; simpl; lia. }
  lia.
Qed.

(** [relativedelta.__radd__] for the three relative offsets of the source,
    whatever [replace] and [+] the timestamp has: the fields [replace] is
    called with, and the days added afterwards. *)
Lemma years_shape replace add n t :
  add_relativedelta_via replace add t (neg_relativedelta (new_relativedelta n 0 0))
  = (t1 ← replace t (year t - n) (month t)
            (Z.min (days_in_month (year t - n) (month t)) (day t));
     delta ← new_timedelta 0 0 0; add t1 delta).
Proof.
  unfold add_relativedelta_via, new_relativedelta, neg_relativedelta.
  change (11 <? Z.abs 0) with false. cbv iota.
  cbn [rd_years rd_months rd_days].
  change (- 0 =? 0) with true. cbv iota beta.
  change (- (0 * 7)) with 0.
  replace (year t + - n) with (year t - n) by lia. reflexivity.
Qed.

Lemma months_shape replace add n t y m :
  0 <= n -> 1 <= month t <= 12 -> 1 <= m <= 12 ->
  12 * y + m = 12 * year t + month t - n ->
  add_relativedelta_via replace add t (neg_relativedelta (new_relativedelta 0 n 0))
  = (t1 ← replace t y m (Z.min (days_in_month y m) (day t));
     delta ← new_timedelta 0 0 0; add t1 delta).
Proof.
  intros Hn Htm Hm Eym.
  assert (E : new_relativedelta 0 n 0 = mk_relativedelta (n / 12) (n mod 12) 0).
  { unfold new_relativedelta, sign. rewrite Z.abs_eq by lia.
    destruct (Z.ltb_spec 11 n).
    - destruct (Z.ltb_spec n 0); [lia|]. f_equal; div_lia.
    - f_equal; div_lia. }
  rewrite E. unfold add_relativedelta_via, neg_relativedelta.
  cbn [rd_years rd_months rd_days]. change (- 0) with 0.
  assert (Hsel :
    (if - (n mod 12) =? 0 then (year t + - (n / 12), month t)
     else if 12 <? month t + - (n mod 12)
          then (year t + - (n / 12) + 1, month t + - (n mod 12) - 12)
          else if month t + - (n mod 12) <? 1
               then (year t + - (n / 12) - 1, month t + - (n mod 12) + 12)
               else (year t + - (n / 12), month t + - (n mod 12))) = (y, m)).
  { destruct (Z.eqb_spec (- (n mod 12)) 0).
    - f_equal; div_lia.
    - destruct (Z.ltb_spec 12 (month t + - (n mod 12))); [div_lia|].
      destruct (Z.ltb_spec (month t + - (n mod 12)) 1); f_equal; div_lia. }
  rewrite Hsel. reflexivity.
Qed.

Lemma weeks_shape replace add n t :
  1 <= day t <= days_in_month (year t) (month t) ->
  add_relativedelta_via replace add t (neg_relativedelta (new_relativedelta 0 0 n))
  = (t1 ← replace t (year t) (month t) (day t);
     delta ← new_timedelta (- (n * 7)) 0 0; add t1 delta).
Proof.
  intros Hd.
  unfold add_relativedelta_via, new_relativedelta, neg_relativedelta.
  change (11 <? Z.abs 0) with false. cbv iota.
  cbn [rd_years rd_months rd_days].
  change (- 0 =? 0) with true. cbv iota beta.
  change (- 0) with 0. rewrite Z.add_0_r.
  replace (Z.min (days_in_month (year t) (month t)) (day t)) with (day t) by lia.
  reflexivity.
Qed.

Lemma sub_years_date n t y m d :
  0 <= n -> valid t -> is_calendar_date y m d ->
  is_date_before Year n t y m d ->
  exists t', sub_relativedelta t (new_relativedelta n 0 0) = Ok t' /\
             year t' = y /\ month t' = m /\ day t' = d.
Proof.
  intros Hn Ht Hc (Ey & Em & Ed).
  unfold sub_relativedelta, add_relativedelta. rewrite years_shape.
  rewrite <- Ey, <- Em.
  replace (Z.min (days_in_month y m) (day t)) with d by lia.
  apply settle_date with (k := 0); try assumption.
  - unfold MAXORDINAL. lia.
  - lia.
Qed.

Lemma sub_months_date n t y m d :
  0 <= n -> valid t -> is_calendar_date y m d ->
  is_date_before Month n t y m d ->
  exists t', sub_relativedelta t (new_relativedelta 0 n 0) = Ok t' /\
             year t' = y /\ month t' = m /\ day t' = d.
Proof.
  intros Hn Ht Hc (Eym & Ed).
  pose proof Hc as (Hy & Hm & Hd).
  pose proof Ht as (Hty & Htm & _).
  unfold sub_relativedelta, add_relativedelta.
  rewrite (months_shape _ _ n t y m) by assumption.
  replace (Z.min (days_in_month y m) (day t)) with d by lia.
  apply settle_date with (k := 0); try assumption.
  - unfold MAXORDINAL. lia.
  - lia.
Qed.

Lemma sub_weeks_date n t y m d :
  0 <= n -> valid t -> is_calendar_date y m d ->
  is_date_before Week n t y m d ->
  exists t', sub_relativedelta t (new_relativedelta 0 0 n) = Ok t' /\
             year t' = y /\ month t' = m /\ day t' = d.
Proof.
  intros Hn Ht Hc E. unfold is_date_before in E.
  pose proof Hc as (Hy & Hm & Hd). unfold MINYEAR in Hy.
  destruct (valid_ordinal t Ht) as [Ho _].
  pose proof (ymd2ord_lower y m d) as Hlo.
  pose proof Ht as (Hty & Htm & Htd & _).
  unfold sub_relativedelta, add_relativedelta.
  rewrite weeks_shape by assumption.
  apply settle_date; try assumption.
  - repeat split; lia.
  - unfold MAXORDINAL in *. lia.
  - unfold toordinal in E. lia.
Qed.

(** Whatever the unit, the source's offset taken off a [datetime] lands on
    the date [n] units before it. *)
Lemma sub_delta_date u n t y m d :
  0 <= n -> valid t -> is_calendar_date y m d ->
  is_date_before u n t y m d ->
  exists t', (dl ← delta_of u n; datetime_sub_delta t dl) = Ok t' /\
             year t' = y /\ month t' = m /\ day t' = d.
Proof.
  intros Hn Ht Hc Hb. destruct u; unfold delta_of; try bind_ok.
  - apply sub_years_date; assumption.
  - apply sub_months_date; assumption.
  - apply sub_weeks_date; assumption.
  - destruct (sub_fixed_date n 0 0 t y m d) as (t' & E & F); try assumption; try lia.
    { simpl in Hb. unfold instant. destruct (valid_ordinal t Ht). lia. }
    exists t'. split; [|exact F].
    destruct (new_timedelta n 0 0); exact E.
  - destruct (sub_fixed_date 0 n 0 t y m d) as (t' & E & F); try assumption; try lia.
    { simpl in Hb. lia. }
    exists t'. split; [|exact F].
    destruct (new_timedelta 0 n 0); exact E.
  - destruct (sub_fixed_date 0 0 n t y m d) as (t' & E & F); try assumption; try lia.
    { simpl in Hb. lia. }
    exists t'. split; [|exact F].
    destruct (new_timedelta 0 0 n); exact E.
Qed.

End OffsetFacts.

Section RangeFacts.
Local Open Scope Z_scope.

Lemma ordinal_date o :
  1 <= o <= MAXORDINAL ->
  exists y m d, is_calendar_date y m d /\ ymd2ord y m d = o.
Proof.
  intros Ho. pose proof (ymd2ord_ord2ymd o) as H.
  destruct (ord2ymd o) as [[y m] d].
  destruct H as (Hy & Hm & Hd & E); [lia|].
  exists y, m, d. split; [|exact E].
  repeat split; try lia. unfold MINYEAR. lia.
  destruct (Z.le_gt_cases y MAXYEAR) as [|Hbig]; [assumption|exfalso].
  assert (days_before_year 10000 <= days_before_year y).
  { unfold MAXYEAR in Hbig. unfold days_before_year. div_lia. }
  assert (0 <= days_before_month y m).
  { unfold days_before_month. destruct ((2 <? m) && is_leap y); month_cases m; simpl; lia. }
  change (days_before_year 10000) with 3652059 in *.
  unfold ymd2ord, MAXORDINAL in *. lia.
Qed.

(** Within the range there is a date [n] units before [t]. *)
Lemma date_before_exists u n t :
  0 <= n -> valid t -> in_range u n t ->
  exists y m d, is_calendar_date y m d /\ is_date_before u n t y m d.
Proof.
  intros Hn Ht Hr.
  destruct (valid_ordinal t Ht) as [Ho Hs].
  pose proof Ht as (Hty & Htm & Htd & _).
  unfold MINYEAR, MAXYEAR in *.
  destruct u; unfold in_range, is_date_before, MINYEAR in *.
  - exists (year t - n), (month t), (Z.min (day t) (days_in_month (year t - n) (month t))).
    split; [|auto]. rewrite Z.min_comm. apply clamp_day; try assumption.
    unfold MINYEAR, MAXYEAR. lia.
  - set (k := 12 * year t + month t - n - 1).
    exists (k / 12), (k mod 12 + 1),
      (Z.min (day t) (days_in_month (k / 12) (k mod 12 + 1))).
    split.
    + rewrite Z.min_comm. apply clamp_day; try assumption;
        unfold MINYEAR, MAXYEAR; subst k; div_lia.
    + split; [subst k; div_lia | reflexivity].
  - destruct (ordinal_date (toordinal t - 7 * n)) as (y & m & d & Hc & E); [lia|]. eauto.
  - destruct (ordinal_date (toordinal t - n)) as (y & m & d & Hc & E); [lia|]. eauto.
  - destruct (ordinal_date ((instant t - 3600 * n) / 86400)) as (y & m & d & Hc & E).
    { unfold instant, MAXORDINAL in *. div_lia. }
    exists y, m, d. split; [assumption|]. rewrite E. div_lia.
  - destruct (ordinal_date ((instant t - 60 * n) / 86400)) as (y & m & d & Hc & E).
    { unfold instant, MAXORDINAL in *. div_lia. }
    exists y, m, d. split; [assumption|]. rewrite E. div_lia.
Qed.

End RangeFacts.

Section CalendarOrder.
Local Open Scope Z_scope.

(** ** The order of the calendar *)

Lemma dby_succ y :
  days_before_year (y + 1) = days_before_year y + 365 + (if is_leap y then 1 else 0).
Proof.
  unfold days_before_year, is_leap. cbv zeta.
  replace (y + 1 - 1) with y by lia.
  destruct (Z.eqb_spec (y mod 4) 0), (Z.eqb_spec (y mod 100) 0),
    (Z.eqb_spec (y mod 400) 0); cbn [andb orb negb]; div_lia.
Qed.

Lemma dby_mono y1 y2 : y1 <= y2 -> days_before_year y1 <= days_before_year y2.
Proof. intros H. unfold days_before_year. div_lia. Qed.

(** The months of one year follow one another. *)
Lemma month_follows y m1 m2 :
  1 <= m1 -> m1 < m2 -> m2 <= 12 ->
  days_before_month y m1 + days_in_month y m1 <= days_before_month y m2.
Proof.
  intros H1 H12 H2. unfold days_before_month, days_in_month.
  destruct (is_leap y); month_cases m1; month_cases m2; (lia || (simpl; lia)).
Qed.

Lemma year_length y m d :
  1 <= m <= 12 -> d <= days_in_month y m ->
  days_before_month y m + d <= 365 + (if is_leap y then 1 else 0).
Proof.
  intros Hm Hd. unfold days_before_month, days_in_month in *.
  destruct (is_leap y); month_cases m; simpl in *; lia.
Qed.

Lemma dbm_nonneg y m : 1 <= m <= 12 -> 0 <= days_before_month y m.
Proof.
  intros Hm. unfold days_before_month.
  destruct ((2 <? m) && is_leap y); month_cases m; simpl; lia.
Qed.

(** The ordinal grows with the month count and, within a month, with the
    day. *)
Lemma ymd2ord_mono y1 m1 d1 y2 m2 d2 :
  1 <= m1 <= 12 -> 1 <= m2 <= 12 ->
  12 * y1 + m1 <= 12 * y2 + m2 ->
  d1 <= days_in_month y1 m1 -> 1 <= d2 ->
  (12 * y1 + m1 = 12 * y2 + m2 -> d1 <= d2) ->
  ymd2ord y1 m1 d1 <= ymd2ord y2 m2 d2.
Proof.
  intros Hm1 Hm2 Hle Hd1 Hd2 Hsame. unfold ymd2ord.
  destruct (Z.lt_trichotomy y1 y2) as [Hy | [-> | Hy]]; [| |lia].
  - pose proof (year_length y1 m1 d1 Hm1 Hd1) as Hlen.
    pose proof (dby_succ y1) as Hs.
    pose proof (dby_mono (y1 + 1) y2 ltac:(lia)) as Hmono.
    pose proof (dbm_nonneg y2 m2 Hm2). lia.
  - destruct (Z.lt_trichotomy m1 m2) as [Hm | [-> | Hm]]; [| |lia].
    + pose proof (month_follows y2 m1 m2 ltac:(lia) Hm ltac:(lia)). lia.
    + specialize (Hsame eq_refl). lia.
Qed.

(** The date [n] units before [t] is not after the date of [t]. *)
Lemma date_before_not_after u n t y m d :
  0 <= n -> valid t -> is_calendar_date y m d -> is_date_before u n t y m d ->
  ymd2ord y m d <= toordinal t.
Proof.
  intros Hn Ht (Hy & Hm & Hd) Hb.
  destruct (valid_ordinal t Ht) as [Ho Hs].
  pose proof Ht as (Hty & Htm & Htd & _).
  destruct u; unfold is_date_before, instant in Hb; try lia.
  - destruct Hb as (Ey & Em & Ed). unfold toordinal.
    apply ymd2ord_mono; try lia.
  - destruct Hb as (Eym & Ed). unfold toordinal.
    apply ymd2ord_mono; try lia.
Qed.

(** Of two quantities of one unit, the larger leads to the earlier date, or
    to the same one. *)
Lemma date_before_mono u n1 n2 t y1 m1 d1 y2 m2 d2 :
  0 <= n1 <= n2 -> valid t ->
  is_calendar_date y1 m1 d1 -> is_date_before u n1 t y1 m1 d1 ->
  is_calendar_date y2 m2 d2 -> is_date_before u n2 t y2 m2 d2 ->
  ymd2ord y2 m2 d2 <= ymd2ord y1 m1 d1.
Proof.
  intros Hn Ht (Hy1 & Hm1 & Hd1) Hb1 (Hy2 & Hm2 & Hd2) Hb2.
  destruct u; unfold is_date_before, instant in Hb1, Hb2; try lia.
  - destruct Hb1 as (Ey1 & Em1 & Ed1), Hb2 as (Ey2 & Em2 & Ed2).
    apply ymd2ord_mono; try lia.
    intros E. assert (y1 = y2) as -> by lia. assert (m1 = m2) as -> by lia. lia.
  - destruct Hb1 as (Ey1 & Ed1), Hb2 as (Ey2 & Ed2).
    apply ymd2ord_mono; try lia.
    intros E. assert (y1 = y2) as -> by lia. assert (m1 = m2) as -> by lia. lia.
Qed.

(** A fixed duration that could be taken off stayed within the calendar. *)
Lemma sub_fixed_ok days hours minutes t t' :
  (td ← new_timedelta days hours minutes; sub_timedelta t td) = Ok t' ->
  86400 <= instant t - (days * 86400 + hours * 3600 + minutes * 60).
Proof.
  unfold new_timedelta. cbv zeta.
  set (S := days * 86400 + hours * 3600 + minutes * 60).
  destruct ((- MAX_DELTA_DAYS <=? S / 86400) && (S / 86400 <=? MAX_DELTA_DAYS));
    [|discriminate].
  bind_ok. unfold sub_timedelta, neg_timedelta. cbn [td_days td_seconds]. cbv zeta.
  replace (S / 86400 * 86400 + S mod 86400) with S by div_lia.
  destruct ((- MAX_DELTA_DAYS <=? - S / 86400) && (- S / 86400 <=? MAX_DELTA_DAYS));
    [|discriminate].
  bind_ok. unfold add_timedelta. cbn [td_days td_seconds]. cbv zeta.
  fold (instant t).
  replace (toordinal t * 86400 + hour t * 3600 + minute t * 60 + second t)
    with (instant t) by reflexivity.
  replace (instant t + - S / 86400 * 86400 + - S mod 86400) with (instant t - S) by div_lia.
  destruct (Z.ltb_spec 0 ((instant t - S) / 86400)) as [Hpos|]; [|discriminate].
  intros _. div_lia.
Qed.

(** The tail of [relativedelta.__radd__], read backwards. *)
Lemma settle_ok t y m d k t' :
  0 <= hour t * 3600 + minute t * 60 + second t < 86400 ->
  (t1 ← replace_ymd t y m d; delta ← new_timedelta k 0 0; add_timedelta t1 delta) = Ok t' ->
  MINYEAR <= y /\ 1 <= ymd2ord y m d + k.
Proof.
  intros Hs. unfold replace_ymd.
  destruct (Z.leb_spec MINYEAR y) as [Hy|]; [|discriminate].
  destruct (y <=? MAXYEAR); [|discriminate]. cbn [andb]. bind_ok.
  unfold new_timedelta. cbv zeta.
  replace (k * 86400 + 0 * 3600 + 0 * 60) with (k * 86400) by lia.
  rewrite Z.div_mul, Z.mod_mul by lia.
  destruct ((- MAX_DELTA_DAYS <=? k) && (k <=? MAX_DELTA_DAYS)); [|discriminate].
  bind_ok. unfold add_timedelta, toordinal.
  cbn [td_days td_seconds year month day hour minute second]. cbv zeta.
  set (s := ymd2ord y m d * 86400 + hour t * 3600 + minute t * 60 + second t
            + k * 86400 + 0).
  destruct (Z.ltb_spec 0 (s / 86400)) as [Hpos|]; [|discriminate].
  intros _. split; [assumption|]. subst s. div_lia.
Qed.

(** An offset that could be taken off stayed within the calendar. *)
Lemma sub_delta_in_range u n t t' :
  0 <= n -> valid t ->
  (dl ← delta_of u n; datetime_sub_delta t dl) = Ok t' -> in_range u n t.
Proof.
  intros Hn Ht.
  destruct (valid_ordinal t Ht) as [Ho Hs].
  pose proof Ht as (Hty & Htm & Htd & _).
  destruct u; unfold delta_of, in_range; try bind_ok;
    unfold datetime_sub_delta, sub_relativedelta, add_relativedelta.
  - rewrite years_shape.
    intros E. apply settle_ok in E; [|assumption]. lia.
  - set (k := 12 * year t + month t - n - 1).
    rewrite (months_shape _ _ n t (k / 12) (k mod 12 + 1)) by (subst k; div_lia).
    intros F. apply settle_ok in F; [|assumption]. unfold MINYEAR in *.
    subst k. div_lia.
  - rewrite weeks_shape by assumption.
    intros E. apply settle_ok in E; [|assumption]. unfold toordinal. lia.
  - intros E.
    assert (F : (td ← new_timedelta n 0 0; sub_timedelta t td) = Ok t').
    { destruct (new_timedelta n 0 0); exact E. }
    apply sub_fixed_ok in F. unfold instant in F. lia.
  - intros E.
    assert (F : (td ← new_timedelta 0 n 0; sub_timedelta t td) = Ok t').
    { destruct (new_timedelta 0 n 0); exact E. }
    apply sub_fixed_ok in F. lia.
  - intros E.
    assert (F : (td ← new_timedelta 0 0 n; sub_timedelta t td) = Ok t').
    { destruct (new_timedelta 0 0 n); exact E. }
    apply sub_fixed_ok in F. lia.
Qed.

(** The timestamp an offset leads to carries the date [n] units back. *)
Lemma sub_delta_back u n t t' :
  0 <= n -> valid t ->
  (dl ← delta_of u n; datetime_sub_delta t dl) = Ok t' ->
  is_calendar_date (year t') (month t') (day t') /\
  is_date_before u n t (year t') (month t') (day t').
Proof.
  intros Hn Ht E.
  pose proof (sub_delta_in_range u n t t' Hn Ht E) as Hr.
  destruct (date_before_exists u n t Hn Ht Hr) as (y & m & d & Hc & Hb).
  destruct (sub_delta_date u n t y m d Hn Ht Hc Hb) as (t1 & E1 & <- & <- & <-).
  rewrite E in E1. injection E1 as ->. auto.
Qed.

End CalendarOrder.

Section TimestampWindow.
Local Open Scope Z_scope.

(** ** [pandas.Timestamp] within its window *)

Section TimestampFacts.
Context {pd : PandasRuntime}.

Lemma strftime_iso t :
  1000 <= year t -> strftime_ymd t = iso_date (year t) (month t) (day t).
Proof.
  intros Hy. unfold strftime_ymd, iso_date.
  destruct (Z.leb_spec 1000 (year t)); [reflexivity | lia].
Qed.

(** What a [Timestamp] returns, its base class returns too. *)
Lemma Timestamp_sub_ok t td t' :
  Timestamp_sub t td = Ok t' -> sub_timedelta t td = Ok t'.
Proof.
  unfold Timestamp_sub, sub_timedelta.
  destruct (neg_timedelta td) as [nd|]; [|discriminate]. bind_ok.
  unfold Timestamp_add. destruct (add_raises t nd); [discriminate | auto].
Qed.

Lemma Timestamp_sub_relativedelta_ok t rd t' :
  Timestamp_sub_relativedelta t rd = Ok t' -> sub_relativedelta t rd = Ok t'.
Proof.
  unfold Timestamp_sub_relativedelta, sub_relativedelta, add_relativedelta,
    add_relativedelta_via.
  destruct (if rd_months (neg_relativedelta rd) =? 0 then _ else _) as [y m].
  unfold Timestamp_replace at 1.
  destruct (replace_raises t y m _); [discriminate|].
  destruct (replace_ymd t y m _) as [t1|]; [|discriminate]. bind_ok.
  destruct (new_timedelta _ 0 0) as [delta|]; [|discriminate]. bind_ok.
  unfold Timestamp_add. destruct (add_raises t1 delta); [discriminate | auto].
Qed.

Lemma sub_delta_ok t dl t' :
  sub_delta t dl = Ok t' -> datetime_sub_delta t dl = Ok t'.
Proof.
  destruct dl; [apply Timestamp_sub_relativedelta_ok | apply Timestamp_sub_ok].
Qed.

Lemma offset_ok dr t t' :
  (dl ← dr; sub_delta t dl) = Ok t' -> (dl ← dr; datetime_sub_delta t dl) = Ok t'.
Proof. destruct dr as [dl|]; [apply sub_delta_ok | discriminate]. Qed.

(** A date whose ordinal is not larger lies in a year that is not later. *)
Lemma year_of_ordinal_le y1 m1 d1 y2 m2 d2 :
  1 <= m1 <= 12 -> 1 <= d1 ->
  1 <= m2 <= 12 -> d2 <= days_in_month y2 m2 ->
  ymd2ord y1 m1 d1 <= ymd2ord y2 m2 d2 -> y1 <= y2.
Proof.
  intros Hm1 Hd1 Hm2 Hd2 Hle.
  destruct (Z.le_gt_cases y1 y2) as [|Hgt]; [assumption|exfalso].
  pose proof (year_length y2 m2 d2 Hm2 Hd2) as Hlen.
  pose proof (dby_succ y2) as Hs.
  pose proof (dby_mono (y2 + 1) y1 ltac:(lia)) as Hmono.
  pose proof (dbm_nonneg y1 m1 Hm1).
  unfold ymd2ord in Hle. lia.
Qed.

(** Within the window the tail of [relativedelta.__radd__] goes through on
    a [Timestamp] as on its base class. *)
Lemma settle_agree t y m d k t' :
  valid t -> in_window t -> is_calendar_date y m d -> 1678 <= y <= 2261 ->
  - 106751 <= k <= 0 -> in_window t' ->
  (t1 ← replace_ymd t y m d; delta ← new_timedelta k 0 0; add_timedelta t1 delta) = Ok t' ->
  (t1 ← Timestamp_replace t y m d; delta ← new_timedelta k 0 0; Timestamp_add t1 delta)
  = Ok t'.
Proof.
  intros Ht Hw (Hy & Hm & Hd) Hyw Hk Hw'.
  unfold Timestamp_replace. rewrite replace_in_window by assumption.
  rewrite replace_ymd_ok by assumption. bind_ok.
  unfold new_timedelta.
  replace (k * 86400 + 0 * 3600 + 0 * 60) with (k * 86400) by lia.
  rewrite Z.div_mul, Z.mod_mul by lia.
  destruct ((- MAX_DELTA_DAYS <=? k) && (k <=? MAX_DELTA_DAYS)); [|discriminate].
  bind_ok. intros E. unfold Timestamp_add.
  rewrite (add_in_window _ _ t'); try assumption.
  - destruct Ht as (_ & _ & _ & Hh & Hmi & Hs).
    unfold valid. cbn [year month day hour minute second]. tauto.
  - unfold in_reach. cbn [td_days]. lia.
Qed.

(** Within the window and the reach a fixed duration is taken off a
    [Timestamp] as off its base class. *)
Lemma fixed_agree days hours minutes t t' :
  0 <= days * 86400 + hours * 3600 + minutes * 60 <= 106751 * 86400 ->
  valid t -> in_window t -> in_window t' ->
  (td ← new_timedelta days hours minutes; sub_timedelta t td) = Ok t' ->
  (td ← new_timedelta days hours minutes; Timestamp_sub t td) = Ok t'.
Proof.
  intros HS Ht Hw Hw'. unfold new_timedelta. cbv zeta.
  set (S := days * 86400 + hours * 3600 + minutes * 60) in *.
  destruct ((- MAX_DELTA_DAYS <=? S / 86400) && (S / 86400 <=? MAX_DELTA_DAYS));
    [|discriminate].
  bind_ok. unfold sub_timedelta, Timestamp_sub, neg_timedelta.
  cbn [td_days td_seconds]. cbv zeta.
  replace (S / 86400 * 86400 + S mod 86400) with S by div_lia.
  destruct ((- MAX_DELTA_DAYS <=? - S / 86400) && (- S / 86400 <=? MAX_DELTA_DAYS));
    [|discriminate].
  bind_ok. intros E. unfold Timestamp_add.
  rewrite (add_in_window _ _ t'); try assumption.
  unfold in_reach. cbn [td_days]. div_lia.
Qed.

(** Whatever the unit, within the window and the reach the source's offset
    taken off the [Timestamp] lands on the date [n] units before it. *)
Lemma sub_delta_lands u n t y m d :
  0 <= n -> valid t -> in_window t -> within_reach u n ->
  is_calendar_date y m d -> 1678 <= y ->
  is_date_before u n t y m d ->
  exists t', (dl ← delta_of u n; sub_delta t dl) = Ok t' /\
             year t' = y /\ month t' = m /\ day t' = d.
Proof.
  intros Hn Ht Hw Hreach Hc Hy Hb.
  destruct (sub_delta_date u n t y m d Hn Ht Hc Hb) as (t' & E & Ey & Em & Ed).
  exists t'. split; [|auto].
  pose proof Hc as (Hcy & Hcm & Hcd).
  pose proof Ht as (Hty & Htm & Htd & _).
  assert (Hle : y <= year t).
  { apply (year_of_ordinal_le y m d (year t) (month t) (day t)); try lia.
    apply (date_before_not_after u n); assumption. }
  assert (Hw' : in_window t') by (unfold in_window in *; lia).
  destruct u; unfold delta_of, within_reach in *; try bind_ok;
    unfold sub_delta, datetime_sub_delta, sub_relativedelta, add_relativedelta,
      Timestamp_sub_relativedelta in *.
  - destruct Hb as (Hby & Hbm & Hbd).
    unfold mbind at 1, result_bind at 1 in E. cbv beta iota in E.
    rewrite years_shape in E. rewrite years_shape. rewrite <- Hby, <- Hbm in *.
    replace (Z.min (days_in_month y m) (day t)) with d in * by lia.
    apply settle_agree; try assumption; unfold in_window in *; lia.
  - destruct Hb as (Hbym & Hbd).
    unfold mbind at 1, result_bind at 1 in E. cbv beta iota in E.
    rewrite (months_shape _ _ n t y m) in E by assumption.
    rewrite (months_shape _ _ n t y m) by assumption.
    replace (Z.min (days_in_month y m) (day t)) with d in * by lia.
    apply settle_agree; try assumption; unfold in_window in *; lia.
  - unfold mbind at 1, result_bind at 1 in E. cbv beta iota in E.
    rewrite weeks_shape in E by assumption. rewrite weeks_shape by assumption.
    apply settle_agree; try assumption; [repeat split; lia | lia].
  - assert (F : (td ← new_timedelta n 0 0; sub_timedelta t td) = Ok t')
      by (destruct (new_timedelta n 0 0); exact E).
    apply (fixed_agree n 0 0) in F; try assumption; [|lia].
    destruct (new_timedelta n 0 0); exact F.
  - assert (F : (td ← new_timedelta 0 n 0; sub_timedelta t td) = Ok t')
      by (destruct (new_timedelta 0 n 0); exact E).
    apply (fixed_agree 0 n 0) in F; try assumption; [|lia].
    destruct (new_timedelta 0 n 0); exact F.
  - assert (F : (td ← new_timedelta 0 0 n; sub_timedelta t td) = Ok t')
      by (destruct (new_timedelta 0 0 n); exact E).
    apply (fixed_agree 0 0 n) in F; try assumption; [|lia].
    destruct (new_timedelta 0 0 n); exact F.
Qed.

(** Within the window and the reach the normaliser's last step writes the
    date [n] units back. *)
Lemma returns_date_before u n base y m d :
  0 <= n -> valid base -> in_window base -> within_reach u n ->
  is_calendar_date y m d -> 1678 <= y ->
  is_date_before u n base y m d ->
  (dl ← delta_of u n; t ← sub_delta base dl; Ok (strftime_ymd t)) = Ok (iso_date y m d).
Proof.
  intros Hn Hbase Hw Hreach Hc Hy Hb.
  destruct (sub_delta_lands u n base y m d) as (t' & E & Ey & Em & Ed); try assumption.
  destruct (delta_of u n) as [dl|e]; [|discriminate E].
  unfold mbind, result_bind in *. rewrite E.
  rewrite strftime_iso, Ey, Em, Ed by lia. reflexivity.
Qed.

(** Before 0001-01-01 there is nothing to return. *)
Lemma raises_out_of_range u n base :
  0 <= n -> valid base -> ~ in_range u n base ->
  exists e, (dl ← delta_of u n; t ← sub_delta base dl; Ok (strftime_ymd t)) = Raise e.
Proof.
  intros Hn Hbase Hout.
  destruct (dl ← delta_of u n; sub_delta base dl) as [t'|e] eqn:E.
  - exfalso. apply Hout. apply offset_ok in E.
    apply (sub_delta_in_range u n base t'); assumption.
  - exists e. destruct (delta_of u n) as [dl|];
      unfold mbind, result_bind in *; [rewrite E; reflexivity | congruence].
Qed.

End TimestampFacts.

End TimestampWindow.

Section QuantityTheorem.
Local Open Scope Z_scope.

Section QuantityFacts.
Context {pd : PandasRuntime}.

Lemma quantifier_head q X :
  quantifier q ->
  exists c r, q +:+ X = String c r /\ (c = "a"%char \/ is_digit c = true).
Proof.
  intros [-> | [-> | Hd]].
  - exists "a"%char, X. auto.
  - exists "a"%char, ("n" +:+ X). auto.
  - destruct (first_digit _ Hd) as (c & r & E & Hc).
    exists c, (r +:+ X). rewrite E. auto.
Qed.

Lemma literal_no_match text :
  text = "today" \/ text = "now" \/ text = "yesterday" -> re_match_relative text = None.
Proof. intros [-> | [-> | ->]]; reflexivity. Qed.

(** The quantified branch, once the pattern has matched. *)
Lemma parse_relative_date_matched r base q unit :
  r <> "" ->
  re_match_relative (strip (lower r)) = Some (q, unit) ->
  parse_relative_date (Some r) base =
    match quantity q with
    | Raise e => (Raise e, [])
    | Ok n =>
        match classify unit with
        | None => (Ok (strftime_ymd base), [Unhandled_time_unit r])
        | Some u => (dl ← delta_of u n; t ← sub_delta base dl; Ok (strftime_ymd t), [])
        end
    end.
Proof.
  intros Hr Hm. destruct r as [|c0 r0]; [congruence|].
  unfold parse_relative_date.
  set (text := strip (lower (String c0 r0))) in *.
  rewrite decide_False.
  2:{ intros [H|H]; rewrite literal_no_match in Hm by auto; discriminate. }
  rewrite decide_False.
  2:{ intros H; rewrite literal_no_match in Hm by auto; discriminate. }
  rewrite Hm. destruct (quantity q) as [n|e]; [|reflexivity].
  rewrite pick_delta_classify.
  destruct (classify unit); reflexivity.
Qed.

(** A phrase made of a quantifier, whitespace and a unit word leads to the
    date that many units back, within the window and the reach. *)
Lemma parse_quantity base relative q ws u plural rest y m d :
  valid base -> in_window base ->
  relative <> "" ->
  strip (lower relative) = q +:+ ws +:+ unit_word u +:+ plural +:+ rest ->
  quantifier q -> (String.length q <= max_str_digits)%nat ->
  ws <> "" -> all_chars is_space ws = true ->
  plural = "" \/ plural = "s" ->
  starts_outside is_az rest = true ->
  within_reach u (value_of q) ->
  is_calendar_date y m d -> 1678 <= y ->
  is_date_before u (value_of q) base y m d ->
  parse_relative_date (Some relative) base = (Ok (iso_date y m d), []).
Proof.
  intros Hbase Hw Hrel Htext Hq Hlen Hws Hsp Hpl Hrest Hreach Hcal Hy Hbefore.
  destruct (unit_word_letters u plural Hpl) as [Haz Hne].
  rewrite (parse_relative_date_matched relative base q (unit_word u +:+ plural) Hrel).
  2:{ rewrite Htext.
      replace (q +:+ ws +:+ unit_word u +:+ plural +:+ rest)
        with (q +:+ ws +:+ (unit_word u +:+ plural) +:+ rest)
        by (rewrite (append_assoc (unit_word u)); reflexivity).
      apply re_match_relative_spec; assumption. }
  rewrite (quantity_short q Hlen), classify_unit_word by assumption.
  f_equal. apply returns_date_before; try assumption.
  apply value_of_nonneg, Hq.
Qed.


End QuantityFacts.

(** Against C1 as stated, whatever the runtime. A quantity written with
    4301 characters is refused by [int], although it stands for 1 and the
    day before the reference date is returned for its plain numeral; and a
    quantity of days beyond what a [timedelta] holds is refused by
    [timedelta]. Nothing catches either exception. *)
Lemma quantity_raises :
  let base := mk_datetime 2025 6 15 0 0 0 in
  valid base /\ in_window base /\
  value_of (zeros 4300 +:+ "1") = 1 /\
  forall pd : PandasRuntime,
    parse_relative_date (Some (zeros 4300 +:+ "1 day ago")) base = (Raise ValueError, []) /\
    parse_relative_date (Some "1 day ago") base = (Ok "2025-06-14", []) /\
    parse_relative_date (Some "9999999999 days ago") base = (Raise OverflowError, []).
Proof.
  cbv zeta.
  split; [vm_compute; intuition discriminate|].
  split; [vm_compute; intuition discriminate|].
  split; [vm_compute; reflexivity|].
  intros pd. split; [|split].
  - rewrite (parse_relative_date_matched _ _ (zeros 4300 +:+ "1") "day");
      [|discriminate | vm_compute; reflexivity].
    rewrite quantity_long; [reflexivity | vm_compute; lia].
  - apply (parse_quantity (mk_datetime 2025 6 15 0 0 0) "1 day ago" "1" " " Day
             "" " ago" 2025 6 14);
      try reflexivity; try discriminate; try (vm_compute; intuition (discriminate || lia)).
  - rewrite (parse_relative_date_matched _ _ "9999999999" "days");
      [|discriminate | vm_compute; reflexivity].
    reflexivity.
Qed.

End QuantityTheorem.

Section TotalityTheorem.
Local Open Scope Z_scope.

Section TotalityFacts.
Context {pd : PandasRuntime}.

(** The date [n] units back is written when it lies within the window and
    the reach, and an exception leaves the function when it lies before
    0001-01-01. *)
Lemma shifted_date u n base :
  0 <= n -> valid base ->
  (in_range u n base ->
     exists y m d, is_calendar_date y m d /\ is_date_before u n base y m d /\
       (in_window base -> 1678 <= y -> within_reach u n ->
        (dl ← delta_of u n; t ← sub_delta base dl; Ok (strftime_ymd t))
        = Ok (iso_date y m d)))
  /\
  (~ in_range u n base ->
     exists e, (dl ← delta_of u n; t ← sub_delta base dl; Ok (strftime_ymd t)) = Raise e).
Proof.
  intros Hn Hbase. split.
  - intros Hr.
    destruct (date_before_exists u n base Hn Hbase Hr) as (y & m & d & Hc & Hb).
    exists y, m, d. split; [assumption|]. split; [assumption|].
    intros Hw Hy Hreach. apply returns_date_before; assumption.
  - apply raises_out_of_range; assumption.
Qed.

(** There is one date [n] units before [t]. *)
Lemma date_before_unique u n t y m d y' m' d' :
  0 <= n -> valid t ->
  is_calendar_date y m d -> is_date_before u n t y m d ->
  is_calendar_date y' m' d' -> is_date_before u n t y' m' d' ->
  (y, m, d) = (y', m', d').
Proof.
  intros Hn Ht Hc Hb Hc' Hb'.
  destruct (sub_delta_date u n t y m d Hn Ht Hc Hb) as (t1 & E1 & <- & <- & <-).
  destruct (sub_delta_date u n t y' m' d' Hn Ht Hc' Hb') as (t2 & E2 & <- & <- & <-).
  rewrite E1 in E2. injection E2 as ->. reflexivity.
Qed.

Lemma parse_yesterday r base :
  r <> "" -> strip (lower r) = "yesterday" ->
  parse_relative_date (Some r) base
  = (dl ← delta_of Day 1; t ← sub_delta base dl; Ok (strftime_ymd t), []).
Proof.
  intros Hr H. destruct r as [|c0 r0]; [congruence|].
  unfold parse_relative_date. rewrite H.
  rewrite decide_False by (intros [F|F]; discriminate F).
  rewrite decide_True by reflexivity.
  unfold delta_of. destruct (new_timedelta 1 0 0); reflexivity.
Qed.


End TotalityFacts.


End TotalityTheorem.

Section ReturnedDates.
Local Open Scope Z_scope.

(** ** What the normaliser returns, whatever the phrase *)

Section ReturnedFacts.
Context {pd : PandasRuntime}.

Lemma reference_date_from base : valid base -> date_from base (strftime_ymd base).
Proof.
  intros (Hy & Hm & Hd & _). exists base.
  split; [|split; [reflexivity | left; reflexivity]].
  repeat split; lia.
Qed.

Lemma shifted_date_from u n base s :
  valid base -> 0 <= n ->
  (dl ← delta_of u n; t ← sub_delta base dl; Ok (strftime_ymd t)) = Ok s ->
  date_from base s.
Proof.
  intros Hbase Hn E.
  destruct (dl ← delta_of u n; sub_delta base dl) as [t'|e] eqn:F.
  - pose proof (offset_ok _ _ _ F) as F'.
    destruct (sub_delta_back u n base t' Hn Hbase F') as [Hc Hb].
    exists t'. split; [exact Hc|]. split; [|right; eauto].
    destruct (delta_of u n) as [dl|]; [|discriminate F].
    unfold mbind, result_bind in F, E. rewrite F in E. injection E as <-.
    reflexivity.
  - exfalso. destruct (delta_of u n) as [dl|]; [|discriminate E].
    unfold mbind, result_bind in F, E. rewrite F in E. discriminate E.
Qed.

Lemma parse_returns relative base s lg :
  valid base ->
  parse_relative_date relative base = (Ok s, lg) ->
  date_from base s.
Proof.
  intros Hbase.
  assert (Hself : forall lg', (Ok (strftime_ymd base), lg') = (Ok s, lg) -> date_from base s).
  { intros lg' E. injection E as <- _. apply reference_date_from, Hbase. }
  destruct relative as [r|]; [|apply Hself].
  destruct r as [|c0 r0]; [apply Hself|].
  destruct (decide (strip (lower (String c0 r0)) = "yesterday")) as [Hyes|Hyes].
  { rewrite parse_yesterday by (discriminate || assumption).
    pose proof (shifted_date_from Day 1 base s Hbase ltac:(lia)) as Hday.
    revert Hday.
    generalize (dl ← delta_of Day 1; t ← sub_delta base dl; Ok (strftime_ymd t)).
    intros r Hday E. apply Hday. congruence. }
  unfold parse_relative_date.
  set (text := strip (lower (String c0 r0))) in *.
  destruct (decide (text = "today" ∨ text = "now")) as [Hlit|Hlit]; [apply Hself|].
  rewrite decide_False by exact Hyes.
  destruct (re_match_relative text) as [[q unit]|] eqn:Hm; [|apply Hself].
  pose proof (value_of_nonneg q (re_match_quantifier text q unit Hm)) as Hn.
  destruct (decide (String.length q <= max_str_digits)%nat) as [Hl|Hl].
  2:{ rewrite quantity_long by lia. discriminate. }
  rewrite (quantity_short q Hl).
  rewrite pick_delta_classify.
  destruct (classify unit) as [u|]; [|apply Hself].
  cbn [fmap option_fmap option_map]. intros E. injection E as E _.
  apply (shifted_date_from u (value_of q) base s Hbase Hn). exact E.
Qed.

(** [zfill] on a number that fits: the width is exact, the characters are
    digits and they spell the number. *)
Lemma zeros_spec k s :
  String.length (zeros k +:+ s) = (k + String.length s)%nat /\
  int_digits_go 0 (zeros k +:+ s) = int_digits_go 0 s.
Proof.
  induction k as [|k [IH1 IH2]]; [split; reflexivity|].
  change (zeros (S k) +:+ s) with (String "0" (zeros k +:+ s)).
  split; [simpl; rewrite IH1; reflexivity|exact IH2].
Qed.

Lemma zfill_spec (w : nat) n :
  (0 < w)%nat -> 0 <= n < 10 ^ Z.of_nat w ->
  String.length (zfill w n) = w /\ all_chars is_digit (zfill w n) = true /\
  int_digits_go 0 (zfill w n) = n.
Proof.
  intros Hw Hn. unfold zfill. cbv zeta.
  destruct (numeral_spec n) as (_ & Hd & Hv & Hl); [lia|].
  specialize (Hl w Hw ltac:(lia)).
  destruct (zeros_spec (w - String.length (pretty n)) (pretty n)) as [E1 E2].
  split; [rewrite E1; lia|]. split.
  - rewrite all_chars_app, (proj1 (zeros_digits _)), Hd. reflexivity.
  - rewrite E2. exact Hv.
Qed.

(** ** X1: the returned date is a calendar date not after the reference date *)


(** ** X2: the form of the returned string *)


(** ** X3: a larger quantity never gives a later date *)

(** X3. For one unit word and one valid reference timestamp, of two
    quantities that both lead to a date, the larger one leads to the
    earlier date, or to the same date. *)
Theorem larger_quantity_earlier_date unit n1 n2 base d1 d2 t1 t2 :
  valid base -> 0 <= n1 <= n2 ->
  pick_delta unit n1 = Some d1 -> pick_delta unit n2 = Some d2 ->
  (d ← d1; sub_delta base d) = Ok t1 ->
  (d ← d2; sub_delta base d) = Ok t2 ->
  toordinal t2 <= toordinal t1.
Proof.
  intros Hbase Hn H1 H2 E1 E2.
  rewrite pick_delta_classify in H1, H2.
  destruct (classify unit) as [u|]; [|discriminate].
  cbn [fmap option_fmap option_map] in H1, H2.
  injection H1 as <-. injection H2 as <-.
  apply offset_ok in E1, E2.
  destruct (sub_delta_back u n1 base t1 ltac:(lia) Hbase E1) as [Hc1 Hb1].
  destruct (sub_delta_back u n2 base t2 ltac:(lia) Hbase E2) as [Hc2 Hb2].
  unfold toordinal.
  apply (date_before_mono u n1 n2 base); assumption.
Qed.

(** ** Units that convert into one another *)

Lemma months_as_years n : 0 <= n -> new_relativedelta 0 (12 * n) 0 = new_relativedelta n 0 0.
Proof.
  intros Hn. unfold new_relativedelta, sign.
  change (11 <? Z.abs 0) with false. cbv iota.
  rewrite Z.abs_eq by lia.
  destruct (Z.ltb_spec 11 (12 * n)) as [H|H].
  - destruct (Z.ltb_spec (12 * n) 0); [lia|].
    f_equal; div_lia.
  - assert (n = 0) as -> by lia. reflexivity.
Qed.

Lemma hours_as_days n : new_timedelta 0 (24 * n) 0 = new_timedelta n 0 0.
Proof.
  unfold new_timedelta. cbv zeta.
  replace (0 * 86400 + 24 * n * 3600 + 0 * 60) with (n * 86400 + 0 * 3600 + 0 * 60) by lia.
  reflexivity.
Qed.

Lemma minutes_as_hours n : new_timedelta 0 0 (60 * n) = new_timedelta 0 n 0.
Proof.
  unfold new_timedelta. cbv zeta.
  replace (0 * 86400 + 0 * 3600 + 60 * n * 60) with (0 * 86400 + n * 3600 + 0 * 60) by lia.
  reflexivity.
Qed.

Lemma weeks_as_days base n :
  valid base -> 0 <= n ->
  (td ← new_timedelta (7 * n) 0 0; Timestamp_sub base td)
  = Timestamp_sub_relativedelta base (new_relativedelta 0 0 n).
Proof.
  intros Hbase Hn. pose proof Hbase as (Hty & Htm & Htd & _).
  unfold Timestamp_sub_relativedelta. rewrite weeks_shape by assumption.
  unfold Timestamp_replace. rewrite replace_same, replace_ymd_ok by assumption.
  bind_ok.
  replace (mk_datetime (year base) (month base) (day base) (hour base) (minute base)
             (second base)) with base by (destruct base; reflexivity).
  unfold new_timedelta. cbv zeta.
  replace (7 * n * 86400 + 0 * 3600 + 0 * 60) with (7 * n * 86400) by lia.
  replace (- (n * 7) * 86400 + 0 * 3600 + 0 * 60) with (- (7 * n) * 86400) by lia.
  rewrite !Z.div_mul, !Z.mod_mul by lia.
  destruct (Z.leb_spec (7 * n) MAX_DELTA_DAYS) as [Hle|Hgt].
  - assert (E1 : (- MAX_DELTA_DAYS <=? 7 * n) = true)
      by (apply Z.leb_le; unfold MAX_DELTA_DAYS; lia).
    assert (E2 : (- MAX_DELTA_DAYS <=? - (7 * n)) = true)
      by (apply Z.leb_le; unfold MAX_DELTA_DAYS in *; lia).
    assert (E3 : (- (7 * n) <=? MAX_DELTA_DAYS) = true)
      by (apply Z.leb_le; unfold MAX_DELTA_DAYS; lia).
    rewrite E1, E2, E3. cbn [andb]. bind_ok.
    unfold Timestamp_sub, neg_timedelta. cbn [td_days td_seconds]. cbv zeta.
    replace (- (7 * n * 86400 + 0)) with (- (7 * n) * 86400) by lia.
    rewrite Z.div_mul, Z.mod_mul by lia.
    rewrite E2, E3. cbn [andb]. bind_ok. reflexivity.
  - assert (E2 : (- MAX_DELTA_DAYS <=? - (7 * n)) = false)
      by (apply Z.leb_gt; lia).
    rewrite E2, andb_false_r. reflexivity.
Qed.

(** X18. Whatever the quantity and the valid reference timestamp, twelve
    times as many months lead where the years lead, seven times as many
    days where the weeks lead, twenty-four times as many hours where the
    days lead and sixty times as many minutes where the hours lead: to the
    same timestamp, or to the same exception. *)
Theorem unit_conversions base n :
  valid base -> 0 <= n ->
  shifted "months" (12 * n) base = shifted "years" n base /\
  shifted "days" (7 * n) base = shifted "weeks" n base /\
  shifted "hours" (24 * n) base = shifted "days" n base /\
  shifted "minutes" (60 * n) base = shifted "hours" n base.
Proof.
  intros Hbase Hn. unfold shifted. rewrite !pick_delta_classify.
  change (classify "years") with (Some Year).
  change (classify "months") with (Some Month).
  change (classify "weeks") with (Some Week).
  change (classify "days") with (Some Day).
  change (classify "hours") with (Some Hour).
  change (classify "minutes") with (Some Minute).
  cbn [fmap option_fmap option_map]. unfold delta_of.
  split; [|split; [|split]]; f_equal.
  - rewrite months_as_years by assumption. reflexivity.
  - bind_ok. unfold sub_delta at 2. rewrite <- weeks_as_days by assumption.
    destruct (new_timedelta (7 * n) 0 0); reflexivity.
  - rewrite hours_as_days. reflexivity.
  - rewrite minutes_as_hours. reflexivity.
Qed.

End ReturnedFacts.

End ReturnedDates.

Lemma run_stable3 c j : (3 <= run c (S j))%nat <-> stable3 c j.
Proof.
  unfold stable3, unchanged. split.
  - intros H. simpl in H. case_decide as E0; [|lia].
    destruct j as [|j]; [simpl in H; lia|].
    simpl in H. case_decide as E1; [|lia].
    destruct j as [|j]; [simpl in H; lia|].
    simpl in H. case_decide as E2; [|lia].
    replace (S (S j) - 1)%nat with (S j) by lia. replace (S (S j) - 2)%nat with j by lia.
    repeat split; try assumption. lia.
  - intros (Hj & E0 & E1 & E2).
    destruct j as [|[|j]]; try lia.
    replace (S (S j) - 1)%nat with (S j) in E1 by lia.
    replace (S (S j) - 2)%nat with j in E2 by lia.
    simpl. rewrite !decide_True by assumption. lia.
Qed.

(** The loop, from a state that agrees with the rounds already made, stops
    at the first round that completes three unchanged rounds, or runs out
    of rounds. *)
Lemma search_loop_spec b c :
  (forall i, sb_count b i = Found (c i)) ->
  (forall i, exists u, sb_scroll b i = Found u) ->
  forall fuel i st,
    last_count st = previous 0%nat c i ->
    no_change_count st = run c i ->
    rounds st = i ->
    (forall k, (k < i)%nat -> (run c (S k) < 3)%nat) ->
    let '(ex, st') := search_loop b fuel i st in
    (ex = Broke /\ exists j, (i <= j < i + fuel)%nat /\ rounds st' = S j /\
        (3 <= run c (S j))%nat /\ forall k, (k < j)%nat -> (run c (S k) < 3)%nat)
    \/ (ex = Exhausted /\ rounds st' = (i + fuel)%nat /\
        forall k, (k < i + fuel)%nat -> (run c (S k) < 3)%nat).
Proof.
  intros Hc Hs fuel. induction fuel as [|fuel IH]; intros i st Hl Hn Hr Hbefore.
  - simpl. right. rewrite Nat.add_0_r. auto.
  - simpl. rewrite Hc. destruct (Hs i) as [u ->].
    rewrite Hl, Hn.
    assert (Hrun : run c (S i) = if decide (c i = previous 0%nat c i) then S (run c i) else O)
      by reflexivity.
    destruct (decide (c i = previous 0%nat c i)) as [E|E].
    + replace (run c i + 1)%nat with (S (run c i)) by lia.
      destruct (decide (3 <= S (run c i))%nat) as [H3|H3].
      * left. split; [reflexivity|]. exists i. cbn [rounds]. rewrite Hr.
        split; [lia|]. split; [reflexivity|]. split; [|exact Hbefore].
        change (3 <= run c (S i)). rewrite Hrun. exact H3.
      * assert (Hb' : forall k, (k < S i)%nat -> (run c (S k) < 3)%nat).
        { intros k Hk. destruct (decide (k = i)) as [->|]; [rewrite Hrun; lia|].
          apply Hbefore. lia. }
        pose proof (IH (S i) (mk_scroll_state (c i) (S (run c i)) (S (rounds st))
            (log st ++ [(INFO, "Scroll " +:+ pretty (i + 1)%nat +:+ ": Found "
                                  +:+ pretty (c i) +:+ " results")]))
            eq_refl (eq_sym Hrun) (f_equal S Hr) Hb') as IH'.
        destruct (search_loop _ _ _ _) as [ex st'].
        destruct IH' as [(-> & j & Hj & ?)|(-> & ? & ?)].
        -- left. split; [reflexivity|]. exists j. split; [lia | assumption].
        -- right. replace (i + S fuel)%nat with (S i + fuel)%nat by lia. auto.
    + assert (Hb' : forall k, (k < S i)%nat -> (run c (S k) < 3)%nat).
      { intros k Hk. destruct (decide (k = i)) as [->|]; [rewrite Hrun; lia|].
        apply Hbefore. lia. }
      pose proof (IH (S i) (mk_scroll_state (c i) 0 (S (rounds st))
          (log st ++ [(INFO, "Scroll " +:+ pretty (i + 1)%nat +:+ ": Found "
                                +:+ pretty (c i) +:+ " results")]))
          eq_refl (eq_sym Hrun) (f_equal S Hr) Hb') as IH'.
      destruct (search_loop _ _ _ _) as [ex st'].
      destruct IH' as [(-> & j & Hj & ?)|(-> & ? & ?)].
      -- left. split; [reflexivity|]. exists j. split; [lia | assumption].
      -- right. replace (i + S fuel)%nat with (S i + fuel)%nat by lia. auto.
Qed.

Lemma panel_loop_spec b h :
  (forall i, pb_height b i = Found (h i)) ->
  (forall i, exists u, pb_scroll b i = Found u) ->
  forall fuel i st,
    last_height st = previous 0%Z h i ->
    panel_rounds st = i ->
    (forall k, k < i -> h k <> previous 0%Z h k) ->
    let '(ex, st') := panel_loop b fuel i st in
    (ex = Broke /\ exists j, i <= j < i + fuel /\ panel_rounds st' = S j /\
        h j = previous 0%Z h j /\ forall k, k < j -> h k <> previous 0%Z h k)
    \/ (ex = Exhausted /\ panel_rounds st' = i + fuel /\
        forall k, k < i + fuel -> h k <> previous 0%Z h k).
Proof.
  intros Hh Hs fuel. induction fuel as [|fuel IH]; intros i st Hl Hr Hbefore.
  - simpl. right. rewrite Nat.add_0_r. auto.
  - simpl. destruct (Hs i) as [u ->]. rewrite Hh, Hl.
    destruct (decide (h i = previous 0%Z h i)) as [E|E].
    + left. split; [reflexivity|]. exists i. cbn [panel_rounds]. rewrite Hr.
      split; [lia|]. auto.
    + assert (Hb' : forall k, k < S i -> h k <> previous 0%Z h k).
      { intros k Hk. destruct (decide (k = i)) as [->|]; [assumption|]. apply Hbefore. lia. }
      pose proof (IH (S i) (mk_panel_state (h i) (S (panel_rounds st))
          (panel_log st ++ [(INFO, "Review scroll " +:+ pretty (i + 1) +:+ " completed")]))
          eq_refl (f_equal S Hr) Hb') as IH'.
      destruct (panel_loop _ _ _ _) as [ex st'].
      destruct IH' as [(-> & j & Hj & ?)|(-> & ? & ?)].
      * left. split; [reflexivity|]. exists j. split; [lia | assumption].
      * right. replace (i + S fuel) with (S i + fuel) by lia. auto.
Qed.

(** On a well-behaved page the scroll commands stop with the first round
    that completes three unchanged rounds, or after [max_scrolls] rounds. *)
Lemma search_outcome b c :
  shows_counts b c ->
  let r := scrolls (scroll_search_results b) in
  (exists j, j < max_scrolls /\ r = S j /\ 3 <= run c (S j) /\
             forall k, k < j -> run c (S k) < 3)
  \/ (r = max_scrolls /\ forall k, k < max_scrolls -> run c (S k) < 3).
Proof.
  intros ((divs & k & Hd & Hf) & (u & Hu) & Hc & Hs).
  unfold scroll_search_results. rewrite Hd.
  destruct divs as [|d divs]; [discriminate Hf|].
  rewrite Hf, Hu.
  pose proof (search_loop_spec b c Hc Hs max_scrolls 0
    (mk_scroll_state 0 0 0 [(INFO, "Found scrollable container, starting to scroll")])
    eq_refl eq_refl eq_refl) as H.
  destruct (search_loop _ _ _ _) as [ex st].
  destruct H as [(-> & j & Hj & Hr & H3 & Hb)|(-> & Hr & Hb)]; [lia | |].
  - left. exists j. cbn [scrolls]. repeat split; try assumption. lia.
  - right. cbn [scrolls]. split; assumption.
Qed.

Lemma panel_outcome b h :
  shows_heights b h ->
  let r := scrolls (scroll_reviews_panel b) in
  (exists j, j < max_panel_scrolls /\ r = S j /\ h j = previous 0%Z h j /\
             forall k, k < j -> h k <> previous 0%Z h k)
  \/ (r = max_panel_scrolls /\ forall k, k < max_panel_scrolls -> h k <> previous 0%Z h k).
Proof.
  intros ((sel & k & Hf) & (u & Hu) & Hh & Hs).
  unfold scroll_reviews_panel. rewrite Hf, Hu.
  pose proof (panel_loop_spec b h Hh Hs max_panel_scrolls 0 (mk_panel_state 0 0 [])
    eq_refl eq_refl) as H.
  destruct (panel_loop _ _ _ _) as [ex st].
  destruct H as [(-> & j & Hj & Hr & H3 & Hb)|(-> & Hr & Hb)]; [lia | |].
  - left. exists j. cbn [scrolls]. repeat split; try assumption. lia.
  - right. cbn [scrolls]. split; assumption.
Qed.

(** C3, as the code has it. On a page that shows a container and never
    raises, the listing scroll makes between 1 and 20 rounds, stops before
    the cap only with three consecutive unchanged counts, and never goes on
    past three such rounds; the panel scroll makes between 1 and 10 rounds
    and stops with the first unchanged height. A count that never changes
    ends the listing scroll after 3 rounds when it is 0 and after 4
    otherwise; a height that never changes ends the panel scroll after 1
    round when it is 0 and after 2 otherwise. *)
Theorem scroll_stops_on_stability
    (b : search_browser) (c : nat -> nat) (pb : panel_browser) (h : nat -> Z) :
  shows_counts b c -> shows_heights pb h ->
  let r := scrolls (scroll_search_results b) in
  let p := scrolls (scroll_reviews_panel pb) in
  (1 <= r <= 20 /\
   (r < 20 -> stable3 c (r - 1)) /\
   (forall j, S j < r -> ~ stable3 c j) /\
   ((forall i, c i = c 0) -> r = if decide (c 0 = 0) then 3 else 4))
  /\
  (1 <= p <= 10 /\
   (p < 10 -> h (p - 1) = previous 0%Z h (p - 1)) /\
   (forall j, S j < p -> h j <> previous 0%Z h j) /\
   ((forall i, h i = h 0) -> p = if decide (h 0 = 0%Z) then 1 else 2)).
Proof.
  intros Hb Hpb r p. split.
  - pose proof (search_outcome b c Hb) as H. fold r in H. unfold max_scrolls in H.
    assert (Hchar : 1 <= r <= 20 /\ (r < 20 -> stable3 c (r - 1)) /\
                    (forall j, S j < r -> ~ stable3 c j)).
    { destruct H as [(j & Hj & -> & H3 & Hbefore)|(-> & Hbefore)].
      - split; [lia|]. split.
        + intros _. replace (S j - 1) with j by lia. apply run_stable3. exact H3.
        + intros k Hk Hst. apply run_stable3 in Hst. specialize (Hbefore k). lia.
      - split; [lia|]. split; [lia|].
        intros k Hk Hst. apply run_stable3 in Hst. specialize (Hbefore k). lia. }
    destruct Hchar as (Hr & Hearly & Hnot).
    split; [exact Hr|]. split; [exact Hearly|]. split; [exact Hnot|].
    intros Hconst.
    assert (Hun : forall i, unchanged c (S i)).
    { intros i. unfold unchanged. simpl. rewrite (Hconst (S i)), (Hconst i). reflexivity. }
    destruct (decide (c 0 = 0)) as [E0|E0].
    + assert (Hst : stable3 c 2).
      { unfold stable3. split; [lia|]. split; [apply (Hun 1)|].
        split; [apply (Hun 0) | exact E0]. }
      destruct (decide (r < 3)) as [Hlt|Hge].
      * assert (Hs := Hearly ltac:(lia)). destruct Hs as [? _]. lia.
      * destruct (decide (r = 3)); [assumption|]. exfalso. apply (Hnot 2); [lia | exact Hst].
    + assert (Hst : stable3 c 3).
      { unfold stable3. split; [lia|]. split; [apply (Hun 2)|].
        split; [apply (Hun 1) | apply (Hun 0)]. }
      destruct (decide (r < 4)) as [Hlt|Hge].
      * assert (Hs := Hearly ltac:(lia)). destruct Hs as (H2 & _ & _ & H0).
        replace (r - 1 - 2) with 0 in H0 by lia. unfold unchanged in H0. simpl in H0.
        contradiction.
      * destruct (decide (r = 4)); [assumption|]. exfalso. apply (Hnot 3); [lia | exact Hst].
  - pose proof (panel_outcome pb h Hpb) as H. fold p in H. unfold max_panel_scrolls in H.
    assert (Hchar : 1 <= p <= 10 /\ (p < 10 -> h (p - 1) = previous 0%Z h (p - 1)) /\
                    (forall j, S j < p -> h j <> previous 0%Z h j)).
    { destruct H as [(j & Hj & -> & H3 & Hbefore)|(-> & Hbefore)].
      - split; [lia|]. split.
        + intros _. replace (S j - 1) with j by lia. exact H3.
        + intros k Hk. apply Hbefore. lia.
      - split; [lia|]. split; [lia|]. intros k Hk. apply Hbefore. lia. }
    destruct Hchar as (Hr & Hearly & Hnot).
    split; [exact Hr|]. split; [exact Hearly|]. split; [exact Hnot|].
    intros Hconst.
    destruct (decide (h 0 = 0%Z)) as [E0|E0].
    + destruct (decide (p = 1)); [assumption|]. exfalso.
      apply (Hnot 0); [lia | exact E0].
    + destruct (decide (p < 2)) as [Hlt|Hge].
      * assert (Hs := Hearly ltac:(lia)). replace (p - 1) with 0 in Hs by lia. contradiction.
      * destruct (decide (p = 2)); [assumption|]. exfalso.
        apply (Hnot 1); [lia|]. simpl. apply Hconst.
Qed.

(** Against C3 as stated: a region whose count stays at 5 is left after 4
    rounds, and a panel whose height stays at 900 after 2; neither scroll
    reaches its cap. *)
Lemma steady_region_stops_early :
  shows_counts (steady_search 5) (fun _ => 5) /\
  scrolls (scroll_search_results (steady_search 5)) = 4 /\
  shows_heights (steady_panel 900) (fun _ => 900%Z) /\
  scrolls (scroll_reviews_panel (steady_panel 900)) = 2.
Proof.
  split; [|split; [reflexivity|split; [|reflexivity]]].
  - repeat split; eauto.
  - repeat split; eauto.
Qed.

(** C4, as the code has it. Both scroll functions hand [None] back on every
    path, whatever the browser answers, exceptions included; they report no
    count and build no record. When no scrollable container is located
    they issue no scroll command and log one warning. *)
Theorem scroll_returns_none (b : search_browser) (pb : panel_browser) :
  returned (scroll_search_results b) = PyNone
  /\ returned (scroll_reviews_panel pb) = PyNone
  /\ (forall divs,
        sb_containers b = Found divs -> first_scrollable 0 divs = Found None ->
        scrolls (scroll_search_results b) = 0 /\
        exists msg, logged (scroll_search_results b) = [(WARNING, msg)])
  /\ (find_panel pb panel_selectors = Found None ->
        scrolls (scroll_reviews_panel pb) = 0 /\
        logged (scroll_reviews_panel pb)
        = [(WARNING, "Could not find reviews scrollable container")]).
Proof.
  split; [|split; [|split]].
  - unfold scroll_search_results.
    destruct (sb_containers b) as [[|d divs]|msg]; try reflexivity.
    destruct (first_scrollable 0 (d :: divs)) as [[k|]|msg]; try reflexivity.
    destruct (sb_hover b); try reflexivity.
    destruct (search_loop _ _ _ _) as [[| |msg] st]; reflexivity.
  - unfold scroll_reviews_panel.
    destruct (find_panel pb panel_selectors) as [[p|]|msg]; try reflexivity.
    destruct (pb_hover pb); try reflexivity.
    destruct (panel_loop _ _ _ _) as [[| |msg] st]; reflexivity.
  - intros divs Hd Hf. unfold scroll_search_results. rewrite Hd.
    destruct divs as [|d divs]; [simpl; eauto|].
    rewrite Hf. simpl. eauto.
  - intros Hf. unfold scroll_reviews_panel. rewrite Hf. split; reflexivity.
Qed.

(** Against C4 as stated: the listing scroll of a page that shows 5 results
    hands back [None], not the count. *)
Lemma scroll_does_not_return_count :
  shows_counts (steady_search 5) (fun _ => 5) /\
  returned (scroll_search_results (steady_search 5)) = PyNone /\
  returned (scroll_search_results (steady_search 5)) <> PyInt 5.
Proof.
  split; [repeat split; eauto|]. split; [reflexivity | discriminate].
Qed.

Section AdmissionFacts.
Context {rt : PyRuntime}.

Lemma meaningful_spec (f : fields) :
  meaningful f = true <->
  (0 < rating_number (f_rating f))%Z \/ 5 < String.length (f_text f).
Proof.
  unfold meaningful. rewrite orb_true_iff, andb_true_iff, negb_true_iff.
  rewrite bool_decide_eq_false, bool_decide_eq_true.
  assert (Hr : rating_positive (f_rating f) = true <-> (0 < rating_number (f_rating f))%Z).
  { destruct (f_rating f) as [n|n|]; cbn [rating_positive rating_number].
    - apply Z.ltb_lt.
    - rewrite N.ltb_lt. lia.
    - split; [intros _; apply Z.pow_pos_nonneg; lia | reflexivity]. }
  rewrite Hr. split; [tauto|].
  intros [H|H]; [auto|]. right. split; [|assumption].
  intros E. rewrite E in H. simpl in H. lia.
Qed.

Lemma keep_meaningless branch h f : meaningful f = false -> keep_review branch h f = h.
Proof. intros H. unfold keep_review. rewrite H, andb_false_r. reflexivity. Qed.

Lemma keep_seen branch h f : review_key f ∈ seen_reviews h -> keep_review branch h f = h.
Proof.
  intros H. unfold keep_review. rewrite bool_decide_eq_false_2; [reflexivity|]. auto.
Qed.

Lemma keep_fresh branch h f :
  meaningful f = true -> review_key f ∉ seen_reviews h ->
  keep_review branch h f =
    mk_harvest (reviews h ++ [make_review branch f]) ({[review_key f]} ∪ seen_reviews h)
      (harvest_log h ++
         [(INFO, "Successfully extracted review "
                   +:+ pretty (length (reviews h ++ [make_review branch f])) +:+ ": "
                   +:+ f_name f +:+ " - " +:+ str_rating (f_rating f) +:+ " stars")]).
Proof.
  intros Hm Hk. unfold keep_review. rewrite Hm, bool_decide_eq_true_2 by assumption. reflexivity.
Qed.

(** The set of seen keys only grows. *)
Lemma keep_seen_mono branch h f k :
  k ∈ seen_reviews h -> k ∈ seen_reviews (keep_review branch h f).
Proof.
  intros Hk. unfold keep_review. destruct (_ && _); [|assumption]. simpl. set_solver.
Qed.

Lemma keep_all_seen_mono branch fs h k :
  k ∈ seen_reviews h -> k ∈ seen_reviews (foldl (keep_review branch) h fs).
Proof.
  revert h. induction fs as [|f fs IH]; intros h Hk; simpl; [assumption|].
  apply IH, keep_seen_mono, Hk.
Qed.

Lemma keep_preserves_signal branch h f :
  Forall carries_signal (reviews h) -> Forall carries_signal (reviews (keep_review branch h f)).
Proof.
  intros H. unfold keep_review. destruct (bool_decide _ && meaningful f) eqn:E; [|assumption].
  apply andb_prop in E as [_ E]. simpl. apply Forall_app. split; [assumption|].
  apply Forall_singleton. apply meaningful_spec in E. exact E.
Qed.

Lemma process_keeps_signal branch elements h :
  Forall carries_signal (reviews h) ->
  Forall carries_signal (reviews (process_elements branch h elements)).
Proof.
  revert h. unfold process_elements.
  induction elements as [|e es IH]; intros h H; simpl; [assumption|].
  apply IH, keep_preserves_signal, H.
Qed.

Lemma extract_reviews_signal find branch :
  Forall carries_signal (extract_reviews_from_page find branch).1.
Proof.
  unfold extract_reviews_from_page.
  destruct (collect_review_elements find review_selectors [] []) as [[[|e es]|msg] lg];
    simpl; try constructor.
  apply process_keeps_signal. constructor.
Qed.

Lemma review_key_prefix f1 f2 :
  f_name f1 = f_name f2 -> f_rating f1 = f_rating f2 -> f_date f1 = f_date f2 ->
  take 50 (f_text f1) = take 50 (f_text f2) ->
  review_key f1 = review_key f2.
Proof.
  intros Hn Hr Hd Ht. unfold review_key. rewrite Hn, Hr, Hd.
  destruct (f_text f1) as [|c1 t1], (f_text f2) as [|c2 t2];
    try discriminate Ht; try reflexivity.
  rewrite Ht. reflexivity.
Qed.

End AdmissionFacts.

Section ExtractionFacts.
Context {rt : PyRuntime}.

(** The loop ends on the first selector that finds a valid text. *)
Lemma try_selectors_first_valid valid find before selector after current t :
  Forall (fun s => match find s with
                   | Found t' => valid (strip t') = false
                   | Throws _ => True
                   end) before ->
  find selector = Found t -> valid (strip t) = true ->
  try_selectors valid find (before ++ selector :: after) current = strip t.
Proof.
  intros Hb Hf Hv. revert current.
  induction before as [|s before IH]; intros current; simpl.
  - rewrite Hf, Hv. reflexivity.
  - inversion Hb as [|? ? Hs Hrest]; subst.
    destruct (find s) as [t'|msg]; [rewrite Hs|]; apply IH; assumption.
Qed.

(** When no selector finds anything the field keeps its initial value. *)
Lemma try_selectors_none_found valid find selectors current :
  Forall (fun s => exists msg, find s = Throws msg) selectors ->
  try_selectors valid find selectors current = current.
Proof.
  revert current. induction selectors as [|s selectors IH]; intros current H; simpl.
  - reflexivity.
  - inversion H as [|? ? [msg Hs] Hrest]; subst. rewrite Hs. apply IH. assumption.
Qed.

(** When texts are found but none is valid, the field ends as the last
    text found, not as its initial value. *)
Lemma try_selectors_last_invalid valid find before selector after current t :
  find selector = Found t -> valid (strip t) = false ->
  Forall (fun s => exists msg, find s = Throws msg) after ->
  try_selectors valid find (before ++ selector :: after) current = strip t
  \/ exists s t', s ∈ before /\ find s = Found t' /\ valid (strip t') = true.
Proof.
  intros Hf Hv Hafter. revert current.
  induction before as [|s before IH]; intros current; simpl.
  - left. rewrite Hf, Hv. apply try_selectors_none_found. assumption.
  - destruct (find s) as [t'|msg] eqn:Es.
    + destruct (valid (strip t')) eqn:Ev.
      * right. exists s, t'. split; [left|]. auto.
      * destruct (IH (strip t')) as [E|(s0 & t0 & Hin & H0)]; [left; exact E|].
        right. exists s0, t0. split; [right; exact Hin | exact H0].
    + destruct (IH current) as [E|(s0 & t0 & Hin & H0)]; [left; exact E|].
      right. exists s0, t0. split; [right; exact Hin | exact H0].
Qed.

(** C5 at its failing inputs: a name element that reads "More" with no
    other name element leaves the reviewer name "More", not "Anonymous";
    a text element with a short text leaves that text, not the empty
    string; a star label without the pattern leaves the rating 0 although
    four filled stars are there to be counted. *)
Theorem invalid_candidate_is_kept :
  f_name (extract_fields more_block) = "More"
  /\ valid_name "More" = false
  /\ f_text (extract_fields short_text_block) = "Hi"
  /\ valid_text "Hi" = false
  /\ f_rating (extract_fields unlabelled_block) = RInt 0
  /\ re_filled_stars unlabelled_block = Found 4.
Proof. repeat split; reflexivity. Qed.

(** C6. A record is recorded exactly when its rating is positive or its
    text is longer than 5 characters (and its key is new); otherwise the
    reviews, the set of keys and the log are left as they were; and every
    review in the result of a page carries such a signal. *)
Theorem admission_rule (branch : BankBranch) (h : harvest) (f : fields) :
  (meaningful f = true <->
     (0 < rating_number (f_rating f))%Z \/ 5 < String.length (f_text f))
  /\ ((rating_number (f_rating f) <= 0)%Z -> String.length (f_text f) <= 5 ->
      keep_review branch h f = h)
  /\ ((0 < rating_number (f_rating f))%Z \/ 5 < String.length (f_text f) ->
      review_key f ∉ seen_reviews h ->
      reviews (keep_review branch h f) = reviews h ++ [make_review branch f] /\
      seen_reviews (keep_review branch h f) = {[review_key f]} ∪ seen_reviews h)
  /\ (forall find, Forall carries_signal (extract_reviews_from_page find branch).1).
Proof.
  split; [apply meaningful_spec|]. split; [|split].
  - intros Hr Ht. apply keep_meaningless.
    destruct (meaningful f) eqn:E; [|reflexivity].
    apply meaningful_spec in E. lia.
  - intros Hs Hk. apply meaningful_spec in Hs.
    rewrite keep_fresh by assumption. split; reflexivity.
  - intros find. apply extract_reviews_signal.
Qed.

(** C7. Once a record has been recorded, a later record with the same key
    is rejected, whatever was processed in between; records that agree on
    name, rating, date and the first 50 characters of the text have the
    same key. *)
Theorem duplicate_key_rejected
    (branch : BankBranch) (h : harvest) (f1 f2 : fields) (between : list fields) :
  meaningful f1 = true ->
  review_key f1 ∉ seen_reviews h ->
  (review_key f2 = review_key f1 \/
   (f_name f1 = f_name f2 /\ f_rating f1 = f_rating f2 /\ f_date f1 = f_date f2 /\
    take 50 (f_text f1) = take 50 (f_text f2))) ->
  let h1 := keep_review branch h f1 in
  let h2 := foldl (keep_review branch) h1 between in
  reviews h1 = reviews h ++ [make_review branch f1]
  /\ review_key f2 = review_key f1
  /\ keep_review branch h2 f2 = h2.
Proof.
  intros Hm Hk Hsame h1 h2.
  assert (E : review_key f2 = review_key f1).
  { destruct Hsame as [E|(Hn & Hr & Hd & Ht)]; [exact E|].
    symmetry. apply review_key_prefix; assumption. }
  split; [|split; [exact E|]].
  - subst h1. rewrite keep_fresh by assumption. reflexivity.
  - apply keep_seen. rewrite E. subst h2. apply keep_all_seen_mono.
    subst h1. rewrite keep_fresh by assumption. cbn [seen_reviews].
    apply elem_of_union_l, elem_of_singleton. reflexivity.
Qed.

End ExtractionFacts.

Section RatingFacts.
Context {rt : PyRuntime}.

Lemma search_star_here s ds : match_star s = Some ds -> search_star s = Some ds.
Proof. intros H. destruct s as [|c s]; cbn [search_star]; rewrite H; reflexivity. Qed.

Lemma span_spec p s a b :
  span p s = (a, b) -> s = a +:+ b /\ all_chars p a = true.
Proof.
  revert a b. induction s as [|c s IH]; intros a b; simpl.
  - intros E. injection E as <- <-. split; reflexivity.
  - destruct (p c) eqn:Ep.
    + destruct (span p s) as [a' b'] eqn:Es. intros E. injection E as <- <-.
      destruct (IH a' b' eq_refl) as [-> Ha]. split; [reflexivity|].
      simpl. rewrite Ep, Ha. reflexivity.
    + intros E. injection E as <- <-. split; reflexivity.
Qed.

Lemma strip_prefix_spec p s r : strip_prefix p s = Some r -> s = p +:+ r.
Proof.
  revert s. induction p as [|a p IH]; intros s; simpl.
  - intros E. injection E as ->. reflexivity.
  - destruct s as [|b s]; [discriminate|].
    destruct (decide (a = b)) as [->|]; [|discriminate].
    intros E. rewrite (IH s E). reflexivity.
Qed.

Lemma match_star_spec s ds :
  match_star s = Some ds ->
  exists ws tail,
    s = ds +:+ ws +:+ "star" +:+ tail /\ ds <> "" /\
    all_chars is_digit ds = true /\ all_chars is_space ws = true.
Proof.
  unfold match_star.
  destruct (span is_digit s) as [d r] eqn:Ed.
  destruct d as [|c d]; [discriminate|].
  destruct (span is_space r) as [ws r'] eqn:Ew.
  destruct (strip_prefix "star" r') as [tail|] eqn:Et; [|discriminate].
  intros E. injection E as <-.
  apply span_spec in Ed as [-> Hd]. apply span_spec in Ew as [-> Hw].
  apply strip_prefix_spec in Et as ->.
  exists ws, tail. split; [reflexivity|]. split; [discriminate|]. auto.
Qed.

Lemma search_star_spec s ds :
  search_star s = Some ds ->
  exists pre ws tail,
    s = pre +:+ ds +:+ ws +:+ "star" +:+ tail /\ ds <> "" /\
    all_chars is_digit ds = true /\ all_chars is_space ws = true.
Proof.
  induction s as [|c s IH]; cbn [search_star].
  - destruct (match_star "") eqn:E; [|discriminate].
    intros H. injection H as ->. apply match_star_spec in E as (ws & tail & E & H).
    exists "", ws, tail. split; [exact E | exact H].
  - destruct (match_star (String c s)) eqn:E.
    + intros H. injection H as ->. apply match_star_spec in E as (ws & tail & E & H).
      exists "", ws, tail. split; [exact E | exact H].
    + intros H. destruct (IH H) as (pre & ws & tail & -> & H').
      exists (String c pre), ws, tail. split; [reflexivity | exact H'].
Qed.

Lemma space_or_s_not_digit ws tail :
  all_chars is_space ws = true ->
  starts_outside is_digit (ws +:+ "star" +:+ tail) = true.
Proof.
  destruct ws as [|c ws]; [reflexivity|]. simpl. intros H.
  apply andb_prop in H as [Hc _]. unfold starts_outside. simpl.
  rewrite (space_not_digit c Hc). reflexivity.
Qed.

Lemma match_star_complete ds ws tail :
  ds <> "" -> all_chars is_digit ds = true -> all_chars is_space ws = true ->
  match_star (ds +:+ ws +:+ "star" +:+ tail) = Some ds.
Proof.
  intros Hne Hd Hw. unfold match_star.
  rewrite span_app by (assumption || apply space_or_s_not_digit; assumption).
  destruct ds as [|c ds]; [congruence|].
  rewrite span_app by (assumption || reflexivity).
  rewrite (strip_prefix_app "star"). reflexivity.
Qed.

Lemma search_star_complete pre ds ws tail :
  ds <> "" -> all_chars is_digit ds = true -> all_chars is_space ws = true ->
  search_star (pre +:+ ds +:+ ws +:+ "star" +:+ tail) <> None.
Proof.
  intros Hne Hd Hw. induction pre as [|c pre IH].
  - change ("" +:+ ds +:+ ws +:+ "star" +:+ tail) with (ds +:+ ws +:+ "star" +:+ tail).
    rewrite (search_star_here _ ds) by (apply match_star_complete; assumption).
    discriminate.
  - rewrite append_cons. cbn [search_star].
    destruct (match_star _); [discriminate | exact IH].
Qed.

(** The search stops at the first place where the pattern matches. *)
Lemma search_star_first s ds :
  search_star s = Some ds ->
  exists pre ws tail, shows_first s pre ds ws tail.
Proof.
  induction s as [|c s IH]; cbn [search_star].
  - destruct (match_star "") eqn:E; [|discriminate].
    intros H. injection H as ->. apply match_star_spec in E as (ws & tail & E & H).
    exists "", ws, tail. split; [split; [exact E | exact H]|].
    intros. simpl. lia.
  - destruct (match_star (String c s)) eqn:E.
    + intros H. injection H as ->. apply match_star_spec in E as (ws & tail & E & H).
      exists "", ws, tail. split; [split; [exact E | exact H]|].
      intros. simpl. lia.
    + intros H. destruct (IH H) as (pre & ws & tail & (-> & H') & Hfirst).
      exists (String c pre), ws, tail. split; [split; [reflexivity | exact H']|].
      intros pre' ds' ws' tail' (E' & Hne & Hd & Hw).
      destruct pre' as [|c' pre'].
      * exfalso. change ("" +:+ ds' +:+ ws' +:+ "star" +:+ tail')
          with (ds' +:+ ws' +:+ "star" +:+ tail') in E'.
        rewrite E', match_star_complete in E by assumption. discriminate.
      * rewrite append_cons in E'. injection E' as <- E'.
        simpl. apply le_n_S. apply (Hfirst pre' ds' ws' tail').
        split; [exact E' | auto].
Qed.

Lemma append_same_length (a a' b b' : string) :
  a +:+ b = a' +:+ b' -> String.length a = String.length a' -> a = a' /\ b = b'.
Proof.
  revert a'. induction a as [|c a IH]; intros [|c' a'] E L; try discriminate L.
  - auto.
  - rewrite !append_cons in E. injection E as -> E. injection L as L.
    destruct (IH a' E L) as [-> ->]. auto.
Qed.

(** The first place is one place, and the run there is one run. *)
Lemma shows_first_unique label pre ds ws tail pre' ds' ws' tail' :
  shows_first label pre ds ws tail -> shows_first label pre' ds' ws' tail' ->
  ds = ds'.
Proof.
  intros [H1 F1] [H2 F2].
  pose proof (F1 _ _ _ _ H2) as L1. pose proof (F2 _ _ _ _ H1) as L2.
  destruct H1 as (E1 & Hne1 & Hd1 & Hw1), H2 as (E2 & Hne2 & Hd2 & Hw2).
  rewrite E1 in E2. apply append_same_length in E2 as [_ E2]; [|lia].
  assert (S1 : span is_digit (ds +:+ ws +:+ "star" +:+ tail) = (ds, ws +:+ "star" +:+ tail))
    by (apply span_app; [assumption | apply space_or_s_not_digit; assumption]).
  assert (S2 : span is_digit (ds' +:+ ws' +:+ "star" +:+ tail')
               = (ds', ws' +:+ "star" +:+ tail'))
    by (apply span_app; [assumption | apply space_or_s_not_digit; assumption]).
  rewrite E2 in S1. rewrite S1 in S2. injection S2 as -> _. reflexivity.
Qed.

(** Below 2^53 a whole number is a double; from there on its double is
    2^53 at least, or infinity. *)
Lemma double_small n : (n < 2 ^ 53)%N -> double_of_N n = Some n.
Proof.
  intros H. unfold double_of_N. apply N.ltb_lt in H. rewrite H. reflexivity.
Qed.

Lemma double_large n :
  (2 ^ 53 <= n)%N ->
  match double_of_N n with
  | Some v => (2 ^ 53 <= v)%N
  | None => True
  end.
Proof.
  intros H. unfold double_of_N.
  destruct (N.ltb_spec n (2 ^ 53)) as [Hlt|_]; [lia|]. cbv zeta.
  set (e := (N.log2 n - 52)%N).
  set (q := N.shiftr n e).
  set (q' := if _ : bool then q else _).
  destruct (N.log2 (N.shiftl q' e) <? 1024)%N; [|exact I].
  assert (Hlog : (53 <= N.log2 n)%N).
  { change 53%N with (N.log2 (2 ^ 53)). apply N.log2_le_mono, H. }
  assert (He : (1 <= e)%N) by (subst e; lia).
  assert (Hq : (2 ^ 52 <= q)%N).
  { subst q. rewrite N.shiftr_div_pow2.
    assert (Hn : (2 ^ N.log2 n <= n)%N) by (apply N.log2_spec; lia).
    replace (N.log2 n) with (52 + e)%N in Hn by (subst e; lia).
    rewrite N.pow_add_r in Hn.
    apply N.div_le_lower_bound; [apply N.pow_nonzero; lia | lia]. }
  assert (Hq' : (q <= q')%N).
  { subst q'. repeat (match goal with |- context [if ?b then _ else _] => destruct b end);
      lia. }
  rewrite N.shiftl_mul_pow2.
  assert (Hp : (2 ^ 1 <= 2 ^ e)%N) by (apply N.pow_le_mono_r; lia).
  change (2 ^ 53)%N with (2 ^ 52 * 2 ^ 1)%N.
  apply N.mul_le_mono; lia.
Qed.

(** [float] keeps the order of the digits' number with respect to 5, and
    the number itself below 2^53. *)
Lemma float_of_digits_number ds :
  all_chars is_digit ds = true ->
  ((int_digits_go 0 ds < 2 ^ 53)%Z ->
   float_of_digits ds = RFloat (Z.to_N (int_digits_go 0 ds)))
  /\ ((rating_number (float_of_digits ds) <= 5)%Z <-> (int_digits_go 0 ds <= 5)%Z).
Proof.
  intros Hd. pose proof (int_digits_go_nonneg ds 0 ltac:(lia) Hd) as Hn.
  unfold float_of_digits.
  destruct (Z.lt_ge_cases (int_digits_go 0 ds) (2 ^ 53)) as [Hs|Hl].
  - rewrite double_small by lia. split; [reflexivity|].
    cbn [rating_number]. lia.
  - split; [lia|].
    pose proof (double_large (Z.to_N (int_digits_go 0 ds)) ltac:(lia)) as Hv.
    destruct (double_of_N _) as [v|]; cbn [rating_number].
    + lia.
    + assert (2 ^ 53 <= 2 ^ 1024)%Z by (apply Z.pow_le_mono_r; lia). lia.
Qed.

Lemma float_of_string_digits ds :
  ds <> "" -> all_chars is_digit ds = true ->
  float_of_string ds
  = Some (match double_of_N (Z.to_N (int_digits_go 0 ds)) with
          | Some n => FWhole n
          | None => FInf
          end).
Proof.
  intros Hne Hd. unfold float_of_string.
  replace (span is_digit ds) with (ds, "").
  2:{ symmetry. rewrite <- (span_app is_digit ds "") by (assumption || reflexivity).
      f_equal. clear. induction ds as [|c ds IH]; [reflexivity|].
      rewrite append_cons, <- IH. reflexivity. }
  destruct ds as [|c ds]; [congruence|].
  destruct (double_of_N _); reflexivity.
Qed.

Lemma extract_rating_nonneg element : (0 <= rating_number (extract_rating element))%Z.
Proof.
  unfold extract_rating.
  destruct (re_star_label element) as [[label|]|msg].
  - destruct (search_star label); [|simpl; lia].
    unfold float_of_digits. destruct (double_of_N _); cbn [rating_number];
      [lia | apply Z.pow_nonneg; lia].
  - destruct (re_filled_stars element) as [[|k]|msg]; simpl; lia.
  - destruct (re_filled_stars element) as [[|k]|msg']; simpl; lia.
Qed.


(** C10. The key is one string, so a "|" inside a field moves the
    boundaries: two blocks with different names and different texts have
    the same key, and the page that shows both yields only the first. *)
Theorem key_is_not_injective :
  let f1 := extract_fields pipe_text_block in
  let f2 := extract_fields pipe_name_block in
  f_name f1 <> f_name f2
  /\ f_text f1 <> f_text f2
  /\ f_rating f1 = f_rating f2
  /\ f_date f1 = f_date f2
  /\ review_key f1 = review_key f2
  /\ re_location pipe_text_block <> re_location pipe_name_block
  /\ forall branch,
       (extract_reviews_from_page (review_page [pipe_text_block; pipe_name_block]) branch).1
       = [make_review branch f1].
Proof.
  repeat split; try discriminate; try reflexivity.
Qed.

End RatingFacts.


Lemma all_chars_impl (p q : ascii -> bool) s :
  (forall c, p c = true -> q c = true) -> all_chars p s = true -> all_chars q s = true.
Proof.
  intros Hpq. induction s as [|c s IH]; simpl; [reflexivity|].
  intros H. apply andb_prop in H as [Hc Hs]. rewrite (Hpq c Hc), (IH Hs). reflexivity.
Qed.

Lemma digit_not_comma c : is_digit c = true -> not_comma c = true.
Proof.
  unfold not_comma. intros H. apply negb_true_iff, bool_decide_eq_false.
  intros ->. discriminate.
Qed.

Lemma pretty_Z_no_comma (z : Z) : all_chars not_comma (pretty z) = true.
Proof.
  destruct z as [|p|p].
  - reflexivity.
  - destruct (numeral_spec (Zpos p)) as (_ & Hd & _); [lia|].
    apply (all_chars_impl is_digit); auto using digit_not_comma.
  - destruct (numeral_spec (Zpos p)) as (_ & Hd & _); [lia|].
    change (pretty (Zneg p)) with ("-" +:+ pretty (Zpos p)).
    change (all_chars not_comma ("-" +:+ pretty (Z.pos p)))
      with (not_comma "-" && all_chars not_comma (pretty (Z.pos p))).
    rewrite (all_chars_impl is_digit not_comma _ digit_not_comma Hd). reflexivity.
Qed.

Lemma comma_split a1 b1 a2 b2 :
  all_chars not_comma a1 = true -> all_chars not_comma a2 = true ->
  a1 +:+ "," +:+ b1 = a2 +:+ "," +:+ b2 -> a1 = a2 /\ b1 = b2.
Proof.
  revert a2. induction a1 as [|c a1 IH]; intros [|c2 a2] H1 H2 E.
  - change (String "," b1 = String "," b2) in E. injection E as ->. auto.
  - change (String "," b1 = String c2 (a2 +:+ "," +:+ b2)) in E.
    injection E as <- _. simpl in H2. discriminate.
  - change (String c (a1 +:+ "," +:+ b1) = String "," b2) in E.
    injection E as -> _. simpl in H1. discriminate.
  - change (String c (a1 +:+ "," +:+ b1) = String c2 (a2 +:+ "," +:+ b2)) in E.
    injection E as -> E.
    simpl in H1, H2. apply andb_prop in H1 as [_ H1]. apply andb_prop in H2 as [_ H2].
    destruct (IH a2 H1 H2 E) as [-> ->]. auto.
Qed.

(** Different positions have different keys. *)
Lemma loc_key_inj l1 l2 : loc_key l1 = loc_key l2 -> l1 = l2.
Proof.
  destruct l1 as [x1 y1], l2 as [x2 y2]. unfold loc_key. simpl. intros E.
  apply comma_split in E as [Ex Ey]; try apply pretty_Z_no_comma.
  apply (inj pretty) in Ex. apply (inj pretty) in Ey. congruence.
Qed.

Section DedupFacts.
Context {rt : PyRuntime}.

Lemma extract_branches_extracted bank elements :
  (extract_branches bank elements).1 = extracted bank elements.
Proof.
  induction elements as [|e es IH]; [reflexivity|].
  simpl. destruct (extract_branches bank es) as [bs lg]. simpl in IH.
  unfold extracted. simpl. destruct (extract_branch bank e); simpl; rewrite IH; reflexivity.
Qed.

Lemma extract_branch_links_out bank elements :
  (extract_branch_links (Found elements) bank).1 = unique_by_url ∅ (extracted bank elements).
Proof.
  unfold extract_branch_links. rewrite <- extract_branches_extracted.
  destruct (extract_branches bank elements). reflexivity.
Qed.

Lemma unique_by_url_spec bs seen :
  sublist (unique_by_url seen bs) bs
  /\ NoDup (branch_url <$> unique_by_url seen bs)
  /\ (forall b, b ∈ unique_by_url seen bs -> branch_url b ∉ seen)
  /\ (forall b, b ∈ bs -> branch_url b ∈ seen \/
                          branch_url b ∈ branch_url <$> unique_by_url seen bs).
Proof.
  revert seen. induction bs as [|b bs IH]; intros seen; simpl.
  - split; [constructor|]. split; [constructor|].
    split; intros b Hb; inversion Hb.
  - destruct (decide (branch_url b ∈ seen)) as [Hin|Hnot].
    + destruct (IH seen) as (Hs & Hn & Hf & Hc).
      split; [apply sublist_cons, Hs|]. split; [exact Hn|]. split; [exact Hf|].
      intros b' Hb'. apply elem_of_cons in Hb' as [->|Hb']; [left; exact Hin | apply Hc, Hb'].
    + destruct (IH ({[branch_url b]} ∪ seen)) as (Hs & Hn & Hf & Hc).
      split; [apply sublist_skip, Hs|]. split; [|split].
      * simpl. apply NoDup_cons. split; [|exact Hn].
        intros Hin. apply list_elem_of_fmap in Hin as (b' & E & Hb').
        apply Hf in Hb'. rewrite E in Hb'.
        apply Hb', elem_of_union_l, elem_of_singleton. reflexivity.
      * intros b' Hb'. apply elem_of_cons in Hb' as [->|Hb']; [exact Hnot|].
        apply Hf in Hb'. intros H. apply Hb', elem_of_union_r, H.
      * intros b' Hb'. simpl. apply elem_of_cons in Hb' as [->|Hb'].
        -- right. left.
        -- destruct (Hc b' Hb') as [H|H].
           ++ apply elem_of_union in H as [H|H].
              ** apply elem_of_singleton in H. right. rewrite H. left.
              ** left. exact H.
           ++ right. right. exact H.
Qed.

Lemma extract_branch_moved bank f e :
  extract_branch bank (moved f e) = extract_branch bank e.
Proof. reflexivity. Qed.

Lemma extract_branches_moved bank f elements :
  extract_branches bank (moved f <$> elements) = extract_branches bank elements.
Proof.
  induction elements as [|e es IH]; [reflexivity|].
  rewrite fmap_cons. cbn [extract_branches]. rewrite IH, extract_branch_moved. reflexivity.
Qed.

Lemma omap_position_cons e es :
  omap position (e :: es)
  = match position e with
    | Some l => l :: omap position es
    | None => omap position es
    end.
Proof. reflexivity. Qed.

Lemma unique_by_location_spec blocks seen :
  sublist (unique_by_location seen blocks) blocks
  /\ NoDup (omap position (unique_by_location seen blocks))
  /\ (forall l, l ∈ omap position (unique_by_location seen blocks) -> loc_key l ∉ seen)
  /\ (forall l, l ∈ omap position blocks ->
        loc_key l ∈ seen \/ l ∈ omap position (unique_by_location seen blocks)).
Proof.
  revert seen. induction blocks as [|e es IH]; intros seen.
  - split; [constructor|]. split; [constructor|].
    split; intros l Hl; inversion Hl.
  - cbn [unique_by_location]. rewrite omap_position_cons.
    destruct (re_location e) as [loc|msg] eqn:El.
    + assert (Hpos : position e = Some loc) by (unfold position; rewrite El; reflexivity).
      rewrite Hpos.
      destruct (decide (loc_key loc ∈ seen)) as [Hin|Hnot].
      * destruct (IH seen) as (Hs & Hn & Hf & Hc).
        split; [apply sublist_cons, Hs|]. split; [exact Hn|]. split; [exact Hf|].
        intros l Hl. apply elem_of_cons in Hl as [->|Hl]; [left; exact Hin | apply Hc, Hl].
      * destruct (IH ({[loc_key loc]} ∪ seen)) as (Hs & Hn & Hf & Hc).
        split; [apply sublist_skip, Hs|].
        rewrite omap_position_cons, Hpos.
        split; [|split].
        -- apply NoDup_cons. split; [|exact Hn].
           intros Hin. apply Hf in Hin.
           apply Hin, elem_of_union_l, elem_of_singleton. reflexivity.
        -- intros l Hl. apply elem_of_cons in Hl as [->|Hl]; [exact Hnot|].
           apply Hf in Hl. intros H. apply Hl, elem_of_union_r, H.
        -- intros l Hl. apply elem_of_cons in Hl as [->|Hl]; [right; left|].
           destruct (Hc l Hl) as [H|H]; [|right; right; exact H].
           apply elem_of_union in H as [H|H]; [|left; exact H].
           apply elem_of_singleton, loc_key_inj in H. subst l. right. left.
    + assert (Hpos : position e = None) by (unfold position; rewrite El; reflexivity).
      rewrite Hpos.
      destruct (IH seen) as (Hs & Hn & Hf & Hc).
      split; [apply sublist_cons, Hs|]. split; [exact Hn|]. split; [exact Hf|exact Hc].
Qed.

Lemma omap_position_snoc processed e :
  omap position (processed ++ [e])
  = omap position processed ++ match position e with Some l => [l] | None => [] end.
Proof. rewrite omap_app. cbn [omap list_omap]. destruct (position e); reflexivity. Qed.

(** The set of position keys stands for the positions of the blocks gone
    through: the source's pass keeps what the claim's wording keeps. *)
Lemma unique_by_location_drop blocks seen processed :
  (forall l, loc_key l ∈ seen <-> l ∈ omap position processed) ->
  unique_by_location seen blocks = drop_coinciding processed blocks.
Proof.
  revert seen processed. induction blocks as [|e es IH]; intros seen processed Hinv;
    [reflexivity|].
  cbn [unique_by_location drop_coinciding]. unfold first_at_position.
  destruct (re_location e) as [loc|msg] eqn:El.
  - assert (Hpos : position e = Some loc) by (unfold position; rewrite El; reflexivity).
    rewrite Hpos.
    destruct (decide (loc_key loc ∈ seen)) as [Hin|Hnot].
    + rewrite bool_decide_eq_false_2 by (intros H; apply H, Hinv, Hin).
      apply IH. intros l. rewrite omap_position_snoc, Hpos, elem_of_app, Hinv.
      split; [auto|]. intros [H|H]; [exact H|].
      apply list_elem_of_singleton in H as ->. apply Hinv, Hin.
    + rewrite bool_decide_eq_true_2 by (intros H; apply Hnot, Hinv, H).
      cbn [app]. f_equal.
      apply IH. intros l.
      rewrite omap_position_snoc, Hpos, elem_of_app, elem_of_union, elem_of_singleton,
        list_elem_of_singleton, Hinv.
      split.
      * intros [H|H]; [right; apply loc_key_inj, H | left; exact H].
      * intros [H|H]; [right; exact H | left; rewrite H; reflexivity].
  - assert (Hpos : position e = None) by (unfold position; rewrite El; reflexivity).
    rewrite Hpos. cbn [app]. apply IH. intros l.
    rewrite omap_position_snoc, Hpos, app_nil_r. apply Hinv.
Qed.

(** What is kept depends on the blocks gone through only by their
    positions. *)
Lemma drop_coinciding_ext blocks processed processed' :
  (forall l, l ∈ omap position processed <-> l ∈ omap position processed') ->
  drop_coinciding processed blocks = drop_coinciding processed' blocks.
Proof.
  revert processed processed'.
  induction blocks as [|e es IH]; intros processed processed' H; [reflexivity|].
  cbn [drop_coinciding]. f_equal.
  - unfold first_at_position. destruct (position e) as [l|]; [|reflexivity].
    rewrite (bool_decide_ext _ (l ∉ omap position processed')); [reflexivity|].
    rewrite H. reflexivity.
  - apply IH. intros l. rewrite !omap_position_snoc, !elem_of_app, H. reflexivity.
Qed.

Lemma drop_coinciding_app processed before after :
  drop_coinciding processed (before ++ after)
  = drop_coinciding processed before ++ drop_coinciding (processed ++ before) after.
Proof.
  revert processed. induction before as [|e es IH]; intros processed.
  - rewrite app_nil_r. reflexivity.
  - cbn [app drop_coinciding]. rewrite IH, <- !app_assoc. reflexivity.
Qed.

(** A block that is not the first at its position leaves no trace: what is
    kept is what is kept of the page without it. *)
Lemma drop_coinciding_skip before e after :
  first_at_position before e = false ->
  drop_coinciding [] (before ++ e :: after) = drop_coinciding [] (before ++ after).
Proof.
  intros Hf. rewrite !drop_coinciding_app. cbn [drop_coinciding app]. rewrite Hf.
  cbn [app]. f_equal. apply drop_coinciding_ext. intros l.
  rewrite omap_position_snoc, elem_of_app. split; [|auto].
  intros [H|H]; [exact H|]. unfold first_at_position in Hf.
  destruct (position e) as [l'|]; [|inversion H].
  apply list_elem_of_singleton in H as ->.
  apply bool_decide_eq_false in Hf. destruct (decide (l' ∈ omap position before)); tauto.
Qed.

End DedupFacts.

Section DedupTheorem.
Context {rt : PyRuntime}.

(** C8, as the code has it. Review blocks are filtered by position before
    their fields are read: of the blocks found, the first at each
    position is kept, in order; a block that sits where a block gone
    through before it sits, or whose position cannot be read, is dropped
    as if the page did not show it. Listing cards are not: every card is
    extracted, then the first branch of each URL is kept, and where a
    card sits on the page changes nothing. Five cards of which the fourth
    and fifth carry the URLs of the first and second yield three
    branches. *)
Theorem dedup_by_position_then_by_url
    (bank : string) (elements : list listing_element) (blocks : list review_element) :
  let out := (extract_branch_links (Found elements) bank).1 in
  let kept := unique_by_location ∅ blocks in
  (sublist kept blocks
   /\ NoDup (omap position kept)
   /\ (forall l, l ∈ omap position blocks <-> l ∈ omap position kept)
   /\ kept = drop_coinciding [] blocks
   /\ (forall before e after,
         blocks = before ++ e :: after ->
         (first_at_position before e = true -> e ∈ kept)
         /\ (first_at_position before e = false ->
             kept = unique_by_location ∅ (before ++ after)))
   /\ (forall find branch lg,
         collect_review_elements find review_selectors [] [] = (Found blocks, lg) ->
         exists lg',
           (extract_reviews_from_page find branch).1
           = reviews (process_elements branch (mk_harvest [] ∅ lg') kept)))
  /\
  (sublist out (extracted bank elements)
   /\ NoDup (branch_url <$> out)
   /\ (forall u, u ∈ branch_url <$> extracted bank elements <-> u ∈ branch_url <$> out)
   /\ (forall f, extract_branch_links (Found (moved f <$> elements)) bank
                 = extract_branch_links (Found elements) bank)
   /\ (forall e1 e2 e3 e4 e5 b1 b2 b3 b4 b5,
         elements = [e1; e2; e3; e4; e5] ->
         extract_branch bank e1 = Found b1 -> extract_branch bank e2 = Found b2 ->
         extract_branch bank e3 = Found b3 -> extract_branch bank e4 = Found b4 ->
         extract_branch bank e5 = Found b5 ->
         branch_url b1 <> branch_url b2 -> branch_url b1 <> branch_url b3 ->
         branch_url b2 <> branch_url b3 ->
         branch_url b4 = branch_url b1 -> branch_url b5 = branch_url b2 ->
         out = [b1; b2; b3])).
Proof.
  intros out kept. split.
  - destruct (unique_by_location_spec blocks ∅) as (Hs & Hn & Hf & Hc).
    split; [exact Hs|]. split; [exact Hn|]. split.
    + intros l. split.
      * intros Hl. destruct (Hc l Hl) as [H|H]; [|exact H].
        exfalso. revert H. apply not_elem_of_empty.
      * intros Hl. unfold kept in Hl.
        apply list_elem_of_omap in Hl as (e & He & Hp).
        apply list_elem_of_omap. exists e. split; [|exact Hp].
        eapply elem_of_sublist; [exact He | exact Hs].
    + assert (Hdrop : forall bs, unique_by_location ∅ bs = drop_coinciding [] bs).
      { intros bs. apply unique_by_location_drop. intros l.
        rewrite elem_of_empty. cbn [omap list_omap]. rewrite elem_of_nil. reflexivity. }
      split; [apply Hdrop|]. split.
      * intros before e after ->. unfold kept. rewrite !Hdrop. split.
        -- intros Hfirst. rewrite drop_coinciding_app. cbn [drop_coinciding app].
           rewrite Hfirst. apply elem_of_app. right. left.
        -- apply drop_coinciding_skip.
      * intros find branch lg Hcol. unfold extract_reviews_from_page. rewrite Hcol.
        destruct blocks as [|e es]; [exists []; reflexivity|].
        eexists. reflexivity.
  - subst out. rewrite extract_branch_links_out.
    destruct (unique_by_url_spec (extracted bank elements) ∅) as (Hs & Hn & Hf & Hc).
    split; [exact Hs|]. split; [exact Hn|]. split; [|split].
    + intros u. split.
      * intros Hu. apply list_elem_of_fmap in Hu as (b & -> & Hb).
        destruct (Hc b Hb) as [H|H]; [|exact H]. exfalso. revert H. apply not_elem_of_empty.
      * intros Hu. apply list_elem_of_fmap in Hu as (b & -> & Hb).
        apply list_elem_of_fmap. exists b. split; [reflexivity|].
        eapply elem_of_sublist; [exact Hb | exact Hs].
    + intros f. unfold extract_branch_links.
      rewrite extract_branches_moved, length_fmap. reflexivity.
    + intros e1 e2 e3 e4 e5 b1 b2 b3 b4 b5 -> E1 E2 E3 E4 E5 N12 N13 N23 U4 U5.
      unfold extracted. simpl. rewrite E1, E2, E3, E4, E5. simpl.
      rewrite U4, U5.
      rewrite decide_False by (apply not_elem_of_empty).
      rewrite decide_False by url_set.
      rewrite decide_False by url_set.
      rewrite decide_True by url_set.
      rewrite decide_True by url_set.
      reflexivity.
Qed.

End DedupTheorem.

(** Against C8 as stated: five cards, the last two at the positions of the
    first two; the listing yields five branches, not three. *)
Lemma listing_keeps_position_duplicates :
  le_location <$> five_cards !! 3%nat = le_location <$> five_cards !! 0%nat
  /\ le_location <$> five_cards !! 4%nat = le_location <$> five_cards !! 1%nat
  /\ length (@extract_branch_links eval_runtime (Found five_cards) "CIH Bank").1 = 5.
Proof. repeat split; vm_compute; reflexivity. Qed.

(** ** The text filter of [clean_review_text] *)

(** None of the classes the three patterns are built from holds a letter. *)
Lemma letter_classes c :
  is_letter c = true ->
  space_or_newline c = false /\ non_word_or_underscore c = false /\
  is_control c = false /\ is_space c = false /\ c <> newline.
Proof.
  destruct c as [[] [] [] [] [] [] [] []]; vm_compute; intros H;
    try discriminate H; repeat split; discriminate.
Qed.

Lemma at_end_letters s : at_end s = true -> count_class is_letter s = 0.
Proof.
  destruct s as [|c [|c' s]]; simpl; try discriminate; [reflexivity|].
  intros H. apply bool_decide_eq_true in H. subst c. reflexivity.
Qed.

(** A text matched by [p*] and then [k] has no letter when neither part
    can hold one. *)
Lemma star_then_letters p k s :
  (forall c, is_letter c = true -> p c = false) ->
  (forall s', k s' = true -> count_class is_letter s' = 0) ->
  star_then p k s = true -> count_class is_letter s = 0.
Proof.
  intros Hp Hk. induction s as [|c s IH]; simpl.
  - rewrite orb_false_r. apply Hk.
  - intros H. apply orb_prop in H as [H|H]; [apply (Hk _ H)|].
    apply andb_prop in H as [Hc Hs].
    destruct (is_letter c) eqn:El; [rewrite (Hp c El) in Hc; discriminate|].
    rewrite (IH Hs). reflexivity.
Qed.

Lemma plus_then_letters p k s :
  (forall c, is_letter c = true -> p c = false) ->
  (forall s', k s' = true -> count_class is_letter s' = 0) ->
  plus_then p k s = true -> count_class is_letter s = 0.
Proof.
  intros Hp Hk. destruct s as [|c s]; simpl; [discriminate|].
  intros H. apply andb_prop in H as [Hc Hs].
  destruct (is_letter c) eqn:El; [rewrite (Hp c El) in Hc; discriminate|].
  rewrite (star_then_letters p k s Hp Hk Hs). reflexivity.
Qed.

(** A text that one of the three patterns matches has no letter at all. *)
Lemma weird_no_letter t :
  existsb (fun pattern => pattern t) weird_patterns = true ->
  count_class is_letter t = 0.
Proof.
  unfold weird_patterns. cbn [existsb]. rewrite orb_false_r.
  intros H. apply orb_prop in H as [H|H]; [|apply orb_prop in H as [H|H]].
  - revert H. apply star_then_letters; [|apply at_end_letters].
    intros c Hc. apply letter_classes, Hc.
  - revert H. apply plus_then_letters; [|apply at_end_letters].
    intros c Hc. apply letter_classes, Hc.
  - revert H. apply star_then_letters; [intros c Hc; apply letter_classes, Hc|].
    intros s'. apply plus_then_letters; [intros c Hc; apply letter_classes, Hc|].
    intros s''. apply star_then_letters; [|apply at_end_letters].
    intros c Hc. apply letter_classes, Hc.
Qed.

(** X4. [is_valid_text] keeps a review text exactly when the text is
    present and holds at least three letters of [a-zA-Z]: the three
    patterns for blank, symbol-only and control-character texts never
    reject a text that passes the letter count, and a text they let through
    is still rejected without three such letters. *)
Theorem is_valid_text_three_letters (text : option string) :
  is_valid_text text = true <->
  exists t, text = Some t /\ 3 <= count_class is_letter t.
Proof.
  split.
  - destruct text as [[|c t]|]; unfold is_valid_text; try discriminate.
    destruct (existsb (fun pattern => pattern (String c t)) weird_patterns) eqn:Ew;
      [discriminate|].
    intros H. apply negb_true_iff, Nat.ltb_ge in H.
    exists (String c t). split; [reflexivity | exact H].
  - intros (t & -> & H3).
    destruct t as [|c t]; [simpl in H3; lia|].
    unfold is_valid_text.
    destruct (existsb (fun pattern => pattern (String c t)) weird_patterns) eqn:Ew.
    + apply weird_no_letter in Ew. lia.
    + apply negb_true_iff, Nat.ltb_ge. exact H3.
Qed.

(** ** The scroll drives, whatever the page does *)

Lemma search_loop_rounds b fuel i st :
  rounds (search_loop b fuel i st).2 <= rounds st + fuel.
Proof.
  revert i st. induction fuel as [|fuel IH]; intros i st; simpl; [lia|].
  destruct (sb_count b i) as [n|msg]; [|simpl; lia].
  destruct (sb_scroll b i) as [u|msg]; [|simpl; lia].
  destruct (decide (n = last_count st)).
  - destruct (decide (3 <= no_change_count st + 1)); [simpl; lia|].
    etransitivity; [apply IH|]. simpl. lia.
  - etransitivity; [apply IH|]. simpl. lia.
Qed.

Lemma panel_loop_rounds b fuel i st :
  panel_rounds (panel_loop b fuel i st).2 <= panel_rounds st + fuel.
Proof.
  revert i st. induction fuel as [|fuel IH]; intros i st; simpl; [lia|].
  destruct (pb_scroll b i) as [u|msg]; [|simpl; lia].
  destruct (pb_height b i) as [z|msg]; [|simpl; lia].
  destruct (decide (z = last_height st)); [simpl; lia|].
  etransitivity; [apply IH|]. simpl. lia.
Qed.

(** X5. Whatever the browser answers or raises, the listing scroll issues
    at most 20 scroll commands and the panel scroll at most 10. *)
Theorem scroll_rounds_bounded (b : search_browser) (pb : panel_browser) :
  scrolls (scroll_search_results b) <= max_scrolls /\
  scrolls (scroll_reviews_panel pb) <= max_panel_scrolls.
Proof.
  split.
  - unfold scroll_search_results.
    destruct (sb_containers b) as [[|d divs]|msg]; cbn [scrolls]; try lia.
    destruct (first_scrollable 0 (d :: divs)) as [[k|]|msg]; cbn [scrolls]; try lia.
    destruct (sb_hover b) as [u|msg]; cbn [scrolls]; try lia.
    pose proof (search_loop_rounds b max_scrolls 0
      (mk_scroll_state 0 0 0 [(INFO, "Found scrollable container, starting to scroll")])) as H.
    destruct (search_loop _ _ _ _) as [[| |msg] st];
      cbn [scrolls snd rounds] in *; lia.
  - unfold scroll_reviews_panel.
    destruct (find_panel pb panel_selectors) as [[p|]|msg]; cbn [scrolls]; try lia.
    destruct (pb_hover pb) as [u|msg]; cbn [scrolls]; try lia.
    pose proof (panel_loop_rounds pb max_panel_scrolls 0 (mk_panel_state 0 0 [])) as H.
    destruct (panel_loop _ _ _ _) as [[| |msg] st];
      cbn [scrolls snd panel_rounds] in *; lia.
Qed.

(** X6. On a page that shows its container and never raises, once the
    count of results stays what it was in round [p], the listing scroll
    makes at most three more rounds after round [p]; once the height stays
    what it was in round [p], the panel scroll makes at most one more. *)
Theorem scroll_settles_after_plateau
    (b : search_browser) (c : nat -> nat) (pb : panel_browser) (h : nat -> Z) (p : nat) :
  shows_counts b c -> shows_heights pb h ->
  (forall i, p <= i -> c i = c p) ->
  (forall i, p <= i -> h i = h p) ->
  scrolls (scroll_search_results b) <= p + 4 /\
  scrolls (scroll_reviews_panel pb) <= p + 2.
Proof.
  intros Hb Hpb Hc Hh. split.
  - assert (H3 : 3 <= run c (S (p + 3))).
    { apply run_stable3. unfold stable3, unchanged.
      replace (p + 3 - 1) with (S (p + 1)) by lia.
      replace (p + 3 - 2) with (S p) by lia.
      replace (p + 3) with (S (p + 2)) by lia. cbn [previous].
      rewrite (Hc (S (p + 2))), (Hc (p + 2)), (Hc (S (p + 1))), (Hc (p + 1)), (Hc (S p))
        by lia.
      repeat split; lia. }
    destruct (search_outcome b c Hb) as [(j & Hj & -> & _ & Hbefore)|(-> & Hbefore)].
    + destruct (decide (j <= p + 3)); [lia|].
      specialize (Hbefore (p + 3)). lia.
    + unfold max_scrolls in *. destruct (decide (20 <= p + 4)); [lia|].
      specialize (Hbefore (p + 3)). lia.
  - assert (H1 : h (S p) = previous 0%Z h (S p)).
    { cbn [previous]. apply Hh. lia. }
    destruct (panel_outcome pb h Hpb) as [(j & Hj & -> & _ & Hbefore)|(-> & Hbefore)].
    + destruct (decide (j <= S p)); [lia|].
      exfalso. apply (Hbefore (S p)); [lia | exact H1].
    + unfold max_panel_scrolls in *. destruct (decide (10 <= p + 2)); [lia|].
      exfalso. apply (Hbefore (S p)); [lia | exact H1].
Qed.

Section HarvestFacts.
Context {rt : PyRuntime}.

Lemma fingerprint_make branch f : fingerprint (make_review branch f) = review_key f.
Proof. destruct f. reflexivity. Qed.

(** The loop appends reviews built from the fields of some of the blocks,
    in the order of the blocks. *)
Lemma process_elements_appends branch elements h :
  exists kept,
    sublist kept elements /\
    reviews (process_elements branch h elements)
    = reviews h ++ ((fun e => make_review branch (extract_fields e)) <$> kept).
Proof.
  unfold process_elements. revert h.
  induction elements as [|e es IH]; intros h.
  - exists []. split; [constructor|]. simpl. rewrite app_nil_r. reflexivity.
  - cbn [foldl].
    destruct (IH (keep_review branch h (extract_fields e))) as (kept & Hs & E).
    unfold keep_review in E |- *.
    destruct (bool_decide (review_key (extract_fields e) ∉ seen_reviews h)
              && meaningful (extract_fields e)).
    + exists (e :: kept). split; [apply sublist_skip, Hs|].
      rewrite E. cbn [reviews]. rewrite <- app_assoc. reflexivity.
    + exists kept. split; [apply sublist_cons, Hs | exact E].
Qed.

(** The keys of the recorded reviews are in the set of seen keys and
    differ from one another. *)
Lemma keep_distinct branch h f :
  NoDup (fingerprint <$> reviews h) ->
  (forall r, r ∈ reviews h -> fingerprint r ∈ seen_reviews h) ->
  NoDup (fingerprint <$> reviews (keep_review branch h f)) /\
  (forall r, r ∈ reviews (keep_review branch h f) ->
             fingerprint r ∈ seen_reviews (keep_review branch h f)).
Proof.
  intros Hn Hs. unfold keep_review.
  destruct (bool_decide (review_key f ∉ seen_reviews h)) eqn:Ek; cbn [andb]; [|auto].
  destruct (meaningful f); [|auto].
  apply bool_decide_eq_true in Ek. cbn [reviews seen_reviews]. split.
  - rewrite fmap_app. apply NoDup_app. split; [exact Hn|]. split.
    + intros k Hk Hk'. apply list_elem_of_fmap in Hk as (r & -> & Hr).
      cbn [fmap list_fmap] in Hk'. apply list_elem_of_singleton in Hk'.
      rewrite fingerprint_make in Hk'. apply Ek. rewrite <- Hk'. apply Hs, Hr.
    + apply NoDup_singleton.
  - intros r Hr. apply elem_of_app in Hr as [Hr|Hr].
    + apply elem_of_union_r, Hs, Hr.
    + apply list_elem_of_singleton in Hr. subst r. rewrite fingerprint_make.
      apply elem_of_union_l, elem_of_singleton. reflexivity.
Qed.

Lemma process_distinct branch elements h :
  NoDup (fingerprint <$> reviews h) ->
  (forall r, r ∈ reviews h -> fingerprint r ∈ seen_reviews h) ->
  NoDup (fingerprint <$> reviews (process_elements branch h elements)).
Proof.
  unfold process_elements. revert h.
  induction elements as [|e es IH]; intros h Hn Hs; cbn [foldl]; [exact Hn|].
  destruct (keep_distinct branch h (extract_fields e) Hn Hs) as [Hn' Hs'].
  apply IH; assumption.
Qed.

(** What the loop over the selectors gathers. *)
Lemma collect_found find selectors acc lg :
  match (collect_review_elements find selectors acc lg).1 with
  | Found all => all = acc ++ found_blocks find selectors
                 /\ Forall (fun s => exists es, find s = Found es) selectors
  | Throws _ => Exists (fun s => exists msg, find s = Throws msg) selectors
  end.
Proof.
  revert acc lg. induction selectors as [|s selectors IH]; intros acc lg.
  - simpl. unfold found_blocks. simpl. rewrite app_nil_r. auto.
  - cbn [collect_review_elements]. unfold found_blocks. cbn [fmap list_fmap concat].
    destruct (find s) as [[|e es]|msg] eqn:Es.
    + specialize (IH acc lg). destruct (collect_review_elements find selectors acc lg).1.
      * destruct IH as [-> HF]. split; [reflexivity|]. constructor; eauto.
      * apply Exists_cons_tl, IH.
    + specialize (IH (acc ++ e :: es)
        (lg ++ [(INFO, "Found " +:+ pretty (length (e :: es))
                         +:+ " potential reviews with selector: " +:+ s)])).
      destruct (collect_review_elements find selectors _ _).1.
      * destruct IH as [-> HF]. split; [|constructor; eauto].
        unfold found_blocks. rewrite <- app_assoc. reflexivity.
      * apply Exists_cons_tl, IH.
    + simpl. apply Exists_cons_hd. eauto.
Qed.

(** The result of a page, as a function of the blocks found. *)
Lemma extract_reviews_out find branch :
  (extract_reviews_from_page find branch).1 = []
  \/ exists all,
       (collect_review_elements find review_selectors [] []).1 = Found all /\
       (extract_reviews_from_page find branch).1
       = reviews (process_elements branch
                    (mk_harvest [] ∅
                       ((collect_review_elements find review_selectors [] []).2 ++
                        [(INFO, "Found " +:+ pretty (length (unique_by_location ∅ all))
                                  +:+ " unique review elements after deduplication")]))
                    (unique_by_location ∅ all)).
Proof.
  unfold extract_reviews_from_page.
  destruct (collect_review_elements find review_selectors [] []) as [[[|e es]|msg] lg];
    [left; reflexivity | | left; reflexivity].
  right. exists (e :: es). split; reflexivity.
Qed.

(** X7. The reviews returned for a page have pairwise different keys:
    no two of them agree on name, rating, the first 50 characters of the
    text and date. *)
Theorem returned_keys_distinct find branch :
  NoDup (fingerprint <$> (extract_reviews_from_page find branch).1).
Proof.
  destruct (extract_reviews_out find branch) as [-> | (all & _ & ->)]; [constructor|].
  apply process_distinct; [constructor|].
  intros r Hr. inversion Hr.
Qed.

Lemma extract_reviews_built_for find branch :
  Forall (built_for branch) (extract_reviews_from_page find branch).1.
Proof.
  destruct (extract_reviews_out find branch) as [-> | (all & _ & ->)]; [constructor|].
  destruct (process_elements_appends branch (unique_by_location ∅ all)
              (mk_harvest [] ∅
                 ((collect_review_elements find review_selectors [] []).2 ++
                  [(INFO, "Found " +:+ pretty (length (unique_by_location ∅ all))
                            +:+ " unique review elements after deduplication")])))
    as (kept & _ & ->).
  cbn [reviews app]. apply Forall_fmap, Forall_forall.
  intros e _. repeat split.
Qed.

(** X8. Every review returned for a page carries the name of the bank,
    the name, the address and the URL of the branch that was passed in;
    its helpful count is 0, it has no owner response, and its [scraped_at]
    is the one default of the class, whatever the page shows. *)
Theorem returned_reviews_built_for_branch find branch :
  Forall (built_for branch) (extract_reviews_from_page find branch).1.
Proof. apply extract_reviews_built_for. Qed.

(** X9. The reviews returned for a page are built from the fields of
    blocks that the four selectors found, each block used at most once
    and in the order in which the selectors gathered them; so there are
    never more reviews than blocks. *)
Theorem returned_reviews_follow_blocks find branch :
  exists kept,
    sublist kept (found_blocks find review_selectors) /\
    (extract_reviews_from_page find branch).1
    = (fun e => make_review branch (extract_fields e)) <$> kept /\
    length (extract_reviews_from_page find branch).1
    <= length (found_blocks find review_selectors).
Proof.
  assert (Hlen : forall kept : list review_element,
    sublist kept (found_blocks find review_selectors) ->
    length ((fun e => make_review branch (extract_fields e)) <$> kept)
    <= length (found_blocks find review_selectors)).
  { intros kept Hs. rewrite length_fmap. apply sublist_length, Hs. }
  destruct (extract_reviews_out find branch) as [E | (all & Hall & E)].
  - exists []. rewrite E. split; [apply sublist_nil_l|]. split; [reflexivity|simpl; lia].
  - pose proof (collect_found find review_selectors [] []) as Hc.
    rewrite Hall in Hc. destruct Hc as [Hc _]. simpl in Hc.
    destruct (process_elements_appends branch (unique_by_location ∅ all)
                (mk_harvest [] ∅
                   ((collect_review_elements find review_selectors [] []).2 ++
                    [(INFO, "Found " +:+ pretty (length (unique_by_location ∅ all))
                              +:+ " unique review elements after deduplication")])))
      as (kept & Hs & Hk).
    assert (Hsub : sublist kept (found_blocks find review_selectors)).
    { rewrite <- Hc. etransitivity; [exact Hs|].
      apply (unique_by_location_spec all ∅). }
    exists kept. split; [exact Hsub|].
    rewrite E, Hk. cbn [reviews app]. split; [reflexivity | apply Hlen, Hsub].
Qed.

(** X10. When one of the four selectors makes the browser raise, no
    review is returned, whatever the other selectors found. *)
Theorem selector_failure_discards_page find branch selector msg :
  selector ∈ review_selectors -> find selector = Throws msg ->
  (extract_reviews_from_page find branch).1 = [].
Proof.
  intros Hin Hf.
  destruct (extract_reviews_out find branch) as [E | (all & Hall & _)]; [exact E|].
  pose proof (collect_found find review_selectors [] []) as Hc.
  rewrite Hall in Hc. destruct Hc as [_ HF].
  rewrite Forall_forall in HF. destruct (HF selector Hin) as [es Hes].
  rewrite Hf in Hes. discriminate Hes.
Qed.

(** *** The value of a field *)

Lemma last_cons_default (v current : string) (l : list string) :
  default current (last (v :: l)) = default v (last l).
Proof.
  destruct l as [|w l]; [reflexivity|]. rewrite last_cons_cons.
  revert w. induction l as [|z l IH]; intros w; [reflexivity|].
  rewrite !last_cons_cons. apply IH.
Qed.

(** X11. A field read through a list of selectors is the first found
    text that passes the check; when texts are found but none passes, it
    is the last text found; only when no selector finds anything is it
    the default. Found texts are stripped first. *)
Theorem field_value valid find selectors current :
  try_selectors valid find selectors current
  = match List.find valid (found_values find selectors) with
    | Some v => v
    | None => default current (last (found_values find selectors))
    end.
Proof.
  revert current. induction selectors as [|s selectors IH]; intros current.
  - reflexivity.
  - cbn [try_selectors]. unfold found_values. cbn [omap list_omap].
    fold (found_values find selectors).
    destruct (find s) as [t|msg]; [|apply IH].
    cbn [List.find]. destruct (valid (strip t)) eqn:Ev; [reflexivity|].
    rewrite IH. destruct (List.find valid (found_values find selectors)); [reflexivity|].
    symmetry. apply last_cons_default.
Qed.

(** *** The rating read from the label *)

(** X12. When the star image has a label, the rating is read from the
    label alone: it is the number spelled by a run of digits that the
    label shows directly before the word "star", blanks apart, and it is
    the integer 0 exactly when the label shows no such run; the filled
    stars are not counted. *)
Theorem label_rating (element : review_element) (label : string) :
  re_star_label element = Found (Some label) ->
  let shows ds :=
    ds <> "" /\ all_chars is_digit ds = true /\
    exists pre ws tail,
      all_chars is_space ws = true /\ label = pre +:+ ds +:+ ws +:+ "star" +:+ tail in
  (exists ds, shows ds /\ extract_rating element = float_of_digits ds)
  \/ (extract_rating element = RInt 0 /\ forall ds, ~ shows ds).
Proof.
  intros Hl shows. unfold extract_rating. rewrite Hl.
  destruct (search_star label) as [ds|] eqn:Es.
  - left. exists ds. split; [|reflexivity].
    apply search_star_spec in Es as (pre & ws & tail & E & Hne & Hd & Hw).
    split; [exact Hne|]. split; [exact Hd|]. exists pre, ws, tail. auto.
  - right. split; [reflexivity|].
    intros ds (Hne & Hd & pre & ws & tail & Hw & E).
    apply (search_star_complete pre ds ws tail Hne Hd Hw). rewrite <- E. exact Es.
Qed.

(** *** Cards and blocks that cannot be read *)

(** X19. A result card whose container or whose link cannot be read is
    skipped: the branches returned are those of the page without that
    card. *)
Theorem unreadable_card_skipped bank before bad after :
  (exists msg, le_parent bad = Throws msg) \/ (exists msg, le_href bad = Throws msg) ->
  (extract_branch_links (Found (before ++ bad :: after)) bank).1
  = (extract_branch_links (Found (before ++ after)) bank).1.
Proof.
  intros Hbad. rewrite !extract_branch_links_out. f_equal.
  unfold extracted. rewrite !omap_app. f_equal. cbn [omap list_omap].
  assert (E : exists msg, extract_branch bank bad = Throws msg).
  { unfold extract_branch. destruct Hbad as [[msg ->] | [msg H]]; [eauto|].
    destruct (le_parent bad); [rewrite H|]; eauto. }
  destruct E as [msg ->]. reflexivity.
Qed.

(** The log plays no part in what is recorded. *)
Lemma keep_log_irrelevant branch h h' f :
  reviews h = reviews h' -> seen_reviews h = seen_reviews h' ->
  reviews (keep_review branch h f) = reviews (keep_review branch h' f) /\
  seen_reviews (keep_review branch h f) = seen_reviews (keep_review branch h' f).
Proof.
  intros Hr Hs. unfold keep_review. rewrite Hs.
  destruct (bool_decide (review_key f ∉ seen_reviews h') && meaningful f);
    cbn [reviews seen_reviews]; rewrite ?Hr, ?Hs; auto.
Qed.

Lemma process_log_irrelevant branch elements h h' :
  reviews h = reviews h' -> seen_reviews h = seen_reviews h' ->
  reviews (process_elements branch h elements)
  = reviews (process_elements branch h' elements).
Proof.
  unfold process_elements. revert h h'.
  induction elements as [|e es IH]; intros h h' Hr Hs; cbn [foldl]; [exact Hr|].
  destruct (keep_log_irrelevant branch h h' (extract_fields e) Hr Hs) as [Hr' Hs'].
  apply IH; assumption.
Qed.

Lemma collect_all_found find selectors acc lg :
  Forall (fun s => exists es, find s = Found es) selectors ->
  (collect_review_elements find selectors acc lg).1
  = Found (acc ++ found_blocks find selectors).
Proof.
  intros HF. pose proof (collect_found find selectors acc lg) as H.
  destruct (collect_review_elements find selectors acc lg).1 as [all|msg].
  - destruct H as [-> _]. reflexivity.
  - exfalso. apply Exists_exists in H as (s & Hs & msg' & Hm).
    rewrite Forall_forall in HF. destruct (HF s Hs) as [es Hes]. congruence.
Qed.

(** The reviews of a page on which no selector raises. *)
Lemma extract_reviews_of_blocks find branch :
  Forall (fun s => exists es, find s = Found es) review_selectors ->
  (extract_reviews_from_page find branch).1
  = reviews (process_elements branch (mk_harvest [] ∅ [])
               (unique_by_location ∅ (found_blocks find review_selectors))).
Proof.
  intros HF. pose proof (collect_all_found find review_selectors [] [] HF) as Hc.
  cbn [app] in Hc. unfold extract_reviews_from_page.
  destruct (collect_review_elements find review_selectors [] []) as [found lg].
  cbn [fst] in Hc. subst found.
  destruct (found_blocks find review_selectors) as [|e es]; [reflexivity|].
  cbn [fst]. apply process_log_irrelevant; reflexivity.
Qed.

Lemma unique_by_location_skip seen before e after msg :
  re_location e = Throws msg ->
  unique_by_location seen (before ++ e :: after)
  = unique_by_location seen (before ++ after).
Proof.
  intros He. revert seen. induction before as [|b before IH]; intros seen.
  - cbn [app unique_by_location]. rewrite He. reflexivity.
  - cbn [app unique_by_location]. destruct (re_location b) as [loc|]; [|apply IH].
    destruct (decide (loc_key loc ∈ seen)); [apply IH|]. rewrite IH. reflexivity.
Qed.

(** X20. A block whose position cannot be read yields no review, whatever
    it holds: on pages where no selector raises, the reviews returned are
    those of the page without that block. *)
Theorem unlocated_block_yields_nothing find find' branch before e after msg :
  re_location e = Throws msg ->
  Forall (fun s => exists es, find s = Found es) review_selectors ->
  Forall (fun s => exists es, find' s = Found es) review_selectors ->
  found_blocks find review_selectors = before ++ e :: after ->
  found_blocks find' review_selectors = before ++ after ->
  (extract_reviews_from_page find branch).1 = (extract_reviews_from_page find' branch).1.
Proof.
  intros He HF HF' Hb Hb'.
  rewrite !extract_reviews_of_blocks by assumption.
  rewrite Hb, Hb', (unique_by_location_skip _ _ _ _ msg He). reflexivity.
Qed.

End HarvestFacts.

Section RunFacts.
Context {rt : PyRuntime}.

Lemma Forall_sublist {A : Type} (P : A -> Prop) (l k : list A) :
  Forall P l -> sublist k l -> Forall P k.
Proof.
  rewrite !Forall_forall. intros H Hs x Hx. apply H.
  eapply elem_of_sublist; eassumption.
Qed.

Lemma elem_of_concat {A : Type} (x : A) (ls : list (list A)) :
  x ∈ concat ls -> exists l, x ∈ l /\ l ∈ ls.
Proof.
  induction ls as [|l ls IH]; simpl; [intros H; inversion H|].
  intros H. apply elem_of_app in H as [H|H].
  - exists l. split; [exact H | left].
  - destruct (IH H) as (l' & Hx & Hl'). exists l'. split; [exact Hx | right; exact Hl'].
Qed.

Lemma visit_all_spec w branches collected :
  visit_all w branches collected
  = (collected ++ concat (visit_reviews w <$> with_url branches),
     if forallb has_url branches then Completed
     else Raised "'NoneType' object is not subscriptable").
Proof.
  revert collected. induction branches as [|b bs IH]; intros collected.
  - simpl. rewrite app_nil_r. reflexivity.
  - cbn [visit_all with_url forallb]. unfold has_url.
    destruct (branch_url b) as [u|] eqn:Eu.
    + rewrite IH. cbn [fmap list_fmap concat andb]. rewrite <- app_assoc.
      unfold visit_reviews at 2. rewrite Eu. reflexivity.
    + simpl. rewrite app_nil_r. reflexivity.
Qed.

(** The run, as a function of what the searches gathered. *)
Lemma scrape_unfold w st bank cities :
  scrape_bank_branches w st bank cities
  = match gathered w bank cities with
    | Throws msg => (st, Raised msg)
    | Found all =>
        (mk_scraper_state
           (branches_collected st ++ unique_by_url ∅ all)
           (reviews_collected st
              ++ concat (visit_reviews w <$> with_url (unique_by_url ∅ all))),
         if forallb has_url (unique_by_url ∅ all) then Completed
         else Raised "'NoneType' object is not subscriptable")
    end.
Proof.
  assert (H : forall searched : answer (list BankBranch),
    match searched with
    | Throws msg => (st, Raised msg)
    | Found all_branches =>
        let unique_branches := unique_by_url ∅ all_branches in
        let '(reviews, ended) := visit_all w unique_branches (reviews_collected st) in
        (mk_scraper_state (branches_collected st ++ unique_branches) reviews, ended)
    end
    = match searched with
      | Throws msg => (st, Raised msg)
      | Found all =>
          (mk_scraper_state
             (branches_collected st ++ unique_by_url ∅ all)
             (reviews_collected st
                ++ concat (visit_reviews w <$> with_url (unique_by_url ∅ all))),
           if forallb has_url (unique_by_url ∅ all) then Completed
           else Raised "'NoneType' object is not subscriptable")
      end).
  { intros [all|msg]; [|reflexivity]. cbv zeta. rewrite visit_all_spec. reflexivity. }
  unfold scrape_bank_branches, gathered.
  destruct cities as [[|c cs]|]; try apply H;
    (destruct (search_bank w bank "") as [page|msg]; [apply H | reflexivity]).
Qed.

Lemma links_bank page bank :
  Forall (fun b => bank_name b = bank) (extract_branch_links page bank).1.
Proof.
  destruct page as [elements|msg]; [|constructor].
  rewrite extract_branch_links_out.
  apply (Forall_sublist _ (extracted bank elements));
    [|apply (unique_by_url_spec (extracted bank elements) ∅)].
  unfold extracted. apply Forall_forall. intros b Hb.
  apply list_elem_of_omap in Hb as (e & _ & He).
  unfold extract_branch in He.
  destruct (le_parent e) as [parent|]; [|discriminate].
  destruct (le_href e) as [url|]; [|discriminate].
  destruct (extract_rating_and_count parent). injection He as <-. reflexivity.
Qed.

Lemma search_cities_bank w bank cities acc :
  Forall (fun b => bank_name b = bank) acc ->
  match search_cities w bank cities acc with
  | Found all => Forall (fun b => bank_name b = bank) all
  | Throws _ => True
  end.
Proof.
  revert acc. induction cities as [|c cs IH]; intros acc Hacc; cbn [search_cities];
    [exact Hacc|].
  destruct (search_bank w bank c) as [page|msg]; [|exact I].
  apply IH, Forall_app. split; [exact Hacc | apply links_bank].
Qed.

Lemma gathered_bank w bank cities :
  match gathered w bank cities with
  | Found all => Forall (fun b => bank_name b = bank) all
  | Throws _ => True
  end.
Proof.
  unfold gathered. destruct cities as [[|c cs]|].
  - destruct (search_bank w bank ""); [apply links_bank | exact I].
  - apply search_cities_bank. constructor.
  - destruct (search_bank w bank ""); [apply links_bank | exact I].
Qed.

(** What a run adds, in terms of the search phase. *)
Lemma new_branches_unfold w bank cities :
  new_branches w bank cities
  = match gathered w bank cities with
    | Found all => unique_by_url ∅ all
    | Throws _ => []
    end.
Proof.
  unfold new_branches. rewrite scrape_unfold.
  destruct (gathered w bank cities); reflexivity.
Qed.

Lemma new_reviews_unfold w bank cities :
  new_reviews w bank cities
  = concat (visit_reviews w <$> with_url (new_branches w bank cities)).
Proof.
  rewrite new_branches_unfold. unfold new_reviews. rewrite scrape_unfold.
  destruct (gathered w bank cities); reflexivity.
Qed.

Lemma new_branches_nodup w bank cities :
  NoDup (branch_url <$> new_branches w bank cities).
Proof.
  rewrite new_branches_unfold. destruct (gathered w bank cities) as [all|msg].
  - apply (unique_by_url_spec all ∅).
  - constructor.
Qed.

Lemma new_branches_bank w bank cities :
  Forall (fun b => bank_name b = bank) (new_branches w bank cities).
Proof.
  rewrite new_branches_unfold. pose proof (gathered_bank w bank cities) as H.
  destruct (gathered w bank cities) as [all|msg]; [|constructor].
  apply (Forall_sublist _ all); [exact H | apply (unique_by_url_spec all ∅)].
Qed.

Lemma with_url_sublist branches : sublist (with_url branches) branches.
Proof.
  induction branches as [|b bs IH]; simpl; [constructor|].
  destruct (has_url b); [apply sublist_skip, IH | apply sublist_nil_l].
Qed.

Lemma with_url_all branches :
  forallb has_url branches = true -> with_url branches = branches.
Proof.
  induction branches as [|b bs IH]; simpl; [reflexivity|].
  destruct (has_url b); [|discriminate]. intros H. rewrite (IH H). reflexivity.
Qed.

(** The first branch without a URL splits the list where the loop
    stops. *)
Lemma with_url_split branches :
  forallb has_url branches = false ->
  exists b after,
    branch_url b = None /\ branches = with_url branches ++ b :: after.
Proof.
  induction branches as [|b bs IH]; simpl; [discriminate|].
  destruct (has_url b) eqn:Eb.
  - intros H. destruct (IH H) as (b' & after & Hb' & E).
    exists b', after. split; [exact Hb'|]. simpl. rewrite <- E. reflexivity.
  - intros _. exists b, bs. split; [|reflexivity].
    unfold has_url in Eb. destruct (branch_url b); [discriminate | reflexivity].
Qed.

Lemma nodup_fmap_eq {A B : Type} (f : A -> B) (l : list A) x y :
  NoDup (f <$> l) -> x ∈ l -> y ∈ l -> f x = f y -> x = y.
Proof.
  induction l as [|a l IH]; intros Hn Hx Hy E; [inversion Hx|].
  rewrite fmap_cons in Hn. apply NoDup_cons in Hn as [Ha Hn].
  apply elem_of_cons in Hx as [->|Hx]; apply elem_of_cons in Hy as [->|Hy].
  - reflexivity.
  - exfalso. apply Ha. rewrite E. apply list_elem_of_fmap. eauto.
  - exfalso. apply Ha. rewrite <- E. apply list_elem_of_fmap. eauto.
  - apply IH; assumption.
Qed.

Lemma visit_built_for w branch : Forall (built_for branch) (visit_reviews w branch).
Proof.
  unfold visit_reviews, visit_branch_and_get_reviews.
  destruct (pp_get _); [|constructor].
  destruct (find_tab _ _); [|constructor].
  destruct (pp_click _); [|constructor].
  pose proof (extract_reviews_built_for
    (pp_find_reviews (web_place w (branch_url branch))) branch) as H.
  destruct (extract_reviews_from_page _ branch). exact H.
Qed.

(** X13. A run only appends to what the scraper holds, and what it
    appends, like the way it ends, does not depend on what was held
    before: the branches and reviews of earlier runs are not consulted. *)
Theorem run_appends w st bank cities :
  scrape_bank_branches w st bank cities
  = (mk_scraper_state
       (branches_collected st ++ new_branches w bank cities)
       (reviews_collected st ++ new_reviews w bank cities),
     (scrape_bank_branches w nothing_collected bank cities).2).
Proof.
  unfold new_branches, new_reviews. rewrite !scrape_unfold.
  destruct (gathered w bank cities) as [all|msg]; cbn [fst snd nothing_collected app
    branches_collected reviews_collected].
  - reflexivity.
  - rewrite !app_nil_r. destruct st. reflexivity.
Qed.

(** X14. The branches one run adds have pairwise different URLs, over
    all the cities searched, and each carries the name of the bank that
    was searched for. *)
Theorem new_branches_distinct w bank cities :
  NoDup (branch_url <$> new_branches w bank cities) /\
  Forall (fun b => bank_name b = bank) (new_branches w bank cities).
Proof. split; [apply new_branches_nodup | apply new_branches_bank]. Qed.

(** X15. A result link without an [href] gives a branch without a URL,
    and such a branch ends the run: the branches are all added, the
    reviews of the branches before it are collected, and then the call
    raises a [TypeError]; the branches after it are never visited. *)
Theorem missing_url_ends_run w st bank cities b :
  b ∈ new_branches w bank cities -> branch_url b = None ->
  exists before after,
    new_branches w bank cities = before ++ b :: after /\
    Forall (fun b' => branch_url b' <> None) before /\
    scrape_bank_branches w st bank cities
    = (mk_scraper_state
         (branches_collected st ++ new_branches w bank cities)
         (reviews_collected st ++ concat (visit_reviews w <$> before)),
       Raised "'NoneType' object is not subscriptable").
Proof.
  intros Hin Hb.
  pose proof (new_branches_nodup w bank cities) as Hn.
  pose proof (new_reviews_unfold w bank cities) as Hr.
  pose proof (run_frame := scrape_unfold w st bank cities).
  pose proof (new_branches_unfold w bank cities) as Hnew.
  destruct (gathered w bank cities) as [all|msg];
    [|rewrite Hnew in Hin; inversion Hin].
  rewrite <- Hnew in run_frame.
  assert (Hf : forallb has_url (new_branches w bank cities) = false).
  { apply not_true_is_false. intros Ht. rewrite forallb_forall in Ht.
    apply list_elem_of_In, Ht in Hin. unfold has_url in Hin. rewrite Hb in Hin.
    discriminate. }
  rewrite Hf in run_frame.
  destruct (with_url_split _ Hf) as (b' & after & Hb' & E).
  assert (b' = b) as ->.
  { apply (nodup_fmap_eq branch_url (new_branches w bank cities)); try assumption.
    - rewrite E. apply elem_of_app. right. left.
    - congruence. }
  exists (with_url (new_branches w bank cities)), after.
  split; [exact E|]. split; [|exact run_frame].
  clear. induction (new_branches w bank cities) as [|x l IH]; simpl; [constructor|].
  unfold has_url at 1. destruct (branch_url x) eqn:Ex; constructor; [congruence | exact IH].
Qed.

(** X16. Every review a run adds belongs to exactly one of the branches
    the run adds: it carries the columns of that branch and the name of
    the bank, and no other added branch has its URL. *)
Theorem new_review_has_one_branch w bank cities r :
  r ∈ new_reviews w bank cities ->
  exists b,
    b ∈ new_branches w bank cities /\ built_for b r /\ r_bank_name r = bank /\
    forall b', b' ∈ new_branches w bank cities ->
               branch_url b' = r_branch_url r -> b' = b.
Proof.
  rewrite new_reviews_unfold. intros Hr.
  apply elem_of_concat in Hr as (rs & Hr & Hrs).
  apply list_elem_of_fmap in Hrs as (b & -> & Hb).
  assert (Hin : b ∈ new_branches w bank cities).
  { eapply elem_of_sublist; [exact Hb | apply with_url_sublist]. }
  pose proof (visit_built_for w b) as Hbuilt.
  rewrite Forall_forall in Hbuilt. specialize (Hbuilt r Hr).
  exists b. split; [exact Hin|]. split; [exact Hbuilt|]. split.
  - destruct Hbuilt as (-> & _).
    pose proof (new_branches_bank w bank cities) as HB.
    rewrite Forall_forall in HB. apply HB, Hin.
  - intros b' Hb' E.
    apply (nodup_fmap_eq branch_url (new_branches w bank cities));
      [apply new_branches_nodup | assumption | assumption |].
    destruct Hbuilt as (_ & _ & _ & <- & _). exact E.
Qed.

(** X17. A run that ends normally has visited every branch it added,
    once and in order: all of them have a URL, and the reviews collected
    are those of the visits, one branch after the other. *)
Theorem completed_run_visits_all w st bank cities :
  (scrape_bank_branches w st bank cities).2 = Completed ->
  Forall (fun b => branch_url b <> None) (new_branches w bank cities) /\
  reviews_collected (scrape_bank_branches w st bank cities).1
  = reviews_collected st
    ++ concat (visit_reviews w <$> new_branches w bank cities).
Proof.
  rewrite scrape_unfold, new_branches_unfold.
  destruct (gathered w bank cities) as [all|msg]; [|discriminate].
  cbn [fst snd reviews_collected].
  destruct (forallb has_url (unique_by_url ∅ all)) eqn:Ef; [|discriminate].
  intros _. rewrite (with_url_all _ Ef). split; [|reflexivity].
  rewrite forallb_forall in Ef. apply Forall_forall. intros b Hb.
  apply list_elem_of_In, Ef in Hb. unfold has_url in Hb.
  destruct (branch_url b); [discriminate | discriminate Hb].
Qed.

Lemma search_cities_failure w bank before city after msg acc :
  Forall (fun c => exists page, search_bank w bank c = Found page) before ->
  search_bank w bank city = Throws msg ->
  search_cities w bank (before ++ city :: after) acc = Throws msg.
Proof.
  intros Hb Hc. revert acc. induction Hb as [|c before [page Hp] _ IH]; intros acc.
  - cbn [app search_cities]. rewrite Hc. reflexivity.
  - cbn [app search_cities]. rewrite Hp. apply IH.
Qed.

(** X21. When [search_bank] raises for one of the cities, the call raises
    with it and leaves the scraper as it was: the branches found in the
    cities before are not added and no branch is visited. *)
Theorem search_failure_loses_run w st bank before city after msg :
  Forall (fun c => exists page, search_bank w bank c = Found page) before ->
  search_bank w bank city = Throws msg ->
  scrape_bank_branches w st bank (Some (before ++ city :: after)) = (st, Raised msg).
Proof.
  intros Hb Hc. rewrite scrape_unfold.
  assert (E : gathered w bank (Some (before ++ city :: after)) = Throws msg).
  { unfold gathered.
    destruct (before ++ city :: after) as [|c cs] eqn:El.
    - destruct before; discriminate El.
    - rewrite <- El. apply search_cities_failure; assumption. }
  rewrite E. reflexivity.
Qed.

End RunFacts.

#[local] Existing Instance eval_runtime.
#[local] Existing Instance eval_pandas.

Lemma valid_T0 : valid T0.
Proof. vm_compute. intuition discriminate. Qed.

Lemma window_T0 : in_window T0.
Proof. vm_compute. intuition discriminate. Qed.



(** C3 at a count that stays at 5 and a height that stays at 900. *)
Lemma scroll_stops_on_stability_witness :
  shows_counts (steady_search 5) (fun _ => 5) /\
  shows_heights (steady_panel 900) (fun _ => 900%Z) /\
  scrolls (scroll_search_results (steady_search 5)) = 4.
Proof.
  assert (Hc : shows_counts (steady_search 5) (fun _ => 5)) by (repeat split; eauto).
  assert (Hh : shows_heights (steady_panel 900) (fun _ => 900%Z)) by (repeat split; eauto).
  split; [exact Hc|]. split; [exact Hh|].
  destruct (scroll_stops_on_stability _ _ _ _ Hc Hh) as [(_ & _ & _ & H) _].
  exact (H (fun _ => eq_refl)).
Defined.

(** C4 at a page without containers. *)
Lemma scroll_returns_none_witness :
  sb_containers bare_search = Found [] /\
  first_scrollable 0 [] = Found None /\
  scrolls (scroll_search_results bare_search) = 0.
Proof.
  split; [reflexivity|]. split; [reflexivity|].
  destruct (scroll_returns_none bare_search (steady_panel 900)) as (_ & _ & H & _).
  destruct (H [] eq_refl eq_refl) as [H0 _]. exact H0.
Defined.

(** C6 at fields without rating and with the text "ok". *)
Lemma admission_rule_witness :
  (rating_number (f_rating empty_fields) <= 0)%Z /\
  String.length (f_text empty_fields) <= 5 /\
  @keep_review eval_runtime some_branch (mk_harvest [] ∅ []) empty_fields
  = mk_harvest [] ∅ [].
Proof.
  assert (Hr : (rating_number (f_rating empty_fields) <= 0)%Z) by (simpl; lia).
  assert (Ht : String.length (f_text empty_fields) <= 5) by (simpl; lia).
  split; [exact Hr|]. split; [exact Ht|].
  destruct (@admission_rule eval_runtime some_branch (mk_harvest [] ∅ []) empty_fields)
    as (_ & H & _).
  exact (H Hr Ht).
Defined.

(** C7 at two reviews whose texts agree on their first 50 characters. *)
Lemma duplicate_key_rejected_witness :
  f_text long_fields_1 <> f_text long_fields_2 /\
  take 50 (f_text long_fields_1) = take 50 (f_text long_fields_2) /\
  let h := mk_harvest [] ∅ [] in
  let h1 := @keep_review eval_runtime some_branch h long_fields_1 in
  reviews h1 = [make_review some_branch long_fields_1] /\
  keep_review some_branch h1 long_fields_2 = h1.
Proof.
  split; [discriminate|]. split; [reflexivity|]. intros h h1.
  destruct (@duplicate_key_rejected eval_runtime some_branch h long_fields_1 long_fields_2 [])
    as (H1 & _ & H2).
  - reflexivity.
  - apply not_elem_of_empty.
  - right. repeat split; reflexivity.
  - split; [exact H1 | exact H2].
Defined.

(** C8 at five cards of which the last two repeat the first two, and at
    three blocks of which the second sits where the first sits. *)
Lemma dedup_by_position_then_by_url_witness :
  length (@extract_branch_links eval_runtime (Found five_cards_resurfaced) "CIH Bank").1 = 3
  /\ position ten_star_block = position four_star_block
  /\ unique_by_location ∅ three_blocks = [four_star_block; pipe_name_block]
  /\ unique_by_location ∅ three_blocks
     = unique_by_location ∅ [four_star_block; pipe_name_block].
Proof.
  destruct (@dedup_by_position_then_by_url eval_runtime "CIH Bank" five_cards_resurfaced
              three_blocks)
    as ((_ & _ & _ & Hdrop & Hsplit & _) & (_ & _ & _ & _ & H)).
  split; [|split; [reflexivity|split]].
  - erewrite H.
    + reflexivity.
    + reflexivity.
    + reflexivity.
    + reflexivity.
    + reflexivity.
    + reflexivity.
    + reflexivity.
    + discriminate.
    + discriminate.
    + discriminate.
    + reflexivity.
    + reflexivity.
  - rewrite Hdrop. vm_compute. reflexivity.
  - destruct (Hsplit [four_star_block] ten_star_block [pipe_name_block] eq_refl)
      as [_ Hskip].
    apply Hskip. vm_compute. reflexivity.
Defined.


#[local] Existing Instance eval_runtime.
#[local] Existing Instance eval_pandas.



(** X3 at one and two months before 2025-06-15. *)
Lemma larger_quantity_earlier_date_witness :
  valid T0 /\ (0 <= 1 <= 2)%Z /\
  (toordinal (mk_datetime 2025 4 15 0 0 0) <= toordinal (mk_datetime 2025 5 15 0 0 0))%Z.
Proof.
  split; [exact valid_T0|]. split; [lia|].
  apply (larger_quantity_earlier_date "months" 1 2 T0
           (Ok (Relative (new_relativedelta 0 1 0)))
           (Ok (Relative (new_relativedelta 0 2 0))));
    [exact valid_T0 | lia | reflexivity | reflexivity
     | vm_compute; reflexivity | vm_compute; reflexivity].
Defined.

(** X6 at a count that stays at 5 and a height that stays at 900, from the
    first round on. *)
Lemma scroll_settles_after_plateau_witness :
  shows_counts (steady_search 5) (fun _ => 5) /\
  shows_heights (steady_panel 900) (fun _ => 900%Z) /\
  scrolls (scroll_search_results (steady_search 5)) <= 0 + 4 /\
  scrolls (scroll_reviews_panel (steady_panel 900)) <= 0 + 2.
Proof.
  assert (Hc : shows_counts (steady_search 5) (fun _ => 5)) by (repeat split; eauto).
  assert (Hh : shows_heights (steady_panel 900) (fun _ => 900%Z)) by (repeat split; eauto).
  split; [exact Hc|]. split; [exact Hh|].
  exact (scroll_settles_after_plateau _ _ _ _ 0 Hc Hh
           (fun _ _ => eq_refl) (fun _ _ => eq_refl)).
Defined.

(** X10 at a page whose second selector raises. *)
Lemma selector_failure_discards_page_witness :
  "[jscontroller='fIQYlf']" ∈ review_selectors /\
  broken_page "[jscontroller='fIQYlf']" = Throws "stale element reference" /\
  broken_page "[data-review-id]" = Found [ten_star_block] /\
  (extract_reviews_from_page broken_page some_branch).1 = [].
Proof.
  assert (Hin : "[jscontroller='fIQYlf']" ∈ review_selectors)
    by (apply list_elem_of_further, list_elem_of_here).
  split; [exact Hin|]. split; [reflexivity|]. split; [reflexivity|].
  exact (selector_failure_discards_page broken_page some_branch
           "[jscontroller='fIQYlf']" "stale element reference" Hin eq_refl).
Defined.

(** X12 at the label "4 stars". *)
Lemma label_rating_witness :
  re_star_label four_star_block = Found (Some "4 stars") /\
  ((exists ds,
      (ds <> "" /\ all_chars is_digit ds = true /\
       exists pre ws tail,
         all_chars is_space ws = true /\ "4 stars" = pre +:+ ds +:+ ws +:+ "star" +:+ tail)
      /\ extract_rating four_star_block = float_of_digits ds)
   \/ (extract_rating four_star_block = RInt 0 /\
       forall ds,
         ~ (ds <> "" /\ all_chars is_digit ds = true /\
            exists pre ws tail,
              all_chars is_space ws = true /\
              "4 stars" = pre +:+ ds +:+ ws +:+ "star" +:+ tail))).
Proof.
  split; [reflexivity|].
  exact (label_rating four_star_block "4 stars" eq_refl).
Defined.

(** X15 at three cards of which the second has no link. *)
Lemma missing_url_ends_run_witness :
  branch_without_url ∈ new_branches (web_of cards_with_gap) "CIH Bank" None /\
  branch_url branch_without_url = None /\
  exists before after,
    new_branches (web_of cards_with_gap) "CIH Bank" None
    = before ++ branch_without_url :: after /\
    Forall (fun b' => branch_url b' <> None) before /\
    scrape_bank_branches (web_of cards_with_gap) nothing_collected "CIH Bank" None
    = (mk_scraper_state
         (branches_collected nothing_collected ++ new_branches (web_of cards_with_gap) "CIH Bank" None)
         (reviews_collected nothing_collected
            ++ concat (visit_reviews (web_of cards_with_gap) <$> before)),
       Raised "'NoneType' object is not subscriptable").
Proof.
  assert (Hin : branch_without_url ∈ new_branches (web_of cards_with_gap) "CIH Bank" None).
  { vm_compute. apply list_elem_of_further, list_elem_of_here. }
  split; [exact Hin|]. split; [reflexivity|].
  exact (missing_url_ends_run (web_of cards_with_gap) nothing_collected "CIH Bank" None
           branch_without_url Hin eq_refl).
Defined.

(** X16 at the review of the first of two branches. *)
Lemma new_review_has_one_branch_witness :
  let r := make_review agdal_branch (extract_fields ten_star_block) in
  r ∈ new_reviews (web_of two_cards) "CIH Bank" (Some ["Rabat"]) /\
  exists b,
    b ∈ new_branches (web_of two_cards) "CIH Bank" (Some ["Rabat"]) /\
    built_for b r /\ r_bank_name r = "CIH Bank" /\
    forall b', b' ∈ new_branches (web_of two_cards) "CIH Bank" (Some ["Rabat"]) ->
               branch_url b' = r_branch_url r -> b' = b.
Proof.
  intros r.
  assert (Hin : r ∈ new_reviews (web_of two_cards) "CIH Bank" (Some ["Rabat"])).
  { vm_compute. apply list_elem_of_here. }
  split; [exact Hin|].
  exact (new_review_has_one_branch (web_of two_cards) "CIH Bank" (Some ["Rabat"]) r Hin).
Defined.

(** X17 at two branches with links. *)
Lemma completed_run_visits_all_witness :
  (scrape_bank_branches (web_of two_cards) nothing_collected "CIH Bank" (Some ["Rabat"; "Sale"])).2
  = Completed /\
  Forall (fun b => branch_url b <> None)
    (new_branches (web_of two_cards) "CIH Bank" (Some ["Rabat"; "Sale"])) /\
  reviews_collected
    (scrape_bank_branches (web_of two_cards) nothing_collected "CIH Bank" (Some ["Rabat"; "Sale"])).1
  = reviews_collected nothing_collected
    ++ concat (visit_reviews (web_of two_cards)
                 <$> new_branches (web_of two_cards) "CIH Bank" (Some ["Rabat"; "Sale"])).
Proof.
  assert (E : (scrape_bank_branches (web_of two_cards) nothing_collected "CIH Bank"
                 (Some ["Rabat"; "Sale"])).2 = Completed) by (vm_compute; reflexivity).
  split; [exact E|].
  exact (completed_run_visits_all (web_of two_cards) nothing_collected "CIH Bank"
           (Some ["Rabat"; "Sale"]) E).
Defined.

(** X18 at two years, weeks, days and hours before 2025-06-15. *)
Lemma unit_conversions_witness :
  valid T0 /\ (0 <= 2)%Z /\
  shifted "months" (12 * 2) T0 = shifted "years" 2 T0 /\
  shifted "days" (7 * 2) T0 = shifted "weeks" 2 T0 /\
  shifted "hours" (24 * 2) T0 = shifted "days" 2 T0 /\
  shifted "minutes" (60 * 2) T0 = shifted "hours" 2 T0.
Proof.
  split; [exact valid_T0|]. split; [lia|].
  exact (unit_conversions T0 2 valid_T0 ltac:(lia)).
Defined.

(** X19 at three cards of which the second cannot be read. *)
Lemma unreadable_card_skipped_witness :
  ((exists msg, le_parent unreadable_card = Throws msg) \/
   (exists msg, le_href unreadable_card = Throws msg)) /\
  (extract_branch_links
     (Found ([listing_card (8, 100)%Z "CIH Agdal" "https://maps.example/1"]
             ++ unreadable_card
             :: [listing_card (8, 340)%Z "CIH Ocean" "https://maps.example/3"]))
     "CIH Bank").1
  = (extract_branch_links
       (Found ([listing_card (8, 100)%Z "CIH Agdal" "https://maps.example/1"]
               ++ [listing_card (8, 340)%Z "CIH Ocean" "https://maps.example/3"]))
       "CIH Bank").1.
Proof.
  assert (H : (exists msg, le_parent unreadable_card = Throws msg) \/
              (exists msg, le_href unreadable_card = Throws msg))
    by (left; eexists; reflexivity).
  split; [exact H|].
  exact (unreadable_card_skipped "CIH Bank" _ unreadable_card _ H).
Defined.

(** X20 at a page with two blocks of which the second has no readable
    position. *)
Lemma unlocated_block_yields_nothing_witness :
  re_location unlocated_block = Throws "stale element reference" /\
  found_blocks (review_page [ten_star_block; unlocated_block]) review_selectors
  = [ten_star_block] ++ unlocated_block :: [] /\
  found_blocks (review_page [ten_star_block]) review_selectors = [ten_star_block] ++ [] /\
  (extract_reviews_from_page (review_page [ten_star_block; unlocated_block]) some_branch).1
  = (extract_reviews_from_page (review_page [ten_star_block]) some_branch).1.
Proof.
  split; [reflexivity|]. split; [reflexivity|]. split; [reflexivity|].
  apply (unlocated_block_yields_nothing _ _ some_branch [ten_star_block] unlocated_block []
           "stale element reference");
    try reflexivity; repeat constructor; eexists; reflexivity.
Defined.

(** X21 at a search over Rabat and Sale of which the second fails. *)
Lemma search_failure_loses_run_witness :
  Forall (fun c => exists page,
            search_bank (web_without_sale two_cards) "CIH Bank" c = Found page) ["Rabat"] /\
  search_bank (web_without_sale two_cards) "CIH Bank" "Sale"
  = Throws "net::ERR_CONNECTION_RESET" /\
  scrape_bank_branches (web_without_sale two_cards) nothing_collected "CIH Bank"
    (Some (["Rabat"] ++ "Sale" :: []))
  = (nothing_collected, Raised "net::ERR_CONNECTION_RESET").
Proof.
  assert (Hb : Forall (fun c => exists page,
                 search_bank (web_without_sale two_cards) "CIH Bank" c = Found page)
                 ["Rabat"])
    by (repeat constructor; eexists; reflexivity).
  split; [exact Hb|]. split; [reflexivity|].
  exact (search_failure_loses_run (web_without_sale two_cards) nothing_collected "CIH Bank"
           ["Rabat"] "Sale" [] "net::ERR_CONNECTION_RESET" Hb eq_refl).
Defined.
